(** * A model of the stratum mining server with merge-mining support

    The development embeds the stratum server (work-unit assembly, share
    submission, request handlers and the work-template cache) as Rocq
    functions over an explicit state, and proves properties of the
    embedding.  Collaborators that live outside the server proper (hashing,
    Merkle helpers, consensus checks, the merge-mine client, ...) are the
    fields of the [Externals] class or of the [NodeView] record. *)

From Stdlib Require Import ZArith NArith QArith List String Ascii Lia.
From Stdlib.Strings Require Import Byte.
From stdpp Require Import base option list gmap strings sorting pretty.

Local Open Scope Z_scope.

(** ** Bytes, fixed-width integers and 256-bit blobs *)

Abbreviation bytes := (list byte).

(** A [uint256] is a blob of 32 bytes, in memory order. *)
Abbreviation uint256 := (list byte).

#[global] Instance byte_eq_dec : EqDecision byte := Byte.byte_eq_dec.

#[global] Program Instance byte_countable : Countable byte :=
  inj_countable' Byte.to_N (fun n => default x00 (Byte.of_N n)) _.
Next Obligation. intros x. simpl. by rewrite Byte.of_to_N. Qed.

Definition Z_of_byte (b : byte) : Z := Z.of_N (Byte.to_N b).

Definition byte_of_Z (z : Z) : byte :=
  default x00 (Byte.of_N (Z.to_N (z mod 256))).

(** [char] is signed on the platforms the server is built for. *)
Definition signed_char (b : byte) : Z :=
  if Z_of_byte b <? 128 then Z_of_byte b else Z_of_byte b - 256.

Definition uint32_max : Z := 2 ^ 32.
Definition uint64_max : Z := 2 ^ 64.
Definition to_uint32 (z : Z) : Z := z mod uint32_max.
Definition to_uint64 (z : Z) : Z := z mod uint64_max.

(** [uint256()] : the default-constructed, all-zero blob. *)
Definition uint256_zero : uint256 := repeat x00 32.

(** ** Doubles

    The server does no arithmetic on [double]s: it reads them, copies them,
    compares them and writes them out.  A [double] is modelled by its value:
    a rational for a finite one, one of the two infinities, or NaN.  The
    comparisons are those of IEEE 754, false whenever an operand is NaN. *)
Inductive double : Type :=
| Finite (q : Q)
| Infinity (negative : bool)
| NaN.

Definition Qltb (x y : Q) : bool := negb (Qle_bool y x).

(** [x < y] *)
Definition double_lt (x y : double) : bool :=
  match x, y with
  | Finite p, Finite q => Qltb p q
  | Finite _, Infinity negative => negb negative
  | Infinity negative, Finite _ => negative
  | Infinity negative, Infinity negative' => negative && negb negative'
  | NaN, _ | _, NaN => false
  end.

(** [x <= y] *)
Definition double_le (x y : double) : bool :=
  match x, y with
  | Finite p, Finite q => Qle_bool p q
  | Finite _, Infinity negative => negb negative
  | Infinity negative, Finite _ => negative
  | Infinity negative, Infinity negative' => negative || negb negative'
  | NaN, _ | _, NaN => false
  end.

(** [x == y] *)
Definition double_eq (x y : double) : bool :=
  match x, y with
  | Finite p, Finite q => Qeq_bool p q
  | Infinity negative, Infinity negative' => Bool.eqb negative negative'
  | _, _ => false
  end.

(** Little-endian encoding of the low [len] bytes of [v]. *)
Fixpoint le_bytes (len : nat) (v : Z) : bytes :=
  match len with
  | O => []
  | S k => byte_of_Z v :: le_bytes k (v / 256)
  end.

(** Order of [uint256] keys inside a [std::map]: bytewise comparison. *)
Fixpoint bytes_compare (a b : bytes) : comparison :=
  match a, b with
  | [], [] => Eq
  | [], _ :: _ => Lt
  | _ :: _, [] => Gt
  | x :: a', y :: b' =>
      match Z_of_byte x ?= Z_of_byte y with
      | Eq => bytes_compare a' b'
      | c => c
      end
  end.

Definition uint256_le (a b : uint256) : Prop := bytes_compare a b <> Gt.

#[global] Instance uint256_le_dec a b : Decision (uint256_le a b).
Proof. unfold uint256_le. destruct (bytes_compare a b); [left|left|right]; congruence. Defined.

(** Entries of a [std::map<uint256, V>] in iteration order. *)
Definition std_map_items {V : Type} (m : gmap uint256 V) : list (uint256 * V) :=
  merge_sort (fun x y => uint256_le (fst x) (fst y)) (map_to_list m).

(** [bswap_32] applied to each 32-bit word of a blob. *)
Fixpoint bswap_words (h : bytes) : bytes :=
  match h with
  | a :: b :: c :: d :: rest => d :: c :: b :: a :: bswap_words rest
  | _ => h
  end.

(** ** JSON values *)

#[warnings="-register-all"]
Inductive UniValue : Type :=
| VNULL
| VBOOL (b : bool)
| VNUM (n : Z)
| VSTR (s : string)
| VARR (items : list UniValue)
| VOBJ (members : list (string * UniValue)).

(** ** Exceptions and outcomes *)

Inductive RPCErrorCode : Set :=
| RPC_INVALID_REQUEST
| RPC_METHOD_NOT_FOUND
| RPC_INTERNAL_ERROR
| RPC_PARSE_ERROR
| RPC_INVALID_PARAMETER
| RPC_OUT_OF_MEMORY
| RPC_CLIENT_NOT_CONNECTED
| RPC_CLIENT_IN_INITIAL_DOWNLOAD.

(** The [std::runtime_error]s (and other [std::exception]s) raised by the
    server and by the JSON accessors it calls, one constructor per site. *)
Inductive what : Set :=
| NotAString                         (* UniValue::get_str on a non-string *)
| NotAnArray                         (* UniValue::get_array *)
| NotAnObject                        (* UniValue::get_obj *)
| NotAnInteger                       (* UniValue::get_int *)
| NotHexString (name : string)       (* ParseUInt256: not a string *)
| Not32Bytes (name : string)         (* ParseUInt256: wrong length *)
| MoreThanOneCommitment              (* AuxWorkMerkleRoot *)
| TransactionTooSmall                (* GetWorkUnit *)
| NoExtranonceField                  (* GetWorkUnit *)
| NoTransactions                     (* SubmitBlock *)
| UnexpectedNumberOfInputs           (* SubmitBlock *)
| UnexpectedNonceLength (extranonce1_size extranonce2_size : nat) (* SubmitBlock *)
| MissingCoinbaseInput               (* SubmitBlock *)
| MissingCoinbaseOutputs             (* SubmitBlock *)
| LengthError                        (* std::vector::resize past max_size *)
| BadLexicalCast.                    (* boost::lexical_cast<double> *)

Inductive exn : Type :=
| JSONRPCError (code : RPCErrorCode) (message : string)
| runtime_error (w : what).

(** Executions that leave the language semantics or never come back. *)
Inductive fault : Set :=
| UndefinedBehaviour
| NonTermination.

Inductive outcome (A : Type) : Type :=
| Ret (a : A)
| Throw (e : exn)
| Abort (f : fault).
Arguments Ret {A} a.
Arguments Throw {A} e.
Arguments Abort {A} f.

Definition obind {A B} (o : outcome A) (k : A -> outcome B) : outcome B :=
  match o with
  | Ret a => k a
  | Throw e => Throw e
  | Abort f => Abort f
  end.

(** ** Transactions, blocks and work *)

Record COutPoint := {
  prevout_hash : uint256;
  prevout_n : Z }.

Record CTxIn := {
  prevout : COutPoint;
  scriptSig : bytes;
  nSequence : Z;
  scriptWitness : list bytes }.

Record CTxOut := {
  nValue : Z;
  scriptPubKey : bytes }.

Record CMutableTransaction := {
  tx_nVersion : Z;
  vin : list CTxIn;
  vout : list CTxOut;
  nLockTime : Z }.

Record CBlockHeader := {
  nVersion : Z;
  hashPrevBlock : uint256;
  hashMerkleRoot : uint256;
  nTime : Z;
  nBits : Z;
  nNonce : Z }.

Record CBlock := {
  header : CBlockHeader;
  vtx : list CMutableTransaction }.

Record CBlockTemplate := {
  block : CBlock;
  has_block_final_tx : bool }.

(** A block index entry; pointers to entries are compared by identity,
    which is the hash of the block the entry stands for. *)
Record CBlockIndex := {
  phashBlock : uint256;
  nHeight : Z }.

#[global] Instance CBlockIndex_eq_dec : EqDecision CBlockIndex.
Proof. solve_decision. Defined.

Record AuxWork := {
  commit : uint256;
  bits : Z;
  bias : Z }.

Record SecondStageWork := {
  ss_job_id : string;
  ss_hashPrevBlock : uint256;
  ss_cb1 : bytes;
  ss_cb2 : bytes;
  ss_cb_branch : list uint256;
  ss_nVersion : Z;
  ss_nBits : Z;
  ss_nTime : Z;
  ss_diff : double }.

Record SecondStageProof := {
  sp_extranonce1 : bytes;
  sp_extranonce2 : bytes;
  sp_nVersion : Z;
  sp_nTime : Z;
  sp_nNonce : Z }.

Record AuxProof := {
  midstate_hash : uint256;
  midstate_buffer : bytes;
  midstate_length : Z;
  lock_time : Z;
  aux_branch : list uint256;
  num_txns : Z;
  ap_nVersion : Z;
  ap_hashPrevBlock : uint256;
  ap_nTime : Z;
  ap_nBits : Z;
  ap_nNonce : Z }.

Record StratumWork := {
  m_prev_block_index : option CBlockIndex;
  m_block_template : CBlockTemplate;
  m_cb_branch : list uint256;
  m_is_witness_enabled : bool;
  m_height : Z }.

Definition GetBlock (w : StratumWork) : CBlock := block (m_block_template w).

(** ** Client sessions and the global state of the server *)

Record StratumClient := {
  m_nextid : Z;
  m_secret : uint256;
  m_client : string;
  m_authorized : bool;
  m_addr : string;
  m_mmauth : gmap uint256 (string * string);
  m_mmwork : gmap uint256 (Z * gmap uint256 AuxWork);
  m_mindiff : double;
  m_version_rolling_mask : Z;
  m_last_tip : option CBlockIndex;
  m_last_second_stage : option (uint256 * uint256);
  m_send_work : bool;
  m_supports_extranonce : bool }.

Definition set_m_nextid (v : Z) (c : StratumClient) : StratumClient :=
  {| m_nextid := v; m_secret := m_secret c; m_client := m_client c;
     m_authorized := m_authorized c; m_addr := m_addr c; m_mmauth := m_mmauth c;
     m_mmwork := m_mmwork c; m_mindiff := m_mindiff c;
     m_version_rolling_mask := m_version_rolling_mask c; m_last_tip := m_last_tip c;
     m_last_second_stage := m_last_second_stage c; m_send_work := m_send_work c;
     m_supports_extranonce := m_supports_extranonce c |}.

Definition set_m_client (v : string) (c : StratumClient) : StratumClient :=
  {| m_nextid := m_nextid c; m_secret := m_secret c; m_client := v;
     m_authorized := m_authorized c; m_addr := m_addr c; m_mmauth := m_mmauth c;
     m_mmwork := m_mmwork c; m_mindiff := m_mindiff c;
     m_version_rolling_mask := m_version_rolling_mask c; m_last_tip := m_last_tip c;
     m_last_second_stage := m_last_second_stage c; m_send_work := m_send_work c;
     m_supports_extranonce := m_supports_extranonce c |}.

Definition set_m_authorized (v : bool) (c : StratumClient) : StratumClient :=
  {| m_nextid := m_nextid c; m_secret := m_secret c; m_client := m_client c;
     m_authorized := v; m_addr := m_addr c; m_mmauth := m_mmauth c;
     m_mmwork := m_mmwork c; m_mindiff := m_mindiff c;
     m_version_rolling_mask := m_version_rolling_mask c; m_last_tip := m_last_tip c;
     m_last_second_stage := m_last_second_stage c; m_send_work := m_send_work c;
     m_supports_extranonce := m_supports_extranonce c |}.

Definition set_m_addr (v : string) (c : StratumClient) : StratumClient :=
  {| m_nextid := m_nextid c; m_secret := m_secret c; m_client := m_client c;
     m_authorized := m_authorized c; m_addr := v; m_mmauth := m_mmauth c;
     m_mmwork := m_mmwork c; m_mindiff := m_mindiff c;
     m_version_rolling_mask := m_version_rolling_mask c; m_last_tip := m_last_tip c;
     m_last_second_stage := m_last_second_stage c; m_send_work := m_send_work c;
     m_supports_extranonce := m_supports_extranonce c |}.

Definition set_m_mmauth (v : gmap uint256 (string * string)) (c : StratumClient) : StratumClient :=
  {| m_nextid := m_nextid c; m_secret := m_secret c; m_client := m_client c;
     m_authorized := m_authorized c; m_addr := m_addr c; m_mmauth := v;
     m_mmwork := m_mmwork c; m_mindiff := m_mindiff c;
     m_version_rolling_mask := m_version_rolling_mask c; m_last_tip := m_last_tip c;
     m_last_second_stage := m_last_second_stage c; m_send_work := m_send_work c;
     m_supports_extranonce := m_supports_extranonce c |}.

Definition set_m_mmwork (v : gmap uint256 (Z * gmap uint256 AuxWork)) (c : StratumClient) : StratumClient :=
  {| m_nextid := m_nextid c; m_secret := m_secret c; m_client := m_client c;
     m_authorized := m_authorized c; m_addr := m_addr c; m_mmauth := m_mmauth c;
     m_mmwork := v; m_mindiff := m_mindiff c;
     m_version_rolling_mask := m_version_rolling_mask c; m_last_tip := m_last_tip c;
     m_last_second_stage := m_last_second_stage c; m_send_work := m_send_work c;
     m_supports_extranonce := m_supports_extranonce c |}.

Definition set_m_mindiff (v : double) (c : StratumClient) : StratumClient :=
  {| m_nextid := m_nextid c; m_secret := m_secret c; m_client := m_client c;
     m_authorized := m_authorized c; m_addr := m_addr c; m_mmauth := m_mmauth c;
     m_mmwork := m_mmwork c; m_mindiff := v;
     m_version_rolling_mask := m_version_rolling_mask c; m_last_tip := m_last_tip c;
     m_last_second_stage := m_last_second_stage c; m_send_work := m_send_work c;
     m_supports_extranonce := m_supports_extranonce c |}.

Definition set_m_version_rolling_mask (v : Z) (c : StratumClient) : StratumClient :=
  {| m_nextid := m_nextid c; m_secret := m_secret c; m_client := m_client c;
     m_authorized := m_authorized c; m_addr := m_addr c; m_mmauth := m_mmauth c;
     m_mmwork := m_mmwork c; m_mindiff := m_mindiff c;
     m_version_rolling_mask := v; m_last_tip := m_last_tip c;
     m_last_second_stage := m_last_second_stage c; m_send_work := m_send_work c;
     m_supports_extranonce := m_supports_extranonce c |}.

Definition set_m_last_tip (v : option CBlockIndex) (c : StratumClient) : StratumClient :=
  {| m_nextid := m_nextid c; m_secret := m_secret c; m_client := m_client c;
     m_authorized := m_authorized c; m_addr := m_addr c; m_mmauth := m_mmauth c;
     m_mmwork := m_mmwork c; m_mindiff := m_mindiff c;
     m_version_rolling_mask := m_version_rolling_mask c; m_last_tip := v;
     m_last_second_stage := m_last_second_stage c; m_send_work := m_send_work c;
     m_supports_extranonce := m_supports_extranonce c |}.

Definition set_m_last_second_stage (v : option (uint256 * uint256)) (c : StratumClient) : StratumClient :=
  {| m_nextid := m_nextid c; m_secret := m_secret c; m_client := m_client c;
     m_authorized := m_authorized c; m_addr := m_addr c; m_mmauth := m_mmauth c;
     m_mmwork := m_mmwork c; m_mindiff := m_mindiff c;
     m_version_rolling_mask := m_version_rolling_mask c; m_last_tip := m_last_tip c;
     m_last_second_stage := v; m_send_work := m_send_work c;
     m_supports_extranonce := m_supports_extranonce c |}.

Definition set_m_send_work (v : bool) (c : StratumClient) : StratumClient :=
  {| m_nextid := m_nextid c; m_secret := m_secret c; m_client := m_client c;
     m_authorized := m_authorized c; m_addr := m_addr c; m_mmauth := m_mmauth c;
     m_mmwork := m_mmwork c; m_mindiff := m_mindiff c;
     m_version_rolling_mask := m_version_rolling_mask c; m_last_tip := m_last_tip c;
     m_last_second_stage := m_last_second_stage c; m_send_work := v;
     m_supports_extranonce := m_supports_extranonce c |}.

Definition set_m_supports_extranonce (v : bool) (c : StratumClient) : StratumClient :=
  {| m_nextid := m_nextid c; m_secret := m_secret c; m_client := m_client c;
     m_authorized := m_authorized c; m_addr := m_addr c; m_mmauth := m_mmauth c;
     m_mmwork := m_mmwork c; m_mindiff := m_mindiff c;
     m_version_rolling_mask := m_version_rolling_mask c; m_last_tip := m_last_tip c;
     m_last_second_stage := m_last_second_stage c; m_send_work := m_send_work c;
     m_supports_extranonce := v |}.

(** [StratumClient()] with the outcome of [GenSecret] given. *)
Definition StratumClient_new (secret : uint256) : StratumClient :=
  {| m_nextid := 0; m_secret := secret; m_client := EmptyString;
     m_authorized := false; m_addr := EmptyString; m_mmauth := ∅; m_mmwork := ∅;
     m_mindiff := Finite 0; m_version_rolling_mask := 0; m_last_tip := None;
     m_last_second_stage := None; m_send_work := false;
     m_supports_extranonce := false |}.

(** What the server does to the outside world, in the order it does it. *)
Inductive Event : Type :=
| LogPrint (category format : string)
| LogPrintf (format : string)
| Call_ProcessNewBlock (b : CBlock)
| Call_SubmitAuxChainShare (chainid : uint256) (username : string)
    (auxwork : AuxWork) (auxproof : AuxProof)
| Call_SubmitSecondStageShare (chainid : uint256) (username : string)
    (work : SecondStageWork) (proof : SecondStageProof)
| Call_RegisterMergeMineClient (chainid : uint256) (username password : string).

(** The session a callback runs for, the stratum globals ([work_templates],
    [second_stages]), the function-local statics of [GetWorkUnit] ([tip],
    [job_id], [transactions_updated_last], [last_update_time]) and the
    trace of events so far (oldest first). *)
Record State := {
  client : StratumClient;
  work_templates : gmap uint256 StratumWork;
  second_stages : gmap string (uint256 * SecondStageWork);
  tip : option CBlockIndex;
  job_id : uint256;
  transactions_updated_last : Z;
  last_update_time : Z;
  trace : list Event }.

Definition set_client (v : StratumClient) (s : State) : State :=
  {| client := v; work_templates := work_templates s;
     second_stages := second_stages s; tip := tip s; job_id := job_id s;
     transactions_updated_last := transactions_updated_last s;
     last_update_time := last_update_time s; trace := trace s |}.

Definition set_work_templates (v : gmap uint256 StratumWork) (s : State) : State :=
  {| client := client s; work_templates := v;
     second_stages := second_stages s; tip := tip s; job_id := job_id s;
     transactions_updated_last := transactions_updated_last s;
     last_update_time := last_update_time s; trace := trace s |}.

Definition set_second_stages (v : gmap string (uint256 * SecondStageWork)) (s : State) : State :=
  {| client := client s; work_templates := work_templates s;
     second_stages := v; tip := tip s; job_id := job_id s;
     transactions_updated_last := transactions_updated_last s;
     last_update_time := last_update_time s; trace := trace s |}.

Definition set_statics (t : option CBlockIndex) (j : uint256) (u l : Z) (s : State) : State :=
  {| client := client s; work_templates := work_templates s;
     second_stages := second_stages s; tip := t; job_id := j;
     transactions_updated_last := u;
     last_update_time := l; trace := trace s |}.

Definition add_event (e : Event) (s : State) : State :=
  {| client := client s; work_templates := work_templates s;
     second_stages := second_stages s; tip := tip s; job_id := job_id s;
     transactions_updated_last := transactions_updated_last s;
     last_update_time := last_update_time s; trace := trace s ++ [e] |}.

(** The state of a server that has just accepted the session [c]: no
    templates, no second-stage work, statics at their initial values. *)
Definition State_init (c : StratumClient) : State :=
  {| client := c; work_templates := ∅; second_stages := ∅; tip := None;
     job_id := uint256_zero; transactions_updated_last := 0;
     last_update_time := 0; trace := [] |}.

(** ** The monad of server code: state that survives exceptions *)

Definition M (A : Type) : Type := State -> outcome A * State.

Definition ret {A} (a : A) : M A := fun s => (Ret a, s).

Definition bind {A B} (m : M A) (k : A -> M B) : M B :=
  fun s =>
    match m s with
    | (Ret a, s') => k a s'
    | (Throw e, s') => (Throw e, s')
    | (Abort f, s') => (Abort f, s')
    end.

Definition throw {A} (e : exn) : M A := fun s => (Throw e, s).
Definition undefined {A} : M A := fun s => (Abort UndefinedBehaviour, s).
Definition lift {A} (o : outcome A) : M A := fun s => (o, s).
Definition gets {A} (f : State -> A) : M A := fun s => (Ret (f s), s).
Definition modify (f : State -> State) : M unit := fun s => (Ret tt, f s).
Definition modify_client (f : StratumClient -> StratumClient) : M unit :=
  modify (fun s => set_client (f (client s)) s).
Definition emit (e : Event) : M unit := modify (add_event e).
Definition log (category format : string) : M unit := emit (LogPrint category format).
Definition logf (format : string) : M unit := emit (LogPrintf format).

Notation "'do' x <- c ; k" := (bind c (fun x => k))
  (at level 10, x name, c at level 100, k at level 200).
Notation "'do' ' p <- c ; k" := (bind c (fun p => k))
  (at level 10, p pattern, c at level 100, k at level 200).
Notation "'run' c ; k" := (bind c (fun _ => k))
  (at level 10, c at level 100, k at level 200).

(** ** Collaborators *)

(** Pure helpers of the node that the server calls: hashing, hex codecs,
    Merkle helpers, consensus-rule helpers, address handling. *)
Class Externals := {
  (* crypto/sha256.h: CSHA256().Write(m).Finalize(out) *)
  SHA256 : bytes -> uint256;
  SHA256_size : forall m, length (SHA256 m) = 32%nat;
  (* CSHA256().Write(m).Midstate(hash, buffer, &length) *)
  Midstate : bytes -> uint256 * bytes * Z;
  (* utilstrencodings.h, rpc/server.h *)
  HexStr : bytes -> string;
  ParseHex : string -> bytes;
  (* the bytes ParseHexV returns; None when it raises its JSON-RPC error *)
  ParseHexV_bytes : UniValue -> option bytes;
  (* consensus/merkle.h *)
  ComputeMerkleRootFromBranch : uint256 -> list uint256 -> Z -> uint256;
  ComputeMerkleMapRootFromBranch : uint256 -> list (byte * uint256) -> uint256 -> uint256;
  ComputeStableMerkleBranch : list uint256 -> Z -> list uint256 * uint256;
  BlockMerkleRoot : CBlock -> uint256;
  BlockMerkleBranch : CBlock -> Z -> list uint256;
  (* primitives/block.h: CBlockHeader::GetHash *)
  BlockHeader_GetHash : CBlockHeader -> uint256;
  (* main.h *)
  IsWitnessEnabled : option CBlockIndex -> bool;
  GetWitnessCommitmentIndex : CBlock -> Z;
  GenerateCoinbaseCommitment : CBlock -> option CBlockIndex -> CBlock;
  UpdateTime : CBlockHeader -> option CBlockIndex -> CBlockHeader;
  GetDifficulty : Z -> double;
  (* mergemine.h *)
  UpdateBlockFinalTransaction : CMutableTransaction -> uint256 -> bool * CMutableTransaction;
  chain_names : gmap string uint256;
  DefaultAuxPowPath : uint256;
  (* base58.h: CBitcoinAddress(str).IsValid(), GetScriptForDestination(addr.Get()) *)
  IsValidAddress : string -> bool;
  GetScriptForDestination : string -> bytes;
  (* boost::lexical_cast<double>; None stands for bad_lexical_cast *)
  lexical_cast_double : string -> option double }.

(** What a callback reads from the rest of the node while it runs: peers,
    chain tip, mempool, clocks, the block assembler, the merge-mine client
    and the consensus checks. *)
Record NodeView := {
  vNodes_empty : bool;
  MineBlocksOnDemand : bool;
  IsInitialBlockDownload : bool;
  GetSecondStageWork : option uint256 -> option (uint256 * SecondStageWork);
  chainActive_Tip : CBlockIndex;
  mempool_GetTransactionsUpdated : Z;
  GetTime : Z;
  GetTimeMillis : Z;
  CreateNewBlock : option CBlockTemplate;
  GetMergeMineWork : gmap uint256 (string * string) -> gmap uint256 AuxWork;
  CheckProofOfWork : uint256 -> Z -> Z -> bool;
  ProcessNewBlock : CBlock -> bool }.

(** ** JSON accessors, scripts and the transaction wire format *)

(** Modelled from the spec: the accessors of [UniValue] (univalue.h is not
    among the sources).  Requests carry their parameters as a JSON array
    (section 6 of the specification); [size] counts the elements of an
    array or object, indexing past the end yields the null value, and
    [get_str] on anything but a string raises a [std::runtime_error]. *)
Definition UniValue_size (v : UniValue) : nat :=
  match v with
  | VARR items => length items
  | VOBJ members => length members
  | _ => O
  end.

Definition UniValue_index (v : UniValue) (i : nat) : UniValue :=
  match v with
  | VARR items => default VNULL (items !! i)
  | VOBJ members => default VNULL (snd <$> members !! i)
  | _ => VNULL
  end.

Definition get_str (v : UniValue) : outcome string :=
  match v with
  | VSTR s => Ret s
  | _ => Throw (runtime_error NotAString)
  end.

Definition get_array (v : UniValue) : outcome UniValue :=
  match v with
  | VARR _ => Ret v
  | _ => Throw (runtime_error NotAnArray)
  end.

Definition get_obj (v : UniValue) : outcome UniValue :=
  match v with
  | VOBJ _ => Ret v
  | _ => Throw (runtime_error NotAnObject)
  end.

Definition get_int (v : UniValue) : outcome Z :=
  match v with
  | VNUM n => Ret n
  | _ => Throw (runtime_error NotAnInteger)
  end.

Definition find_value (obj : UniValue) (name : string) : UniValue :=
  match obj with
  | VOBJ members =>
      default VNULL (snd <$> List.find (fun kv => bool_decide (fst kv = name)) members)
  | _ => VNULL
  end.

(** ** [std::string] operations used by the handlers *)

(** [s.find(c, start)] *)
Fixpoint find_char (c : ascii) (start : nat) (s : string) : option nat :=
  match s with
  | EmptyString => None
  | String x rest =>
      match start with
      | O => if bool_decide (x = c) then Some O else S <$> find_char c O rest
      | S start' => S <$> find_char c start' rest
      end
  end.

(** [std::string(s, pos)]: the suffix from [pos] on. *)
Definition string_from (pos : nat) (s : string) : string :=
  substring pos (String.length s - pos) s.

(** [std::isspace] in the classic locale. *)
Definition isspace (c : ascii) : bool :=
  let n := nat_of_ascii c in
  ((9 <=? n) && (n <=? 13))%nat || (n =? 32)%nat.

Fixpoint trim_left (s : string) : string :=
  match s with
  | EmptyString => EmptyString
  | String c rest => if isspace c then trim_left rest else s
  end.

Fixpoint trim_right (s : string) : string :=
  match s with
  | EmptyString => EmptyString
  | String c rest =>
      match trim_right rest with
      | EmptyString => if isspace c then EmptyString else String c EmptyString
      | rest' => String c rest'
      end
  end.

Definition trim (s : string) : string := trim_left (trim_right s).

Definition OP_0 : byte := x00.
Definition OP_FALSE : byte := OP_0.
Definition OP_PUSHDATA1 : byte := x4c.
Definition OP_PUSHDATA2 : byte := x4d.
Definition OP_PUSHDATA4 : byte := x4e.

(** Modelled from the spec: [CScript::operator<<] (script/script.h is not
    among the sources).  Section 4.E step 5 builds the coinbase script as
    [height ∥ push(extranonce1 ∥ zeros(4))]: a number is pushed as a small
    integer opcode or as a minimal little-endian sign-magnitude string, and
    a byte string of fewer than 0x4c bytes is pushed behind one length
    byte. *)
Fixpoint abs_bytes (fuel : nat) (v : Z) : bytes :=
  match fuel with
  | O => []
  | S k => if v =? 0 then [] else byte_of_Z v :: abs_bytes k (v / 256)
  end.

Definition CScriptNum_serialize (value : Z) : bytes :=
  let result := abs_bytes 8 (Z.abs value) in
  match last result with
  | None => []
  | Some top =>
      if 128 <=? Z_of_byte top
      then result ++ [if value <? 0 then x80 else x00]
      else if value <? 0
           then removelast result ++ [byte_of_Z (Z_of_byte top + 128)]
           else result
  end.

Definition push_data (b : bytes) : bytes :=
  let n := Z.of_nat (length b) in
  if n <? 76 then byte_of_Z n :: b
  else if n <=? 255 then OP_PUSHDATA1 :: byte_of_Z n :: b
  else if n <=? 65535 then OP_PUSHDATA2 :: le_bytes 2 n ++ b
  else OP_PUSHDATA4 :: le_bytes 4 n ++ b.

Definition push_int64 (n : Z) : bytes :=
  if (n =? -1) || ((1 <=? n) && (n <=? 16)) then [byte_of_Z (n + 80)]
  else if n =? 0 then [OP_0]
  else push_data (CScriptNum_serialize n).

(** Modelled from the spec: serialization of transactions
    (primitives/transaction.h and serialize.h are not among the sources).
    Section 4.E step 6 fixes the layout the server relies on: 4 bytes of
    version, 1 byte of input count, 32 + 4 bytes of previous outpoint, 1
    byte of script length, then the script.  Counts and lengths are compact
    sizes; with witness data allowed and present, a zero marker and a flag
    byte follow the version and the witness stacks precede the lock time. *)
Definition WriteCompactSize (n : Z) : bytes :=
  if n <? 253 then [byte_of_Z n]
  else if n <=? 65535 then xfd :: le_bytes 2 n
  else if n <=? 4294967295 then xfe :: le_bytes 4 n
  else xff :: le_bytes 8 n.

Definition ser_vector {A} (f : A -> bytes) (l : list A) : bytes :=
  WriteCompactSize (Z.of_nat (length l)) ++ concat (map f l).

Definition ser_script (s : bytes) : bytes :=
  WriteCompactSize (Z.of_nat (length s)) ++ s.

Definition ser_txin (i : CTxIn) : bytes :=
  prevout_hash (prevout i) ++ le_bytes 4 (prevout_n (prevout i))
    ++ ser_script (scriptSig i) ++ le_bytes 4 (nSequence i).

Definition ser_txout (o : CTxOut) : bytes :=
  le_bytes 8 (nValue o) ++ ser_script (scriptPubKey o).

Definition HasWitness (tx : CMutableTransaction) : bool :=
  existsb (fun i => negb (bool_decide (scriptWitness i = []))) (vin tx).

Definition SerializeTransaction (allow_witness : bool) (tx : CMutableTransaction) : bytes :=
  let extended := allow_witness && HasWitness tx in
  le_bytes 4 (tx_nVersion tx)
    ++ (if extended then [x00; x01] else [])
    ++ ser_vector ser_txin (vin tx)
    ++ ser_vector ser_txout (vout tx)
    ++ (if extended
        then concat (map (fun i => ser_vector ser_script (scriptWitness i)) (vin tx))
        else [])
    ++ le_bytes 4 (nLockTime tx).

(** ** Messages sent to the miner *)

Record NotifyParams := {
  np_job_id : string;
  np_prevhash : string;
  np_cb1 : string;
  np_cb2 : string;
  np_branch : list string;
  np_nVersion : string;
  np_nBits : string;
  np_nTime : string;
  np_clean_jobs : bool }.

(** The JSON objects written to the connection; [write()] and the trailing
    newline are left to the wire codec. *)
Inductive StratumMessage : Type :=
| set_extranonce (id : Z) (extranonce1 : string) (extranonce2_size : Z)
| set_difficulty (id : Z) (diff : double)
| mining_notify (id : Z) (params : NotifyParams).

(** ** Small helpers for C++ containers *)

Definition set_front {A} (x : A) (l : list A) : list A :=
  match l with
  | [] => []
  | _ :: rest => x :: rest
  end.

Definition set_back {A} (x : A) (l : list A) : list A :=
  match l with
  | [] => []
  | _ :: _ => removelast l ++ [x]
  end.

Definition erase_at {A} (i : nat) (l : list A) : list A :=
  take i l ++ drop (S i) l.

Definition set_scriptSig (s : bytes) (i : CTxIn) : CTxIn :=
  {| prevout := prevout i; scriptSig := s; nSequence := nSequence i;
     scriptWitness := scriptWitness i |}.

Definition set_scriptPubKey (s : bytes) (o : CTxOut) : CTxOut :=
  {| nValue := nValue o; scriptPubKey := s |}.

Definition set_vin (v : list CTxIn) (tx : CMutableTransaction) : CMutableTransaction :=
  {| tx_nVersion := tx_nVersion tx; vin := v; vout := vout tx; nLockTime := nLockTime tx |}.

Definition set_vout (v : list CTxOut) (tx : CMutableTransaction) : CMutableTransaction :=
  {| tx_nVersion := tx_nVersion tx; vin := vin tx; vout := v; nLockTime := nLockTime tx |}.

Definition set_vtx (v : list CMutableTransaction) (b : CBlock) : CBlock :=
  {| header := header b; vtx := v |}.

(** ** Difficulty clamping *)

(** [ClampDifficulty].  [std::max(a, b)] is [(a < b) ? b : a], so a NaN in
    the first place comes back as it is.  The literal 0.001 stands for the
    double nearest to it, which is below or above any other double exactly
    when one thousandth is. *)
Definition ClampDifficulty (client : StratumClient) (diff : double) : double :=
  (* if (client.m_mindiff > 0) *)
  let diff := if double_lt (Finite 0) (m_mindiff client) then m_mindiff client else diff in
  (* std::max(diff, 0.001) *)
  if double_lt diff (Finite 0.001) then Finite 0.001 else diff.

(** ** Eviction of old work templates and merge-mining bundles *)

(** One iteration of the loop over [work_templates] in [GetWorkUnit]:
    [acc] holds [old_job_ids], [oldest_job_id] and [oldest_job_nTime]. *)
Definition scan_template (job_id : uint256) (last_update_time : Z)
    (acc : list uint256 * option uint256 * Z) (work_template : uint256 * StratumWork)
    : list uint256 * option uint256 * Z :=
  let '(old_job_ids, oldest_job_id, oldest_job_nTime) := acc in
  if decide (fst work_template = job_id) then acc
  else
    let t := nTime (header (GetBlock (snd work_template))) in
    let old_job_ids :=
      if t <? last_update_time - 900 then old_job_ids ++ [fst work_template]
      else old_job_ids in
    if t <=? oldest_job_nTime then (old_job_ids, Some (fst work_template), t)
    else (old_job_ids, oldest_job_id, oldest_job_nTime).

Definition scan_templates (job_id : uint256) (last_update_time : Z)
    (wt : gmap uint256 StratumWork) : list uint256 * option uint256 * Z :=
  fold_left (scan_template job_id last_update_time) (std_map_items wt)
            ([], None, to_uint32 last_update_time).

Definition erase_all {V} (ids : list uint256) (m : gmap uint256 V) : gmap uint256 V :=
  fold_left (fun m id => delete id m) ids m.

(** The "remove any old templates" pass of [GetWorkUnit]. *)
Definition RemoveOldTemplates (job_id : uint256) (last_update_time : Z)
    (wt : gmap uint256 StratumWork) : gmap uint256 StratumWork :=
  let '(old_job_ids, oldest_job_id, _) := scan_templates job_id last_update_time wt in
  let wt := erase_all old_job_ids wt in
  match oldest_job_id with
  | Some id => if (30 <? size wt)%nat then delete id wt else wt
  | None => wt
  end.

Definition scan_mmwork (cutoff_timestamp : Z)
    (acc : list uint256 * option uint256 * Z)
    (mmwork : uint256 * (Z * gmap uint256 AuxWork))
    : list uint256 * option uint256 * Z :=
  let '(old_mmwork_ids, oldest_mmwork_id, oldest_mmwork_timestamp) := acc in
  let t := fst (snd mmwork) in
  let old_mmwork_ids :=
    if t <? cutoff_timestamp then old_mmwork_ids ++ [fst mmwork] else old_mmwork_ids in
  if t <=? oldest_mmwork_timestamp then (old_mmwork_ids, Some (fst mmwork), t)
  else (old_mmwork_ids, oldest_mmwork_id, oldest_mmwork_timestamp).

Definition scan_mmworks (last_update_time : Z)
    (mm : gmap uint256 (Z * gmap uint256 AuxWork)) : list uint256 * option uint256 * Z :=
  let oldest_mmwork_timestamp := to_uint64 (to_uint64 last_update_time * 1000) in
  let cutoff_timestamp := to_uint64 (oldest_mmwork_timestamp - 900 * 1000) in
  fold_left (scan_mmwork cutoff_timestamp) (std_map_items mm)
            ([], None, oldest_mmwork_timestamp).

(** The same pass over the session's merge-mining bundles. *)
Definition RemoveOldMergeMineWork (last_update_time : Z)
    (mm : gmap uint256 (Z * gmap uint256 AuxWork)) : gmap uint256 (Z * gmap uint256 AuxWork) :=
  let '(old_mmwork_ids, oldest_mmwork_id, _) := scan_mmworks last_update_time mm in
  let mm := erase_all old_mmwork_ids mm in
  match oldest_mmwork_id with
  | Some id => if (30 <? size mm)%nat then delete id mm else mm
  | None => mm
  end.

(** ** Predicates on computations *)

(** [m] can only throw exceptions in [P]. *)
Definition throws_only {A} (P : exn -> Prop) (m : M A) : Prop :=
  forall s e s', m s = (Throw e, s') -> P e.

(** Whatever the outcome of [m], it takes states in [I] to states in [I]. *)
Definition preserves {A} (I : State -> Prop) (m : M A) : Prop :=
  forall s out s', m s = (out, s') -> I s -> I s'.

(** The error of [SubmitBlock] about the combined nonce length. *)
Definition is_nonce_length_error (e : exn) : Prop :=
  exists n1 n2 : nat, e = runtime_error (UnexpectedNonceLength n1 n2).

(** Two sessions with the same secret, extranonce subscription and payout
    address. *)
Definition same_identity (c c' : StratumClient) : Prop :=
  m_secret c = m_secret c' /\ m_supports_extranonce c = m_supports_extranonce c'
  /\ m_addr c = m_addr c'.

(** The layout [GetWorkUnit] counts on when it splits the serialized
    coinbase: an input count of one byte (1 to 252 inputs; a coinbase has
    one) and the 32 bytes of a previous-output hash in the first input. *)
Definition coinbase_layout (tx : CMutableTransaction) : Prop :=
  match vin tx with
  | txin :: rest =>
      (length rest < 252)%nat /\ length (prevout_hash (prevout txin)) = 32%nat
  | [] => False
  end.

(** The computation ran to its end without throwing. *)
Definition returns {A} (r : outcome A * State) : bool :=
  match fst r with
  | Ret _ => true
  | _ => false
  end.

(** The time stamp the eviction loop reads off a cache entry. *)
Definition template_nTime (kv : uint256 * StratumWork) : Z :=
  nTime (header (GetBlock (snd kv))).

(** The entries the eviction loop marks as outdated. *)
Definition outdated (job_id : uint256) (last_update_time : Z)
    (kv : uint256 * StratumWork) : bool :=
  negb (bool_decide (fst kv = job_id)) && (template_nTime kv <? last_update_time - 900).

(** No second-stage work is on record, globally or for the session. *)
Definition no_second_stage (s : State) : Prop :=
  second_stages s = ∅ /\ m_last_second_stage (client s) = None.

(** The calls to [SubmitAuxChainShare] recorded in a trace. *)
Definition is_aux_call (e : Event) : bool :=
  match e with
  | Call_SubmitAuxChainShare _ _ _ _ => true
  | _ => false
  end.

Definition aux_calls (tr : list Event) : list Event := List.filter is_aux_call tr.

Definition is_log (e : Event) : bool :=
  match e with
  | LogPrint _ _ | LogPrintf _ => true
  | _ => false
  end.

(** A trace without its log lines. *)
Definition without_logs (tr : list Event) : list Event :=
  List.filter (fun e => negb (is_log e)) tr.

(** Two states that differ at most in the log lines of their traces. *)
Definition same_but_logs (s1 s2 : State) : Prop :=
  client s1 = client s2
  /\ work_templates s1 = work_templates s2
  /\ second_stages s1 = second_stages s2
  /\ tip s1 = tip s2 /\ job_id s1 = job_id s2
  /\ transactions_updated_last s1 = transactions_updated_last s2
  /\ last_update_time s1 = last_update_time s2
  /\ without_logs (trace s1) = without_logs (trace s2).

(** One call of [SubmitAuxChainShare], with the user name on record, for
    each entry of [items] whose chain the session is authorized for. *)
Definition authorized_aux_calls (mmauth : gmap uint256 (string * string))
    (auxproof : AuxProof) (items : list (uint256 * AuxWork)) : list Event :=
  omap (fun item =>
          match mmauth !! fst item with
          | Some (username, _) =>
              Some (Call_SubmitAuxChainShare (fst item) username (snd item) auxproof)
          | None => None
          end) items.

(** ** The server *)

Section Server.
Context `{Externals}.

(** Modelled from the spec: [ParseHexV] (rpc/server.cpp is not among the
    sources).  By section 7 a parameter that is not a hex string is answered
    with the JSON-RPC error for invalid parameters; [ParseHexV_bytes] says
    which values parse, and to what. *)
Definition ParseHexV (hex : UniValue) (name : string) : outcome bytes :=
  match ParseHexV_bytes hex with
  | Some vch => Ret vch
  | None =>
      Throw (JSONRPCError RPC_INVALID_PARAMETER (name +:+ " must be hexadecimal string"))
  end.

(** Double SHA-256, the hash of transactions and block headers. *)
Definition Hash (m : bytes) : uint256 := SHA256 (SHA256 m).

(** [CMutableTransaction::GetHash]: the hash of the serialization without
    witness data. *)
Definition GetHash (tx : CMutableTransaction) : uint256 :=
  Hash (SerializeTransaction false tx).

(** [StratumClient::ExtraNonce1]; the hasher is the string of bytes written
    to it so far. *)
Definition ExtraNonce1 (c : StratumClient) (job_id : uint256) : bytes :=
  let nonce_hasher : bytes := [] in
  let nonce_hasher := nonce_hasher ++ m_secret c in
  let nonce_hasher :=
    if m_supports_extranonce c then nonce_hasher ++ job_id else nonce_hasher in
  let job_nonce := SHA256 nonce_hasher in
  take 8 job_nonce.

(** [StratumWork::StratumWork(prev_block_index, height, block_template)] *)
Definition StratumWork_new (prev_block_index : option CBlockIndex) (height : Z)
    (block_template : CBlockTemplate) : StratumWork :=
  let is_witness_enabled := IsWitnessEnabled prev_block_index in
  {| m_prev_block_index := prev_block_index;
     m_block_template := block_template;
     m_cb_branch :=
       if is_witness_enabled then [] else BlockMerkleBranch (block block_template) 0;
     m_is_witness_enabled := is_witness_enabled;
     m_height := height |}.

(** [StratumWork()] *)
Definition StratumWork_default : StratumWork :=
  {| m_prev_block_index := None;
     m_block_template :=
       {| block := {| header := {| nVersion := 0; hashPrevBlock := uint256_zero;
                                   hashMerkleRoot := uint256_zero; nTime := 0;
                                   nBits := 0; nNonce := 0 |};
                      vtx := [] |};
          has_block_final_tx := false |};
     m_cb_branch := [];
     m_is_witness_enabled := false;
     m_height := 0 |}.

(** The loop of [UpdateSegwitCommitment] that erases existing commitments.
    Every turn erases one output of the coinbase, so with [fuel] the number
    of its outputs the loop has either stopped or erases past the end. *)
Fixpoint erase_commitments (fuel : nat) (block2 : CBlock) : outcome CBlock :=
  let commitpos := GetWitnessCommitmentIndex block2 in
  if commitpos =? -1 then Ret block2
  else
    match fuel, vtx block2 with
    | S fuel', mtx :: rest =>
        if (0 <=? commitpos) && (commitpos <? Z.of_nat (length (vout mtx)))
        then erase_commitments fuel'
               (set_vtx (set_vout (erase_at (Z.to_nat commitpos) (vout mtx)) mtx :: rest)
                        block2)
        else Abort UndefinedBehaviour
    | _, _ => Abort UndefinedBehaviour
    end.

(** [UpdateSegwitCommitment(current_work, cb, bf, cb_branch)]; the three
    references that are written come back as the result. *)
Definition UpdateSegwitCommitment (current_work : StratumWork)
    (cb bf : CMutableTransaction)
    : outcome (CMutableTransaction * CMutableTransaction * list uint256) :=
  let block2 := GetBlock current_work in
  match vtx block2 with
  | [] => Abort UndefinedBehaviour
  | _ :: _ =>
      let block2 := set_vtx (set_back bf (vtx block2)) block2 in
      let block2 := set_vtx (set_front cb (vtx block2)) block2 in
      (* Erase any existing commitments: *)
      obind (erase_commitments (length (vout cb)) block2) (fun block2 =>
      (* Generate new commitment: *)
      let block2 := GenerateCoinbaseCommitment block2 (m_prev_block_index current_work) in
      (* Save results from temporary block structure: *)
      match head (vtx block2), last (vtx block2) with
      | Some cb, Some bf => Ret (cb, bf, BlockMerkleBranch block2 0)
      | _, _ => Abort UndefinedBehaviour
      end)
  end.

Definition HexInt4 (val : Z) : string :=
  HexStr [ byte_of_Z (Z.land (Z.shiftr val 24) 255);
           byte_of_Z (Z.land (Z.shiftr val 16) 255);
           byte_of_Z (Z.land (Z.shiftr val 8) 255);
           byte_of_Z (Z.land val 255) ].

Definition ParseHexInt4 (hex : UniValue) (name : string) : outcome Z :=
  obind (ParseHexV hex name) (fun vch =>
  match vch with
  | [b0; b1; b2; b3] =>
      Ret (to_uint32
             (Z.lor (Z.lor (Z.lor (Z.shiftl (Z_of_byte b0) 24)
                                  (Z.shiftl (Z_of_byte b1) 16))
                           (Z.shiftl (Z_of_byte b2) 8))
                    (Z_of_byte b3)))
  | _ =>
      Throw (JSONRPCError RPC_INVALID_PARAMETER
               (name +:+ " must be exactly 4 bytes / 8 hex"))
  end).

Definition ParseUInt256 (hex : UniValue) (name : string) : outcome uint256 :=
  match hex with
  | VSTR s =>
      let vch := ParseHex s in
      if (length vch =? 32)%nat then Ret vch
      else Throw (runtime_error (Not32Bytes name))
  | _ => Throw (runtime_error (NotHexString name))
  end.

Definition AuxWorkMerkleRoot (mmwork : gmap uint256 AuxWork) : outcome uint256 :=
  (* If there is nothing to commit to, then the default zero hash is as good
     as any other value. *)
  if (size mmwork =? 0)%nat then Ret uint256_zero
  else if negb (size mmwork =? 1)%nat
  then Throw (runtime_error MoreThanOneCommitment)
  else
    (* For now, we've hard-coded the special case of a single hash commitment: *)
    match std_map_items mmwork with
    | (key, auxwork) :: _ =>
        Ret (ComputeMerkleMapRootFromBranch (commit auxwork) [] key)
    | [] => Abort UndefinedBehaviour
    end.

(** [client.m_nextid++] *)
Definition next_id : M Z :=
  do c <- gets client;
  run modify_client (set_m_nextid (m_nextid c + 1));
  ret (m_nextid c).

Definition GetExtraNonceRequest (job_id : uint256) : M (list StratumMessage) :=
  do c <- gets client;
  if m_supports_extranonce c then
    do id <- next_id;
    ret [set_extranonce id (HexStr (ExtraNonce1 c job_id)) 4]
  else ret [].

(** The part of [GetWorkUnit] that writes the coinbase script and the
    payout script: [nonce] is extranonce1 followed by a zero extranonce2. *)
Definition CustomizeCoinbase (c : StratumClient) (current_work : StratumWork)
    (job_id : uint256) (cb : CMutableTransaction) : outcome CMutableTransaction :=
  let nonce := ExtraNonce1 c job_id in
  let nonce := nonce ++ repeat x00 4 in (* extranonce2 *)
  match vin cb with
  | [] => Abort UndefinedBehaviour
  | txin :: _ =>
      let cb :=
        set_vin (set_front
                   (set_scriptSig (push_int64 (m_height current_work) ++ push_data nonce) txin)
                   (vin cb)) cb in
      match vout cb with
      | [] => Abort UndefinedBehaviour
      | txout :: _ =>
          if bool_decide (scriptPubKey txout = [OP_FALSE])
          then Ret (set_vout (set_front
                                (set_scriptPubKey (GetScriptForDestination (m_addr c)) txout)
                                (vout cb)) cb)
          else Ret cb
      end
  end.

(** The part of [GetWorkUnit] that splits the serialized coinbase [ds]
    around the extranonce: the bytes of [cb1] and of [cb2]. *)
Definition SplitCoinbase (ds : bytes) : outcome (bytes * bytes) :=
  if (length ds <? 4 + 1 + 32 + 4 + 1)%nat
  then Throw (runtime_error TransactionTooSmall)
  else
    (* size_t pos = 4 + 1 + 32 + 4 + 1 + ds[4+1+32+4]; *)
    let pos := to_uint64 (4 + 1 + 32 + 4 + 1
                          + signed_char (default x00 (ds !! (4 + 1 + 32 + 4)%nat))) in
    if Z.of_nat (length ds) <? pos
    then Throw (runtime_error NoExtranonceField)
    else if pos <? 4 + 8
    then Abort UndefinedBehaviour
    else Ret (take (Z.to_nat (pos - 4 - 8)) ds, drop (Z.to_nat pos) ds).

(** The second-stage branch of [GetWorkUnit]. *)
Definition NotifySecondStage (second_stage : uint256 * SecondStageWork)
    : M (list StratumMessage) :=
  let work := snd second_stage in
  do c <- gets client;
  let diff := ClampDifficulty c (ss_diff work) in
  do id_diff <- next_id;
  let job_id := ":" +:+ ss_job_id work in
  do id_notify <- next_id;
  let params :=
    {| np_job_id := job_id;
       (* Byte-swap the hashPrevBlock, as stratum expects. *)
       np_prevhash := HexStr (bswap_words (ss_hashPrevBlock work));
       np_cb1 := HexStr (ss_cb1 work);
       np_cb2 := HexStr (ss_cb2 work);
       np_branch := map HexStr (ss_cb_branch work);
       np_nVersion := HexInt4 (ss_nVersion work);
       np_nBits := HexInt4 (ss_nBits work);
       np_nTime := HexInt4 (ss_nTime work);
       np_clean_jobs :=
         negb (bool_decide (m_last_second_stage c
                            = Some (fst second_stage, ss_hashPrevBlock work))) |} in
  run modify (fun s =>
    set_second_stages (<[ss_job_id work := second_stage]> (second_stages s)) s);
  run modify_client
    (set_m_last_second_stage (Some (fst second_stage, ss_hashPrevBlock work)));
  do req <- GetExtraNonceRequest (fst second_stage); (* note: not job_id *)
  ret (req ++ [set_difficulty id_diff diff; mining_notify id_notify params]).

Definition emit_all (es : list Event) : M unit :=
  modify (fun s => fold_left (fun s e => add_event e s) es s).

(** The template refresh of [GetWorkUnit]: a new template when the tip
    moved, the mempool changed more than five seconds ago or the current job
    is gone, followed by the two eviction passes. *)
Definition RebuildTemplate (env : NodeView) : M unit :=
  do s <- gets (fun s => s);
  if bool_decide (tip s <> Some (chainActive_Tip env))
     || (bool_decide (mempool_GetTransactionsUpdated env <> transactions_updated_last s)
         && (5 <? GetTime env - last_update_time s))
     || bool_decide (work_templates s !! job_id s = None)
  then
    let tip_new := chainActive_Tip env in
    match CreateNewBlock env with
    | None => throw (JSONRPCError RPC_OUT_OF_MEMORY "Out of memory")
    | Some new_work =>
        (* So that block.GetHash() is correct *)
        let new_block :=
          {| header :=
               {| nVersion := nVersion (header (block new_work));
                  hashPrevBlock := hashPrevBlock (header (block new_work));
                  hashMerkleRoot := BlockMerkleRoot (block new_work);
                  nTime := nTime (header (block new_work));
                  nBits := nBits (header (block new_work));
                  nNonce := nNonce (header (block new_work)) |};
             vtx := vtx (block new_work) |} in
        let new_work :=
          {| block := new_block; has_block_final_tx := has_block_final_tx new_work |} in
        let job_id := BlockHeader_GetHash (header new_block) in
        run modify (fun s =>
          set_work_templates
            (<[job_id := StratumWork_new (Some tip_new) (nHeight tip_new + 1) new_work]>
               (work_templates s)) s);
        let last_update_time := GetTime env in
        run modify (set_statics (Some tip_new) job_id
                      (mempool_GetTransactionsUpdated env) last_update_time);
        run log "stratum" "New stratum block template (%d total): %s\n";
        (* Remove any old templates *)
        do wt <- gets work_templates;
        let '(old_job_ids, oldest_job_id, _) := scan_templates job_id last_update_time wt in
        run modify (set_work_templates (RemoveOldTemplates job_id last_update_time wt));
        run emit_all
          (map (fun _ => LogPrint "stratum"
                           "Removed outdated stratum block template (%d total): %s\n")
               old_job_ids);
        run emit_all
          (if (30 <? size (erase_all old_job_ids wt))%nat && bool_decide (is_Some oldest_job_id)
           then [LogPrint "stratum" "Removed oldest stratum block template (%d total): %s\n"]
           else []);
        (* Do the same for merge-mining work *)
        do c <- gets client;
        let '(old_mmwork_ids, oldest_mmwork_id, _) :=
          scan_mmworks last_update_time (m_mmwork c) in
        run modify_client
          (set_m_mmwork (RemoveOldMergeMineWork last_update_time (m_mmwork c)));
        run emit_all
          (map (fun _ => LogPrint "mergemine"
                           "Removed outdated merge-mining work unit for miner %s from %s (%d total): %s\n")
               old_mmwork_ids);
        emit_all
          (if (30 <? size (erase_all old_mmwork_ids (m_mmwork c)))%nat
              && bool_decide (is_Some oldest_mmwork_id)
           then [LogPrint "mergemine"
                   "Removed oldest merge-mining work unit for miner %s from %s (%d total): %s\n"]
           else [])
    end
  else ret tt.

(** The merge-mining customization of [GetWorkUnit]: the block-final
    transaction, [has_merge_mining] and [mmroot]. *)
Definition AddMergeMineCommitment (env : NodeView) (current_work : StratumWork)
    (bf : CMutableTransaction) : M (CMutableTransaction * bool * uint256) :=
  do c <- gets client;
  if has_block_final_tx (m_block_template current_work) then
    let mmwork := GetMergeMineWork env (m_mmauth c) in
    if (size mmwork =? 0)%nat then
      run log "mergemine"
        "No auxiliary work commitments to add to block template for stratum miner %s from %s.\n";
      ret (bf, false, uint256_zero)
    else
      do mmroot <- lift (AuxWorkMerkleRoot mmwork);
      run (if bool_decide (m_mmwork c !! mmroot = None)
           then modify_client
                  (set_m_mmwork (<[mmroot := (to_uint64 (GetTimeMillis env), mmwork)]>
                                   (m_mmwork c)))
           else ret tt);
      let '(updated, bf) := UpdateBlockFinalTransaction bf mmroot in
      if updated then
        run log "stratum" "Updated merge-mining commitment in block-final transaction.\n";
        ret (bf, true, mmroot)
      else ret (bf, false, mmroot)
  else
    run (if negb (size (m_mmauth c) =? 0)%nat
         then log "mergemine"
                "Cannot add merge-mining commitments to block template because there is no block-final transaction.\n"
         else ret tt);
    ret (bf, false, uint256_zero).

(** The primary path of [GetWorkUnit] once the current template is settled. *)
Definition AssembleWork (env : NodeView) : M (list StratumMessage) :=
  do s <- gets (fun s => s);
  let job_id := job_id s in
  (* StratumWork& current_work = work_templates[job_id]; *)
  let current_work := default StratumWork_default (work_templates s !! job_id) in
  run modify (set_work_templates (<[job_id := current_work]> (work_templates s)));
  match head (vtx (GetBlock current_work)), last (vtx (GetBlock current_work)) with
  | Some cb, Some bf =>
      (* Our first customization of the work template is the insert merge-mine
         block header commitments, but we can only do that if the template
         has a block-final transaction. *)
      do '(bf, has_merge_mining, mmroot) <- AddMergeMineCommitment env current_work bf;
      do '(cb, bf, cb_branch) <-
        (if m_is_witness_enabled current_work then
           do r <- lift (UpdateSegwitCommitment current_work cb bf);
           run log "stratum" "Updated segwit commitment in coinbase.\n";
           ret r
         else ret (cb, bf, m_cb_branch current_work));
      do c <- gets client;
      let diff :=
        ClampDifficulty c (GetDifficulty (nBits (header (GetBlock current_work)))) in
      do id_diff <- next_id;
      do cb <- lift (CustomizeCoinbase c current_work job_id cb);
      do '(cb1, cb2) <- lift (SplitCoinbase (SerializeTransaction false cb));
      let blkhdr := UpdateTime (header (GetBlock current_work)) (tip s) in
      run log "stratum" "Updated the timestamp of block template by %d seconds\n";
      let params :=
        {| np_job_id :=
             HexStr job_id +:+ (if has_merge_mining then ":" +:+ HexStr mmroot else EmptyString);
           (* For reasons of who-the-heck-knows-why, stratum byte-swaps each
              32-bit chunk of the hashPrevBlock. *)
           np_prevhash := HexStr (bswap_words (hashPrevBlock (header (GetBlock current_work))));
           np_cb1 := HexStr cb1;
           np_cb2 := HexStr cb2;
           np_branch := map HexStr cb_branch;
           np_nVersion := HexInt4 (nVersion blkhdr);
           np_nBits := HexInt4 (nBits blkhdr);
           np_nTime := HexInt4 (nTime blkhdr);
           np_clean_jobs := bool_decide (m_last_tip c <> tip s) |} in
      run modify_client (set_m_last_tip (tip s));
      do id_notify <- next_id;
      do req <- GetExtraNonceRequest job_id;
      ret (req ++ [set_difficulty id_diff diff; mining_notify id_notify params])
  | _, _ => undefined
  end.

Definition GetWorkUnit (env : NodeView) : M (list StratumMessage) :=
  do c <- gets client;
  if vNodes_empty env && negb (MineBlocksOnDemand env) then
    throw (JSONRPCError RPC_CLIENT_NOT_CONNECTED "Bitcoin is not connected!")
  else if IsInitialBlockDownload env then
    throw (JSONRPCError RPC_CLIENT_IN_INITIAL_DOWNLOAD "Bitcoin is downloading blocks...")
  else if negb (m_authorized c) then
    throw (JSONRPCError RPC_INVALID_REQUEST
             "Stratum client not authorized.  Use mining.authorize first, with a Bitcoin address as the username.")
  else
    match GetSecondStageWork env (fst <$> m_last_second_stage c) with
    | Some second_stage => NotifySecondStage second_stage
    | None =>
        run modify_client (set_m_last_second_stage None);
        run modify (set_second_stages ∅);
        run RebuildTemplate env;
        AssembleWork env
    end.

Definition set_nTime_nNonce_nVersion (t n v : Z) (h : CBlockHeader) : CBlockHeader :=
  {| nVersion := v; hashPrevBlock := hashPrevBlock h;
     hashMerkleRoot := hashMerkleRoot h; nTime := t; nBits := nBits h; nNonce := n |}.

Definition set_hashMerkleRoot (r : uint256) (h : CBlockHeader) : CBlockHeader :=
  {| nVersion := nVersion h; hashPrevBlock := hashPrevBlock h;
     hashMerkleRoot := r; nTime := nTime h; nBits := nBits h; nNonce := nNonce h |}.

(** The loop of [SubmitBlock] over the entries of the stored bundle. *)
Fixpoint SubmitAuxShares (env : NodeView) (hash : uint256) (auxproof : AuxProof)
    (items : list (uint256 * AuxWork)) : M unit :=
  match items with
  | [] => ret tt
  | (chainid, auxwork) :: rest =>
      do c <- gets client;
      match m_mmauth c !! chainid with
      | None =>
          run log "mergemine"
            "Got share for chain we aren't authorized for; unable to submit work.\n";
          SubmitAuxShares env hash auxproof rest
      | Some (username, _) =>
          run emit (Call_SubmitAuxChainShare chainid username auxwork auxproof);
          (* FIXME: Change to our own consensus params with no powlimit *)
          run (if CheckProofOfWork env hash (bits auxwork) (bias auxwork)
               then logf "GOT AUX CHAIN BLOCK!!! 0x%s by %s: %s %s\n"
               else logf "NEW AUX CHAIN SHARE!!! 0x%s by %s: %s %s\n");
          SubmitAuxShares env hash auxproof rest
      end
  end.

(** The auxiliary-proof section of [SubmitBlock]. *)
Definition SubmitAuxProofs (env : NodeView) (current_work : StratumWork)
    (mmroot : uint256) (cb bf : CMutableTransaction) (blkhdr : CBlockHeader)
    (hash : uint256) : M unit :=
  do c <- gets client;
  match m_mmwork c !! mmroot with
  | Some (_, bundle) =>
      if m_is_witness_enabled current_work
         && has_block_final_tx (m_block_template current_work)
      then
        let ds := SerializeTransaction true bf in
        (* ds.resize(ds.size() - 40); *)
        if (length ds <? 40)%nat then throw (runtime_error LengthError)
        else
          let ds := take (length ds - 40) ds in
          let '(hash', buffer, tmp) := Midstate ds in
          let leaves := map GetHash (vtx (GetBlock current_work)) in
          let leaves := set_front (GetHash cb) leaves in
          let leaves := set_back (GetHash bf) leaves in
          let auxproof :=
            {| midstate_hash := hash';
               midstate_buffer := buffer;
               midstate_length := to_uint32 (tmp / 8);
               lock_time := nLockTime bf;
               aux_branch :=
                 fst (ComputeStableMerkleBranch leaves (Z.of_nat (length leaves) - 1));
               num_txns := Z.of_nat (length leaves);
               ap_nVersion := nVersion blkhdr;
               ap_hashPrevBlock := hashPrevBlock blkhdr;
               ap_nTime := nTime blkhdr;
               ap_nBits := nBits blkhdr;
               ap_nNonce := nNonce blkhdr |} in
          SubmitAuxShares env hash auxproof (std_map_items bundle)
      else ret tt
  | None => ret tt
  end.

Definition SubmitBlock (env : NodeView) (job_id mmroot : uint256)
    (current_work : StratumWork) (extranonce2 : bytes) (nTime' nNonce' nVersion' : Z)
    : M bool :=
  match vtx (GetBlock current_work), last (vtx (GetBlock current_work)) with
  | cb :: _, Some bf =>
      if negb (length (vin cb) =? 1)%nat then
        run log "stratum" "%s\n";
        throw (runtime_error UnexpectedNumberOfInputs)
      else
      do c <- gets client;
      let nonce := ExtraNonce1 c job_id in
      if negb (length nonce + length extranonce2 =? 12)%nat then
        run log "stratum" "%s\n";
        throw (runtime_error (UnexpectedNonceLength (length nonce) (length extranonce2)))
      else
      let nonce := nonce ++ extranonce2 in
      match vin cb with
      | [] =>
          run log "stratum" "%s\n";
          throw (runtime_error MissingCoinbaseInput)
      | txin :: _ =>
      let cb :=
        set_vin (set_front
                   (set_scriptSig (push_int64 (m_height current_work) ++ push_data nonce) txin)
                   (vin cb)) cb in
      match vout cb with
      | [] =>
          run log "stratum" "%s\n";
          throw (runtime_error MissingCoinbaseOutputs)
      | txout :: _ =>
      let cb :=
        if bool_decide (scriptPubKey txout = [OP_FALSE])
        then set_vout (set_front
                         (set_scriptPubKey (GetScriptForDestination (m_addr c)) txout)
                         (vout cb)) cb
        else cb in
      do bf <-
        (if has_block_final_tx (m_block_template current_work) then
           let '(updated, bf) := UpdateBlockFinalTransaction bf mmroot in
           run (if updated
                then log "stratum"
                       "Updated merge-mining commitment in block-final transaction.\n"
                else ret tt);
           ret bf
         else ret bf);
      do '(cb, bf, cb_branch) <-
        (if m_is_witness_enabled current_work then
           do r <- lift (UpdateSegwitCommitment current_work cb bf);
           run log "stratum" "Updated segwit commitment in coinbase.\n";
           ret r
         else ret (cb, bf, m_cb_branch current_work));
      let blkhdr := header (GetBlock current_work) in
      let blkhdr :=
        set_hashMerkleRoot (ComputeMerkleRootFromBranch (GetHash cb) cb_branch 0) blkhdr in
      let blkhdr := set_nTime_nNonce_nVersion nTime' nNonce' nVersion' blkhdr in
      let hash := BlockHeader_GetHash blkhdr in
      do res <-
        (if CheckProofOfWork env hash (nBits blkhdr) 0 then
           run logf "GOT BLOCK!!! by %s: %s\n";
           let block := GetBlock current_work in
           let block := set_vtx (set_front cb (vtx block)) block in
           let block :=
             if m_is_witness_enabled current_work
             then set_vtx (set_back bf (vtx block)) block else block in
           let block :=
             {| header :=
                  set_nTime_nNonce_nVersion nTime' nNonce' nVersion'
                    (set_hashMerkleRoot (BlockMerkleRoot block) (header block));
                vtx := vtx block |} in
           run emit (Call_ProcessNewBlock block);
           ret (ProcessNewBlock env block)
         else
           run logf "NEW SHARE!!! by %s: %s\n";
           ret false);
      (* Now we check if the work meets any of the auxiliary header
         requirements, and if so submit them. *)
      run SubmitAuxProofs env current_work mmroot cb bf blkhdr hash;
      run (if res : bool then modify_client (set_m_send_work true) else ret tt);
      ret res
      end
      end
  | _, _ =>
      run log "stratum" "%s\n";
      throw (runtime_error NoTransactions)
  end.

Definition SubmitSecondStage (env : NodeView) (chainid : uint256)
    (work : SecondStageWork) (extranonce2 : bytes) (nTime' nNonce' nVersion' : Z)
    : M bool :=
  do c <- gets client;
  match m_mmauth c !! chainid with
  | None =>
      run log "mergemine"
        "Got second stage share for chain we aren't authorized for; unable to submit work.\n";
      ret false
  | Some (username, _) =>
      let extranonce1 := ExtraNonce1 c chainid in
      run emit (Call_SubmitSecondStageShare chainid username work
                  {| sp_extranonce1 := extranonce1; sp_extranonce2 := extranonce2;
                     sp_nVersion := nVersion'; sp_nTime := nTime'; sp_nNonce := nNonce' |});
      let hash := SHA256 (ss_cb1 work ++ extranonce1 ++ extranonce2 ++ ss_cb2 work) in
      let hash := SHA256 hash in
      let blkhdr :=
        {| nVersion := nVersion';
           hashPrevBlock := ss_hashPrevBlock work;
           hashMerkleRoot := ComputeMerkleRootFromBranch hash (ss_cb_branch work) 0;
           nTime := nTime';
           nBits := ss_nBits work;
           nNonce := nNonce' |} in
      let hash := BlockHeader_GetHash blkhdr in
      (* FIXME: Change to our own consensus params with no powlimit *)
      let res := CheckProofOfWork env hash (ss_nBits work) 0 in
      run (if res
           then logf "GOT AUX CHAIN SECOND STAGE BLOCK!!! 0x%s by %s: %s\n"
           else logf "NEW AUX CHAIN SECOND STAGE SHARE!!! 0x%s by %s: %s\n");
      run (if res then modify_client (set_m_send_work true) else ret tt);
      ret res
  end.

Definition BoundParams (method : string) (params : UniValue) (min max : nat)
    : outcome unit :=
  if (UniValue_size params <? min)%nat then
    Throw (JSONRPCError RPC_INVALID_PARAMETER
             (method +:+ " expects at least %d parameters; received %d"))
  else if (max <? UniValue_size params)%nat then
    Throw (JSONRPCError RPC_INVALID_PARAMETER
             (method +:+ " receives no more than %d parameters; got %d"))
  else Ret tt.

(** [(nVersion & ~mask) | (bits & mask)] on 32-bit words. *)
Definition roll_version (nVersion' bits' mask : Z) : Z :=
  Z.lor (Z.land (to_uint32 nVersion') (Z.lxor mask (uint32_max - 1)))
        (Z.land bits' mask).

Definition stratum_mining_submit (env : NodeView) (params : UniValue) : M UniValue :=
  let method := "mining.submit" in
  run lift (BoundParams method params 5 6);
  (* First parameter is the client username, which is ignored. *)
  do id <- lift (get_str (UniValue_index params 1));
  do extranonce2 <- lift (ParseHexV (UniValue_index params 2) "extranonce2");
  if negb (length extranonce2 =? 4)%nat then
    throw (JSONRPCError RPC_INVALID_PARAMETER
             "extranonce2 is wrong length (received %d bytes; expected %d bytes")
  else
  do nTime' <- lift (ParseHexInt4 (UniValue_index params 3) "nTime");
  do nNonce' <- lift (ParseHexInt4 (UniValue_index params 4) "nNonce");
  if bool_decide (String.get 0 id = Some ":"%char) then
    (* Second stage work unit *)
    let job_id := string_from 1 id in
    do s <- gets (fun s => s);
    match second_stages s !! job_id with
    | None =>
        run log "stratum"
          "Received completed share for unknown second stage work : %s\n";
        run modify_client (set_m_send_work true);
        ret (VBOOL false)
    | Some (aux_pow_path, second_stage) =>
        do c <- gets client;
        do nVersion' <-
          (if (5 <? UniValue_size params)%nat then
             do bits' <- lift (ParseHexInt4 (UniValue_index params 5) "nVersion");
             ret (roll_version (ss_nVersion second_stage) bits' (m_version_rolling_mask c))
           else ret (to_uint32 (ss_nVersion second_stage)));
        run SubmitSecondStage env aux_pow_path second_stage extranonce2
              nTime' nNonce' nVersion';
        ret (VBOOL true)
    end
  else
    do '(id, mmroot) <-
      match find_char ":" 0 id with
      | Some pos =>
          do mmroot <- lift (ParseUInt256 (VSTR (string_from (pos + 1) id)) "mmroot");
          ret (substring 0 pos id, mmroot)
      | None => ret (id, uint256_zero)
      end;
    do job_id <- lift (ParseUInt256 (VSTR id) "job_id");
    do s <- gets (fun s => s);
    match work_templates s !! job_id with
    | None =>
        run log "stratum" "Received completed share for unknown job_id : %s\n";
        run modify_client (set_m_send_work true);
        ret (VBOOL false)
    | Some current_work =>
        do c <- gets client;
        do nVersion' <-
          (if (5 <? UniValue_size params)%nat then
             do bits' <- lift (ParseHexInt4 (UniValue_index params 5) "nVersion");
             ret (roll_version (nVersion (header (GetBlock current_work))) bits'
                    (m_version_rolling_mask c))
           else ret (to_uint32 (nVersion (header (GetBlock current_work)))));
        run SubmitBlock env job_id mmroot current_work extranonce2
              nTime' nNonce' nVersion';
        ret (VBOOL true)
    end.

Definition stratum_mining_subscribe (params : UniValue) : M UniValue :=
  let method := "mining.subscribe" in
  run lift (BoundParams method params 0 2);
  run (if (1 <=? UniValue_size params)%nat then
         do name <- lift (get_str (UniValue_index params 0));
         run modify_client (set_m_client name);
         log "stratum" "Received subscription from client %s\n"
       else ret tt);
  (* params[1] is the subscription ID for reconnect, which we
     currently do not support. *)
  let msg :=
    VARR [ VARR [VSTR "mining.set_difficulty"; VSTR "1e+06"];
           VARR [VSTR "mining.notify"; VSTR "ae6812eb4cd7735a302a8a9dd95cf71f"] ] in
  do c <- gets client;
  (* client.m_supports_extranonce is false, so the job_id isn't used. *)
  ret (VARR [msg; VSTR (HexStr (ExtraNonce1 c uint256_zero)); VNUM 4]).

(** The loop of [stratum_mining_authorize] that cuts the password at its
    commas.  A turn that finds an empty option does [continue] with [start]
    and [pos] unchanged, so the loop never ends; every other turn moves
    [start] past a comma, hence [fuel] = the length of the password never
    runs out. *)
Fixpoint split_password (fuel : nat) (password : string) (start : nat)
    (opts : list string) : outcome (list string * nat) :=
  match find_char "," start password with
  | None => Ret (opts, start)
  | Some pos =>
      let opt := trim (substring start pos password) in
      if bool_decide (opt = EmptyString) then Abort NonTermination
      else
        match fuel with
        | O => Abort NonTermination
        | S fuel' => split_password fuel' password (pos + 1) (opts ++ [opt])
        end
  end.

(** One turn of the loop over the options of the password. *)
Definition authorize_option (mmauth : gmap uint256 (string * string)) (opt : string)
    : M (gmap uint256 (string * string)) :=
  match find_char "=" 0 opt with
  | Some pos =>
      let key := trim_right (substring 0 pos opt) in (* chain name or ID *)
      let value := trim_left (string_from (pos + 1) opt) in
      let '(username, password) :=
        match find_char ":" 0 value with
        | Some pos => (substring 0 pos value, string_from (pos + 1) value)
        | None => (value, EmptyString)
        end in
      match chain_names !! key with
      | Some chainid =>
          run log "mergemine"
            "Merge-mine chain '%s' (0x%s) with username '%s' and password '%s'\n";
          ret (<[chainid := (username, password)]> mmauth)
      | None =>
          do chainid <- lift (ParseUInt256 (VSTR key) "chainid");
          if bool_decide (take 24 (drop 8 chainid) = repeat x00 24) then
            (* At least 24 bytes are empty. Gonna go out on a limb and
               say this wasn't a hex-encoded aux_pow_path. *)
            run log "mergemine"
              "Skipping unrecognized stratum password keyword option '%s=%s'\n";
            ret mmauth
          else if bool_decide (is_Some (mmauth !! chainid)) then
            run log "mergemine" "Duplicate chain 0x%s; skipping\n";
            ret mmauth
          else
            run log "mergemine"
              "Merge-mine chain 0x%s with username '%s' and password '%s'\n";
            ret (<[chainid := (username, password)]> mmauth)
      end
  | None =>
      if IsValidAddress opt then
        let chainid := DefaultAuxPowPath in
        if bool_decide (is_Some (mmauth !! chainid)) then
          run log "mergemine" "Duplicate chain 0x%s (default); skipping\n";
          ret mmauth
        else
          run log "mergemine"
            "Merge-mine chain 0x%s with username '%s' and password '%s'\n";
          ret (<[chainid := (opt, "x")]> mmauth)
      else
        run log "mergemine" "Skipping unrecognized stratum password option '%s'\n";
        ret mmauth
  end.

Fixpoint authorize_options (mmauth : gmap uint256 (string * string))
    (opts : list string) : M (gmap uint256 (string * string)) :=
  match opts with
  | [] => ret mmauth
  | opt :: rest =>
      do mmauth <- authorize_option mmauth opt;
      authorize_options mmauth rest
  end.

Definition stratum_mining_authorize (params : UniValue) : M UniValue :=
  let method := "mining.authorize" in
  run lift (BoundParams method params 1 2);
  do username <- lift (get_str (UniValue_index params 0));
  let username := trim username in
  (* params[1] is the client-provided password.  We do not perform
     user authorization, but we instead allow the password field to
     be used to specify merge-mining parameters. *)
  do password <- lift (get_str (UniValue_index params 1));
  let password := trim password in
  do '(opts, start) <- lift (split_password (String.length password) password 0 []);
  let opt := trim (string_from start password) in
  let opts := if bool_decide (opt = EmptyString) then opts else opts ++ [opt] in
  do mmauth <- authorize_options ∅ opts;
  do '(mindiff, username) <-
    match find_char "+" 0 username with
    | Some pos =>
        (* Extract the suffix and trim it *)
        let suffix := trim_left (string_from (pos + 1) username) in
        (* Extract the minimum difficulty request *)
        match lexical_cast_double suffix with
        | None => throw (runtime_error BadLexicalCast)
        | Some mindiff =>
            (* Remove the '+' and everything after *)
            ret (mindiff, trim_right (substring 0 pos username))
        end
    | None => ret (Finite 0, username)
    end;
  if negb (IsValidAddress username) then
    throw (JSONRPCError RPC_INVALID_PARAMETER "Invalid Bitcoin address: %s")
  else
    run modify_client (set_m_addr username);
    run modify_client (set_m_mmauth mmauth);
    run emit_all (map (fun item =>
                         Call_RegisterMergeMineClient (fst item) (fst (snd item))
                                                      (snd (snd item)))
                      (std_map_items mmauth));
    run modify_client (set_m_mindiff mindiff);
    run modify_client (set_m_authorized true);
    run modify_client (set_m_send_work true);
    run logf "Authorized stratum miner %s from %s, mindiff=%f\n";
    ret (VBOOL true).

Fixpoint configure_extensions (config : UniValue) (extensions : list UniValue)
    (res : list (string * UniValue)) : M (list (string * UniValue)) :=
  match extensions with
  | [] => ret res
  | extension :: rest =>
      do name <- lift (get_str extension);
      if bool_decide (name = "version-rolling") then
        do mask <- lift (ParseHexInt4 (find_value config "version-rolling.mask")
                           "version-rolling.mask");
        do min_bit_count <-
          lift (get_int (find_value config "version-rolling.min-bit-count"));
        run modify_client (set_m_version_rolling_mask (Z.land mask 536862720));
        run log "stratum" "Received version rolling request from %s\n";
        configure_extensions config rest
          (res ++ [("version-rolling", VBOOL true);
                   ("version-rolling.mask", VSTR (HexInt4 (Z.land mask 536862720)))])
      else
        run log "stratum" "Unrecognized stratum extension '%s' sent by %s\n";
        configure_extensions config rest res
  end.

Definition stratum_mining_configure (params : UniValue) : M UniValue :=
  let method := "mining.configure" in
  run lift (BoundParams method params 2 2);
  do extensions <- lift (get_array (UniValue_index params 0));
  do config <- lift (get_obj (UniValue_index params 1));
  do res <- configure_extensions config
              (match extensions with VARR items => items | _ => [] end) [];
  ret (VOBJ res).

Definition stratum_mining_extranonce_subscribe (params : UniValue) : M UniValue :=
  let method := "mining.extranonce.subscribe" in
  run lift (BoundParams method params 0 0);
  run modify_client (set_m_supports_extranonce true);
  ret (VBOOL true).

(** [stratum_method_dispatch], as filled in by [InitStratumServer]. *)
Definition stratum_method_dispatch (env : NodeView) (method : string)
    : option (UniValue -> M UniValue) :=
  if bool_decide (method = "mining.subscribe") then Some stratum_mining_subscribe
  else if bool_decide (method = "mining.authorize") then Some stratum_mining_authorize
  else if bool_decide (method = "mining.configure") then Some stratum_mining_configure
  else if bool_decide (method = "mining.submit") then Some (stratum_mining_submit env)
  else if bool_decide (method = "mining.extranonce.subscribe")
  then Some stratum_mining_extranonce_subscribe
  else None.

(** [e.what()] *)
Definition what_message (w : what) : string :=
  match w with
  | NotAString => "JSON value is not a string as expected"
  | NotAnArray => "JSON value is not an array as expected"
  | NotAnObject => "JSON value is not an object as expected"
  | NotAnInteger => "JSON value is not an integer as expected"
  | NotHexString name => name +:+ " must be a hexidecimal string"
  | Not32Bytes name => name +:+ " must be exactly 32 bytes / 64 hex"
  | MoreThanOneCommitment =>
      "AuxWorkMerkleRoot: we do not yet support more than one merge-mining commitment"
  | TransactionTooSmall =>
      "Serialized transaction is too small to be parsed.  Is this even a coinbase?"
  | NoExtranonceField =>
      "Customized coinbase transaction does not contain extranonce field at expected location."
  | NoTransactions =>
      "SubmitBlock: no transactions in block template; unable to submit work"
  | UnexpectedNumberOfInputs =>
      "SubmitBlock: unexpected number of inputs; is this even a coinbase transaction?"
  | UnexpectedNonceLength n1 n2 =>
      "SubmitBlock: unexpected combined nonce length: extranonce1(" +:+ pretty n1
        +:+ ") + extranonce2(" +:+ pretty n2 +:+ ") != 12; unable to submit work"
  | MissingCoinbaseInput =>
      "SubmitBlock: first transaction is missing coinbase input; unable to customize work to miner"
  | MissingCoinbaseOutputs =>
      "SubmitBlock: coinbase transaction is missing outputs; unable to customize work to miner"
  | LengthError => "vector::_M_default_append"
  | BadLexicalCast => "bad lexical cast: source type value could not be interpreted as target"
  end.

(** The reply [JSONRPCReply(result, error, id)] of [stratum_read_cb]. *)
Inductive Reply : Type :=
| ReplyResult (result : UniValue)
| ReplyError (code : RPCErrorCode) (message : string).

(** The [try] block of [stratum_read_cb] for one parsed request: dispatch
    to the handler and turn what it returns or throws into the reply. *)
Definition stratum_dispatch (env : NodeView) (method : string) (params : UniValue)
    : M Reply :=
  fun s =>
    match stratum_method_dispatch env method with
    | Some handler =>
        match handler params s with
        | (Ret result, s') => (Ret (ReplyResult result), s')
        | (Throw (JSONRPCError code message), s') => (Ret (ReplyError code message), s')
        | (Throw (runtime_error w), s') =>
            (Ret (ReplyError RPC_INTERNAL_ERROR (what_message w)), s')
        | (Abort f, s') => (Abort f, s')
        end
    | None => (Ret (ReplyError RPC_METHOD_NOT_FOUND "Method '%s' not found"), s)
    end.

End Server.

(** ** More predicates on computations *)

(** Whenever [m] does not return, it leaves states in [I] in [I]. *)
Definition preserves_on_failure {A} (I : State -> Prop) (m : M A) : Prop :=
  forall s out s', m s = (out, s') -> I s -> returns (out, s') = false -> I s'.

(** [m] can only abort with a fault in [P]. *)
Definition aborts_only {A} (P : fault -> Prop) (m : M A) : Prop :=
  forall s f s', m s = (Abort f, s') -> P f.

(** The exception [GetWorkUnit] has for sessions that are not authorized. *)
Definition is_not_authorized (e : exn) : Prop :=
  exists message, e = JSONRPCError RPC_INVALID_REQUEST message.

(** The calls to [ProcessNewBlock] recorded in a trace. *)
Definition is_block_call (e : Event) : bool :=
  match e with
  | Call_ProcessNewBlock _ => true
  | _ => false
  end.

Definition block_calls (tr : list Event) : list Event := List.filter is_block_call tr.

(** The version-rolling mask of the session lies within 0x1fffe000. *)
Definition mask_within_bip320 (s : State) : Prop :=
  Z.land (m_version_rolling_mask (client s)) 536862720
  = m_version_rolling_mask (client s).

(** The [id] member of a message of the server. *)
Definition message_id (m : StratumMessage) : Z :=
  match m with
  | set_extranonce id _ _ => id
  | set_difficulty id _ => id
  | mining_notify id _ => id
  end.

(** ** The callbacks of a connection and the block watcher *)

(** What [stratum_read_cb] and [BlockWatcher] write to the connection when
    they send work: the messages of [GetWorkUnit], or the reply
    [JSONRPCReply(NullUniValue, error, NullUniValue)] for what it threw. *)
Inductive WorkData : Type :=
| WorkUnit (msgs : list StratumMessage)
| WorkError (code : RPCErrorCode) (message : string).

(** One line of input as [stratum_read_cb] sees it: the value
    [valRequest.read(line)] parsed, if any; what [jreq.parse(valRequest)]
    makes of it, the method name and the parameters or an exception
    ([JSONRequest] is not among the sources); and the answer of
    [evbuffer_add] for the reply. *)
Record Line := {
  valRequest : option UniValue;
  jreq : outcome (string * UniValue);
  evbuffer_add_fails : bool }.

Section Callbacks.
Context `{Externals}.

(** The [try] block around [GetWorkUnit] at the end of [stratum_read_cb]. *)
Definition TryGetWorkUnit (env : NodeView) : M WorkData :=
  fun s =>
    match GetWorkUnit env s with
    | (Ret data, s') => (Ret (WorkUnit data), s')
    | (Throw (JSONRPCError code message), s') => (Ret (WorkError code message), s')
    | (Throw (runtime_error w), s') =>
        (Ret (WorkError RPC_INTERNAL_ERROR (what_message w)), s')
    | (Abort f, s') => (Abort f, s')
    end.

(** The end of [stratum_read_cb]: "If required, send new work to the
    client."  [add_fails] is the answer of [evbuffer_add]. *)
Definition SendWork (env : NodeView) (add_fails : bool) : M (option WorkData) :=
  do c <- gets client;
  if m_send_work c then
    do data <- TryGetWorkUnit env;
    run log "stratum" "Sending requested stratum work unit to %s : %s";
    run (if add_fails
         then log "stratum" "Sending stratum work unit failed. (Reason: %d, '%s')\n"
         else ret tt);
    run modify_client (set_m_send_work false);
    ret (Some data)
  else ret None.

(** The [try] block of [stratum_read_cb] for one line, from the parsing of
    the request on; [None] stands for the [continue] that skips a JSON-RPC
    response. *)
Definition stratum_request (env : NodeView) (line : Line) : M (option Reply) :=
  match valRequest line with
  | None =>
      (* Not JSON; is this even a stratum miner? *)
      ret (Some (ReplyError RPC_PARSE_ERROR "Parse error"))
  | Some (VOBJ members) =>
      if bool_decide (is_Some (List.find (fun kv => bool_decide (fst kv = "result"%string))
                                         members))
      then
        (* JSON-RPC reply.  Ignore. *)
        run log "stratum" "Ignoring JSON-RPC response\n";
        ret None
      else
        match jreq line with
        | Ret (strMethod, params) =>
            do reply <- stratum_dispatch env strMethod params;
            ret (Some reply)
        | Throw (JSONRPCError code message) => ret (Some (ReplyError code message))
        | Throw (runtime_error w) =>
            ret (Some (ReplyError RPC_INTERNAL_ERROR (what_message w)))
        | Abort f => fun s => (Abort f, s)
        end
  | Some _ =>
      (* Not a JSON object; don't know what to do. *)
      ret (Some (ReplyError RPC_PARSE_ERROR "Top-level object parse error"))
  end.

(** The loop of [stratum_read_cb] over the lines received; the replies are
    written to the connection in this order. *)
Fixpoint stratum_requests (env : NodeView) (lines : list Line) : M (list Reply) :=
  match lines with
  | [] => ret []
  | line :: rest =>
      run log "stratum" "Received stratum request from %s : %s\n";
      do reply <- stratum_request env line;
      match reply with
      | None => stratum_requests env rest
      | Some reply =>
          run log "stratum" "Sending stratum response to %s : %s";
          run (if evbuffer_add_fails line
               then log "stratum" "Sending stratum response failed. (Reason: %d, '%s')\n"
               else ret tt);
          do replies <- stratum_requests env rest;
          ret (reply :: replies)
      end
  end.

(** [stratum_read_cb] for a connection on record. *)
Definition stratum_read_cb (env : NodeView) (lines : list Line)
    (add_fails : bool) : M (list Reply * option WorkData) :=
  do replies <- stratum_requests env lines;
  do data <- SendWork env add_fails;
  ret (replies, data).

(** The [try] block around [GetWorkUnit] in [BlockWatcher]. *)
Definition TryGetUpdatedWork (env : NodeView) : M WorkData :=
  fun s =>
    match GetWorkUnit env s with
    | (Ret data, s') => (Ret (WorkUnit data), s')
    | (Throw (JSONRPCError code message), s') => (Ret (WorkError code message), s')
    | (Throw (runtime_error w), s') =>
        (Ret (WorkError RPC_INTERNAL_ERROR
                ("Error generating updated work for stratum client: " +:+ what_message w)),
         add_event (LogPrint "stratum" "%s\n") s')
    | (Abort f, s') => (Abort f, s')
    end.

(** One turn of the loop of [BlockWatcher] over the subscriptions: the work
    sent to the session, if any; [add_fails] is the answer of
    [evbuffer_add]. *)
Definition BlockWatcher_client (env : NodeView) (add_fails : bool)
    : M (option WorkData) :=
  do c <- gets client;
  (* Ignore clients that aren't authorized yet. *)
  if negb (m_authorized c) then ret None
  else
    let second_stage := GetSecondStageWork env (fst <$> m_last_second_stage c) in
    (* Ignore clients that are already working on the current second
       stage work unit. *)
    if match second_stage with
       | Some item =>
           bool_decide (m_last_second_stage c
                        = Some (fst item, ss_hashPrevBlock (snd item)))
       | None => false
       end
    then ret None
    else
      (* Ignore clients that are already working on the new block. *)
      do skip <-
        match second_stage with
        | None =>
            let mmwork := GetMergeMineWork env (m_mmauth c) in
            do mmroot <- lift (AuxWorkMerkleRoot mmwork);
            ret (bool_decide (m_last_tip c = Some (chainActive_Tip env))
                 && bool_decide (is_Some (m_mmwork c !! mmroot)))
        | Some _ => ret false
        end;
      if skip : bool then ret None
      else
        (* Get new work *)
        do data <- TryGetUpdatedWork env;
        (* Send the new work to the client *)
        run log "stratum" "Sending updated stratum work unit to %s : %s";
        run (if add_fails
             then log "stratum" "Sending stratum work unit failed. (Reason: %d, '%s')\n"
             else ret tt);
        ret (Some data).

End Callbacks.

(** ** The share chain (sharechain.cpp) *)

(** The fields of [ShareWitness] and [Share], as [swap] lists them
    (sharechain.h is not among the sources). *)
Record ShareWitness := {
  sw_commit : list (byte * uint256);
  sw_cb1 : bytes;
  sw_nLockTime : Z;
  sw_branch : list uint256;
  sw_nVersion : Z;
  sw_hashPrevBlock : uint256;
  sw_share_chain_path : uint256;
  sw_nTime : Z;
  sw_nBits : Z;
  sw_nNonce : Z }.

Record ShareMiner := {
  miner_version : Z;
  miner_length : nat;
  miner_program : bytes }.

Section ShareChain.
Context `{Externals}.

(** The types of the head of a share and what the code does with them:
    their serializations, the root of the Merkle mountain range of the
    previous shares, the hash a [CHashWriter] gives for the bytes written
    to it when [GetHash] has been called [n] times before on the same
    object, and [ComputeMerkleMapRootFromBranch] with its [invalid] flag. *)
Variables (Work Shares : Type).
Variable ser_version ser_bits ser_height ser_nLockTime : Z -> bytes.
Variable ser_total_work : Work -> bytes.
Variable ser_varint : Z -> bytes.
Variable Shares_GetHash : Shares -> uint256.
Variable CHashWriter_GetHash : nat -> bytes -> uint256.
Variable ComputeMerkleMapRootFromBranch_invalid :
  uint256 -> list (byte * uint256) -> uint256 -> uint256 * bool.

Record Share := {
  sh_version : Z;
  sh_bits : Z;
  sh_height : Z;
  sh_total_work : Work;
  sh_prev_shares : Shares;
  sh_miner : ShareMiner;
  sh_wit : ShareWitness }.

(** [Share::GetBlockHeader(bool *mutated)]: the header, and what is left in
    [*mutated] when the pointer is not null. *)
Definition Share_GetBlockHeader (share : Share) (mutated : bool)
    : CBlockHeader * option bool :=
  let wit := sh_wit share in
  let mutated_value := if mutated then Some false else None in
  (* Compute the hash of the share header. *)
  let ss : bytes := [] in
  let ss := ss ++ ser_version (sh_version share) in
  let ss := ss ++ ser_bits (sh_bits share) in
  let ss := ss ++ ser_height (sh_height share) in
  let ss := ss ++ ser_total_work (sh_total_work share) in
  let ss := ss ++ Shares_GetHash (sh_prev_shares share) in
  let ss := ss ++ ser_varint (miner_version (sh_miner share)) in
  let ss := ss ++ ser_varint (Z.of_nat (miner_length (sh_miner share))) in
  let ss := ss ++ take (miner_length (sh_miner share)) (miner_program (sh_miner share)) in
  let hash := CHashWriter_GetHash 0 ss in
  (* Compute the commitment root hash. *)
  let '(hash, invalid) :=
    ComputeMerkleMapRootFromBranch_invalid hash (sw_commit wit) (sw_share_chain_path wit) in
  let mutated_value := if invalid && mutated then Some true else mutated_value in
  (* Calculate hash of coinbase transaction. *)
  let h : bytes := [] in
  let h := h ++ sw_cb1 wit in
  let h := h ++ hash in
  let h := h ++ [x4b; x4a; x49; x48] in
  let h := h ++ ser_nLockTime (sw_nLockTime wit) in
  let hash := CHashWriter_GetHash 1 ss in
  (* Calculate hashMerkleRoot for the block header. *)
  let hash := ComputeMerkleRootFromBranch hash (sw_branch wit) 0 in
  ({| nVersion := sw_nVersion wit;
      hashPrevBlock := sw_hashPrevBlock wit;
      hashMerkleRoot := hash;
      nTime := sw_nTime wit;
      nBits := sw_nBits wit;
      nNonce := sw_nNonce wit |},
   mutated_value).

End ShareChain.

Arguments sh_version {Work Shares} _.
Arguments sh_bits {Work Shares} _.
Arguments sh_height {Work Shares} _.
Arguments sh_total_work {Work Shares} _.
Arguments sh_prev_shares {Work Shares} _.
Arguments sh_miner {Work Shares} _.
Arguments sh_wit {Work Shares} _.
Arguments Share_GetBlockHeader {_ Work Shares} _ _ _ _ _ _ _ _ _ _ _.

(** ** A reference instance of the collaborators

    SHA-256 as in FIPS 180-4 and plain stand-ins for the other helpers, so
    that the model runs on concrete inputs. *)

Module Reference.

Definition w32 (x : Z) : Z := x mod 2 ^ 32.

Definition is_prime (n : Z) : bool :=
  forallb (fun d => negb (n mod d =? 0)) (seqZ 2 (n - 2)).

Definition primes64 : list Z := take 64 (filter (fun n => is_prime n = true) (seqZ 2 400)).

(** The largest [r] in [[lo, hi)] with [r ^ 3 <= n], by bisection. *)
Fixpoint cube_root (fuel : nat) (lo hi n : Z) : Z :=
  match fuel with
  | O => lo
  | S k =>
      let mid := (lo + hi) / 2 in
      if mid * mid * mid <=? n then cube_root k mid hi n else cube_root k lo mid n
  end.

(** Fractional parts of the square and cube roots of the first primes. *)
Definition H0 : list Z :=
  Eval vm_compute in map (fun p => w32 (Z.sqrt (p * 2 ^ 64))) (take 8 primes64).

Definition K : list Z :=
  Eval vm_compute in map (fun p => w32 (cube_root 40 0 (2 ^ 36) (p * 2 ^ 96))) primes64.

Definition rotr (n x : Z) : Z := Z.lor (Z.shiftr x n) (w32 (Z.shiftl x (32 - n))).
Definition Ch (x y z : Z) : Z := Z.lxor (Z.land x y) (Z.land (Z.lxor x (2 ^ 32 - 1)) z).
Definition Maj (x y z : Z) : Z := Z.lxor (Z.lxor (Z.land x y) (Z.land x z)) (Z.land y z).
Definition Sigma0 (x : Z) : Z := Z.lxor (Z.lxor (rotr 2 x) (rotr 13 x)) (rotr 22 x).
Definition Sigma1 (x : Z) : Z := Z.lxor (Z.lxor (rotr 6 x) (rotr 11 x)) (rotr 25 x).
Definition sigma0 (x : Z) : Z := Z.lxor (Z.lxor (rotr 7 x) (rotr 18 x)) (Z.shiftr x 3).
Definition sigma1 (x : Z) : Z := Z.lxor (Z.lxor (rotr 17 x) (rotr 19 x)) (Z.shiftr x 10).

Fixpoint be_word (bs : bytes) : Z :=
  match bs with
  | [] => 0
  | b :: rest => Z_of_byte b * 256 ^ Z.of_nat (length rest) + be_word rest
  end.

Fixpoint words_of (n : nat) (bs : bytes) : list Z :=
  match n with
  | O => []
  | S k => be_word (take 4 bs) :: words_of k (drop 4 bs)
  end.

(** The message schedule, most recent word first. *)
Fixpoint schedule (n : nat) (rev_w : list Z) : list Z :=
  match n with
  | O => rev_w
  | S k =>
      let w i := nth i rev_w 0 in
      schedule k (w32 (sigma1 (w 1%nat) + w 6%nat + sigma0 (w 14%nat) + w 15%nat) :: rev_w)
  end.

Definition state : Type := Z * Z * Z * Z * Z * Z * Z * Z.

Definition round (s : state) (kw : Z * Z) : state :=
  let '(a, b, c, d, e, f, g, h) := s in
  let t1 := h + Sigma1 e + Ch e f g + fst kw + snd kw in
  let t2 := Sigma0 a + Maj a b c in
  (w32 (t1 + t2), a, b, c, w32 (d + t1), e, f, g).

Definition compress (s : state) (chunk : bytes) : state :=
  let w := rev (schedule 48 (rev (words_of 16 chunk))) in
  let '(a, b, c, d, e, f, g, h) := fold_left round (combine K w) s in
  let '(a0, b0, c0, d0, e0, f0, g0, h0) := s in
  (w32 (a0 + a), w32 (b0 + b), w32 (c0 + c), w32 (d0 + d),
   w32 (e0 + e), w32 (f0 + f), w32 (g0 + g), w32 (h0 + h)).

Fixpoint absorb (chunks : nat) (s : state) (m : bytes) : state :=
  match chunks with
  | O => s
  | S k => absorb k (compress s (take 64 m)) (drop 64 m)
  end.

Definition be_bytes (len : nat) (v : Z) : bytes := rev (le_bytes len v).

Definition pad (m : bytes) : bytes :=
  let n := Z.of_nat (length m) in
  m ++ [x80] ++ repeat x00 (Z.to_nat ((55 - n) mod 64)) ++ be_bytes 8 (8 * n).

Definition initial : state :=
  match H0 with
  | [a; b; c; d; e; f; g; h] => (a, b, c, d, e, f, g, h)
  | _ => (0, 0, 0, 0, 0, 0, 0, 0)
  end.

Definition digest (s : state) : bytes :=
  let '(a, b, c, d, e, f, g, h) := s in
  be_bytes 4 a ++ be_bytes 4 b ++ be_bytes 4 c ++ be_bytes 4 d
    ++ be_bytes 4 e ++ be_bytes 4 f ++ be_bytes 4 g ++ be_bytes 4 h.

Definition sha256 (m : bytes) : uint256 :=
  let p := pad m in
  digest (absorb (length p / 64) initial p).

Definition bytes_of_string (s : string) : bytes :=
  map (fun c => byte_of_Z (Z.of_nat (nat_of_ascii c))) (list_ascii_of_string s).

Definition hexdigit (n : Z) : ascii :=
  nth (Z.to_nat n) (list_ascii_of_string "0123456789abcdef") "0"%char.

Fixpoint hex (v : bytes) : string :=
  match v with
  | [] => EmptyString
  | b :: rest =>
      String (hexdigit (Z_of_byte b / 16)) (String (hexdigit (Z_of_byte b mod 16)) (hex rest))
  end.

Definition hexval (c : ascii) : option Z :=
  let n := Z.of_nat (nat_of_ascii c) in
  if (48 <=? n) && (n <=? 57) then Some (n - 48)
  else if (97 <=? n) && (n <=? 102) then Some (n - 87)
  else if (65 <=? n) && (n <=? 70) then Some (n - 55)
  else None.

(** [ParseHex] stops at the first character that is not a hex digit. *)
Fixpoint unhex (s : string) : bytes :=
  match s with
  | String a (String b rest) =>
      match hexval a, hexval b with
      | Some x, Some y => byte_of_Z (16 * x + y) :: unhex rest
      | _, _ => []
      end
  | _ => []
  end.

Fixpoint all_hex (s : string) : bool :=
  match s with
  | EmptyString => true
  | String a rest => bool_decide (is_Some (hexval a)) && all_hex rest
  end.

Definition is_hex (s : string) : bool :=
  negb (String.length s =? 0)%nat && Nat.even (String.length s) && all_hex s.

Definition parse_hex_v (v : UniValue) : option bytes :=
  match v with
  | VSTR s => if is_hex s then Some (unhex s) else None
  | _ => None
  end.

Definition hash256 (m : bytes) : uint256 := sha256 (sha256 m).

Fixpoint merkle_from_branch (leaf : uint256) (branch : list uint256) (index : Z) : uint256 :=
  match branch with
  | [] => leaf
  | sibling :: rest =>
      merkle_from_branch
        (if Z.odd index then hash256 (sibling ++ leaf) else hash256 (leaf ++ sibling))
        rest (index / 2)
  end.

(** One level up in the Merkle tree; [dup] repeats an unpaired last node
    (the classic tree), otherwise it moves up unchanged (the stable tree). *)
Fixpoint merkle_level (dup : bool) (l : list uint256) : list uint256 :=
  match l with
  | a :: b :: rest => hash256 (a ++ b) :: merkle_level dup rest
  | [a] => [if dup then hash256 (a ++ a) else a]
  | [] => []
  end.

Fixpoint merkle_root (dup : bool) (fuel : nat) (l : list uint256) : uint256 :=
  match l, fuel with
  | [], _ => uint256_zero
  | [r], _ => r
  | _, O => uint256_zero
  | _, S k => merkle_root dup k (merkle_level dup l)
  end.

Fixpoint merkle_branch (dup : bool) (fuel : nat) (l : list uint256) (pos : nat)
    : list uint256 :=
  match l, fuel with
  | [], _ | [_], _ | _, O => []
  | _, S k =>
      let sibling := if Nat.even pos then l !! S pos else l !! Nat.pred pos in
      let rest := merkle_branch dup k (merkle_level dup l) (Nat.div2 pos) in
      match sibling with
      | Some h => h :: rest
      | None => if dup then default uint256_zero (last l) :: rest else rest
      end
  end.

Definition block_merkle_root (b : CBlock) : uint256 :=
  merkle_root true (length (vtx b))
    (map (fun tx => hash256 (SerializeTransaction false tx)) (vtx b)).

Definition block_merkle_branch (b : CBlock) (pos : Z) : list uint256 :=
  merkle_branch true (length (vtx b))
    (map (fun tx => hash256 (SerializeTransaction false tx)) (vtx b)) (Z.to_nat pos).

Definition stable_merkle_branch (leaves : list uint256) (pos : Z) : list uint256 * uint256 :=
  (merkle_branch false (length leaves) leaves (Z.to_nat pos),
   merkle_root false (length leaves) leaves).

Definition header_hash (h : CBlockHeader) : uint256 :=
  hash256 (le_bytes 4 (nVersion h) ++ hashPrevBlock h ++ hashMerkleRoot h
             ++ le_bytes 4 (nTime h) ++ le_bytes 4 (nBits h) ++ le_bytes 4 (nNonce h)).

Definition commitment_header : bytes := [x6a; x24; xaa; x21; xa9; xed].

Definition is_commitment (o : CTxOut) : bool :=
  (38 <=? length (scriptPubKey o))%nat
  && bool_decide (take 6 (scriptPubKey o) = commitment_header).

Fixpoint last_commitment (i : Z) (outs : list CTxOut) (found : Z) : Z :=
  match outs with
  | [] => found
  | o :: rest => last_commitment (i + 1) rest (if is_commitment o then i else found)
  end.

Definition witness_commitment_index (b : CBlock) : Z :=
  match vtx b with
  | [] => -1
  | cb :: _ => last_commitment 0 (vout cb) (-1)
  end.

Definition generate_coinbase_commitment (b : CBlock) (prev : option CBlockIndex) : CBlock :=
  match vtx b with
  | cb :: rest =>
      if witness_commitment_index b =? -1 then
        let wtxids :=
          uint256_zero :: map (fun tx => hash256 (SerializeTransaction true tx)) rest in
        let root := merkle_root true (length wtxids) wtxids in
        let out :=
          {| nValue := 0;
             scriptPubKey := commitment_header ++ hash256 (root ++ uint256_zero) |} in
        set_vtx (set_vout (vout cb ++ [out]) cb :: rest) b
      else b
  | [] => b
  end.

Definition commitment_id : bytes := [x4b; x4a; x49; x48].

(** The commitment sits in the last 36 bytes of the script of the last
    output of the block-final transaction. *)
Definition update_block_final (bf : CMutableTransaction) (mmroot : uint256)
    : bool * CMutableTransaction :=
  match last (vout bf) with
  | Some o =>
      let script := scriptPubKey o in
      if (36 <=? length script)%nat then
        let script' := take (length script - 36) script ++ mmroot ++ commitment_id in
        (negb (bool_decide (script' = script)),
         set_vout (set_back (set_scriptPubKey script' o) (vout bf)) bf)
      else (false, bf)
  | None => (false, bf)
  end.

Definition difficulty (nBits' : Z) : double :=
  let shift := Z.land (Z.shiftr nBits' 24) 255 in
  let mantissa := Z.land nBits' 16777215 in
  if mantissa =? 0 then Infinity false
  else Finite (inject_Z 65535 / inject_Z mantissa * (inject_Z 256) ^ (29 - shift))%Q.

Fixpoint decimal (s : string) (acc : Z) : option Z :=
  match s with
  | EmptyString => Some acc
  | String c rest =>
      let n := Z.of_nat (nat_of_ascii c) in
      if (48 <=? n) && (n <=? 57) then decimal rest (10 * acc + (n - 48)) else None
  end.

(** Decimal numerals with an optional fraction. *)
Definition parse_double (s : string) : option double :=
  match find_char "." 0 s with
  | None =>
      if bool_decide (s = EmptyString) then None
      else (fun i => Finite (inject_Z i)) <$> decimal s 0
  | Some pos =>
      let frac := string_from (pos + 1) s in
      match decimal (substring 0 pos s) 0, decimal frac 0 with
      | Some i, Some f =>
          Some (Finite (inject_Z i
                        + inject_Z f / inject_Z (10 ^ Z.of_nat (String.length frac)))%Q)
      | _, _ => None
      end
  end.

Definition is_base58 (c : ascii) : bool :=
  let n := nat_of_ascii c in
  (((49 <=? n) && (n <=? 57)) || ((65 <=? n) && (n <=? 90)) || ((97 <=? n) && (n <=? 122)))%nat
  && negb (bool_decide (c = "I"%char)) && negb (bool_decide (c = "O"%char))
  && negb (bool_decide (c = "l"%char)).

Definition valid_address (s : string) : bool :=
  (26 <=? String.length s)%nat && (String.length s <=? 35)%nat
  && forallb is_base58 (list_ascii_of_string s).

Definition pay_to_address (s : string) : bytes :=
  [x76; xa9; x14] ++ take 20 (hash256 (bytes_of_string s)) ++ [x88; xac].

(** The state of the hasher before padding: the chaining value after the
    whole blocks, the bytes still buffered and the number of bits taken. *)
Definition midstate (m : bytes) : uint256 * bytes * Z :=
  let whole := (length m / 64)%nat in
  (digest (absorb whole initial m), drop (whole * 64) m, 8 * Z.of_nat (length m)).

#[export] Program Instance externals : Externals := {|
  SHA256 := sha256;
  Midstate := midstate;
  HexStr := hex;
  ParseHex := unhex;
  ParseHexV_bytes := parse_hex_v;
  ComputeMerkleRootFromBranch := merkle_from_branch;
  ComputeMerkleMapRootFromBranch := fun value _ key => hash256 (key ++ value);
  ComputeStableMerkleBranch := stable_merkle_branch;
  BlockMerkleRoot := block_merkle_root;
  BlockMerkleBranch := block_merkle_branch;
  BlockHeader_GetHash := header_hash;
  IsWitnessEnabled := fun prev =>
    match prev with
    | Some index => 100 <=? nHeight index
    | None => false
    end;
  GetWitnessCommitmentIndex := witness_commitment_index;
  GenerateCoinbaseCommitment := generate_coinbase_commitment;
  UpdateTime := fun h _ => h;
  GetDifficulty := difficulty;
  UpdateBlockFinalTransaction := update_block_final;
  chain_names := {[ "tradecraft" := repeat x01 32 ]};
  DefaultAuxPowPath := repeat x02 32;
  IsValidAddress := valid_address;
  GetScriptForDestination := pay_to_address;
  lexical_cast_double := parse_double |}.
Next Obligation.
  intros m. unfold sha256.
  destruct (absorb _ _ _) as [[[[[[[a b] c] d] e] f] g] h]. reflexivity.
Qed.

End Reference.

(** ** Concrete sessions and jobs used by the examples below *)

Module Scenario.
Import Reference.

(** A session whose user asked for a minimum difficulty of 0.0005. *)
Definition low_mindiff_client : StratumClient :=
  set_m_mindiff (Finite 0.0005) (StratumClient_new (repeat x07 32)).

(** A session whose user asked for a minimum difficulty of 2. *)
Definition mindiff2_client : StratumClient :=
  set_m_mindiff (Finite 2) (StratumClient_new (repeat x07 32)).

Definition chain_a : uint256 := repeat x0a 32.
Definition chain_b : uint256 := repeat x0b 32.

Definition auxwork_a : AuxWork := {| commit := repeat xaa 32; bits := 486604799; bias := 0 |}.
Definition auxwork_b : AuxWork := {| commit := repeat xbb 32; bits := 486604799; bias := 0 |}.

(** Two auxiliary commitments at once. *)
Definition two_commitments : gmap uint256 AuxWork :=
  <[chain_a := auxwork_a]> {[chain_b := auxwork_b]}.

Definition secret : uint256 := repeat x07 32.
Definition address : string := "1BoatSLRHtKNngkdXEeobR76b53LETtpyT".

Definition tip100 : CBlockIndex := {| phashBlock := repeat x11 32; nHeight := 100 |}.

Definition coinbase : CMutableTransaction :=
  {| tx_nVersion := 2;
     vin := [ {| prevout := {| prevout_hash := uint256_zero; prevout_n := 4294967295 |};
                 scriptSig := [x01; x65];
                 nSequence := 4294967295;
                 scriptWitness := [] |} ];
     vout := [ {| nValue := 5000000000; scriptPubKey := [OP_FALSE] |} ];
     nLockTime := 0 |}.

Definition block_final : CMutableTransaction :=
  {| tx_nVersion := 2;
     vin := [ {| prevout := {| prevout_hash := repeat x33 32; prevout_n := 0 |};
                 scriptSig := [];
                 nSequence := 4294967295;
                 scriptWitness := [] |} ];
     vout := [ {| nValue := 0; scriptPubKey := x51 :: repeat x00 36 |} ];
     nLockTime := 101 |}.

(** A candidate block on top of [tip100]; [t] is its time stamp and [n]
    tells candidates apart. *)
Definition template (t n : Z) : CBlockTemplate :=
  {| block :=
       {| header := {| nVersion := 536870912; hashPrevBlock := phashBlock tip100;
                       hashMerkleRoot := uint256_zero; nTime := t;
                       nBits := 545259519; nNonce := n |};
          vtx := [coinbase; block_final] |};
     has_block_final_tx := true |}.

Fixpoint le_value (h : bytes) : Z :=
  match h with
  | [] => 0
  | b :: rest => Z_of_byte b + 256 * le_value rest
  end.

(** The hash, read as a little-endian number, is at most the target that
    the compact [bits] stand for. *)
Definition check_pow (hash : uint256) (nBits' bias' : Z) : bool :=
  le_value hash
  <=? Z.land nBits' 16777215 * 256 ^ (Z.land (Z.shiftr nBits' 24) 255 - 3).

(** The node as seen at time [now], after [updated] mempool updates, with
    the block assembler handing out [template t updated]; the merge-mine
    client has work for [chain_a] only, and [second_stage] as second-stage
    work. *)
Definition node_with (second_stage : option (uint256 * SecondStageWork))
    (now updated t : Z) : NodeView :=
  {| vNodes_empty := false;
     MineBlocksOnDemand := false;
     IsInitialBlockDownload := false;
     GetSecondStageWork := fun _ => second_stage;
     chainActive_Tip := tip100;
     mempool_GetTransactionsUpdated := updated;
     GetTime := now;
     GetTimeMillis := now * 1000;
     CreateNewBlock := Some (template t updated);
     GetMergeMineWork := fun mmauth =>
       if bool_decide (is_Some (mmauth !! chain_a)) then {[chain_a := auxwork_a]} else ∅;
     CheckProofOfWork := check_pow;
     ProcessNewBlock := fun _ => true |}.

(** The node without second-stage work. *)
Definition node : Z -> Z -> Z -> NodeView := node_with None.

Definition second_stage_work : SecondStageWork :=
  {| ss_job_id := "abcd"; ss_hashPrevBlock := repeat x44 32;
     ss_cb1 := [x01; x02]; ss_cb2 := [x03]; ss_cb_branch := [];
     ss_nVersion := 536870912; ss_nBits := 545259519; ss_nTime := 1000000;
     ss_diff := Finite 1 |}.

(** The node while [chain_a] offers the second-stage job "abcd". *)
Definition node_second_stage : Z -> Z -> Z -> NodeView :=
  node_with (Some (chain_a, second_stage_work)).

(** mining.authorize with a payout address and merge-mining on [chain_a]. *)
Definition authorize_params : UniValue :=
  VARR [VSTR address; VSTR (hex chain_a +:+ "=bob:secret")].

(** mining.authorize with the user name only. *)
Definition authorize_one_param : UniValue := VARR [VSTR address].

(** The session after it was accepted and authorized. *)
Definition authorized_state : State :=
  snd (stratum_mining_authorize authorize_params (State_init (StratumClient_new secret))).

(** The state after the first work unit went out at time 1000000. *)
Definition working_state : State :=
  snd (GetWorkUnit (node 1000000 0 1000000) authorized_state).

(** The job identifier of the last [mining.notify] among [msgs]. *)
Definition notified_job (msgs : outcome (list StratumMessage)) : string :=
  match msgs with
  | Ret msgs =>
      match last msgs with
      | Some (mining_notify _ params) => np_job_id params
      | _ => EmptyString
      end
  | _ => EmptyString
  end.

(** mining.submit for the job [id]. *)
Definition submit_params (id : string) : UniValue :=
  VARR [VSTR address; VSTR id; VSTR "00000001"; VSTR "000f4240"; VSTR "00000000"].

(** A share for the job sent out in [working_state]. *)
Definition submit_known : UniValue :=
  submit_params (notified_job (fst (GetWorkUnit (node 1000000 0 1000000) authorized_state))).

(** The job, the template and the merge-mining root in [working_state]. *)
Definition working_job : uint256 := job_id working_state.

Definition working_template : StratumWork :=
  default StratumWork_default (work_templates working_state !! working_job).

Definition working_mmroot : uint256 :=
  match std_map_items (m_mmwork (client working_state)) with
  | (mmroot, _) :: _ => mmroot
  | [] => uint256_zero
  end.

(** A share for a job nobody was given. *)
Definition submit_unknown : UniValue := submit_params (hex (repeat xee 32)).

(** A chain that is still short of the activation of segregated witness,
    with candidates made of a coinbase only. *)
Definition tip10 : CBlockIndex := {| phashBlock := repeat x22 32; nHeight := 10 |}.

Definition plain_template (t n : Z) : CBlockTemplate :=
  {| block :=
       {| header := {| nVersion := 536870912; hashPrevBlock := phashBlock tip10;
                       hashMerkleRoot := uint256_zero; nTime := t;
                       nBits := 545259519; nNonce := n |};
          vtx := [coinbase] |};
     has_block_final_tx := false |}.

Definition plain_node (now updated t : Z) : NodeView :=
  {| vNodes_empty := false;
     MineBlocksOnDemand := false;
     IsInitialBlockDownload := false;
     GetSecondStageWork := fun _ => None;
     chainActive_Tip := tip10;
     mempool_GetTransactionsUpdated := updated;
     GetTime := now;
     GetTimeMillis := now * 1000;
     CreateNewBlock := Some (plain_template t updated);
     GetMergeMineWork := fun _ => ∅;
     CheckProofOfWork := check_pow;
     ProcessNewBlock := fun _ => true |}.

(** [k] work units in a row, six seconds apart from time 1000000 on, each
    after one more mempool update; the candidate of the [i]-th has the time
    stamp [stamp i]. *)
Fixpoint work_units (k : nat) (i : Z) (stamp : Z -> Z) (s : State) : State :=
  match k with
  | O => s
  | S k' =>
      work_units k' (i + 1) stamp
        (snd (GetWorkUnit (plain_node (1000000 + 6 * i) (i + 1) (stamp i)) s))
  end.

(** 31 work units whose candidates carry the current time. *)
Definition punctual_state : State :=
  work_units 31 0 (fun i => 1000000 + 6 * i) authorized_state.

(** 31 work units whose candidates are stamped 1000200, ahead of the clock
    of the node (the median time of the chain is ahead of it). *)
Definition crowded_state : State :=
  work_units 31 0 (fun _ => 1000200) authorized_state.

(** A share for the second-stage job "abcd". *)
Definition submit_second_stage : UniValue := submit_params ":abcd".

(** The state after the second-stage job "abcd" went out at time 1000000. *)
Definition second_stage_state : State :=
  snd (GetWorkUnit (node_second_stage 1000000 0 1000000) authorized_state).

End Scenario.

(** ** More data for the examples *)

Module Cases.
Import Reference.


(** A work template whose candidate block carries the time stamp [t]. *)
Definition stamped (t : Z) : StratumWork :=
  {| m_prev_block_index := None;
     m_block_template :=
       {| block := {| header := {| nVersion := 536870912; hashPrevBlock := uint256_zero;
                                   hashMerkleRoot := uint256_zero; nTime := t;
                                   nBits := 545259519; nNonce := 0 |};
                      vtx := [] |};
          has_block_final_tx := false |};
     m_cb_branch := [];
     m_is_witness_enabled := false;
     m_height := 1 |}.

Definition job (b : byte) : uint256 := repeat b 32.

(** Three templates: one stale, one current, one recent. *)
Definition three_templates : gmap uint256 StratumWork :=
  <[job x01 := stamped 100]> (<[job x02 := stamped 2000]> {[job x03 := stamped 1990]}).

(** 31 templates stamped 1000, 1001, ..., 1030. *)
Definition many_templates : gmap uint256 StratumWork :=
  list_to_map ((fun i => (job (byte_of_Z i), stamped (1000 + i))) <$> seqZ 0 31).

(** One template stamped ahead of the clock. *)
Definition early_template : gmap uint256 StratumWork := {[job x01 := stamped 2000]}.

(** Two bundles, stored at 1000 s and at 1999 s. *)
Definition two_bundles : gmap uint256 (Z * gmap uint256 AuxWork) :=
  <[job x01 := (1000000, ∅)]> {[job x02 := (1999000, ∅)]}.

(** A session on a fresh server. *)
Definition fresh : State := State_init (StratumClient_new Scenario.secret).

(** mining.authorize under a name that is no address. *)
Definition authorize_nobody : UniValue := VARR [VSTR "nobody"; VSTR "x"].

(** mining.configure asking for all 32 bits of the version. *)
Definition configure_all_bits : UniValue :=
  VARR [ VARR [VSTR "version-rolling"];
         VOBJ [ ("version-rolling.mask", VSTR "ffffffff");
                ("version-rolling.min-bit-count", VNUM 2) ] ].

(** A node that is still downloading blocks. *)
Definition node_downloading : NodeView :=
  {| vNodes_empty := false;
     MineBlocksOnDemand := false;
     IsInitialBlockDownload := true;
     GetSecondStageWork := fun _ => None;
     chainActive_Tip := Scenario.tip100;
     mempool_GetTransactionsUpdated := 0;
     GetTime := 1000000;
     GetTimeMillis := 1000000000;
     CreateNewBlock := None;
     GetMergeMineWork := fun _ => ∅;
     CheckProofOfWork := fun _ _ _ => false;
     ProcessNewBlock := fun _ => false |}.

(** A node on which no header meets any target, with candidates made of a
    coinbase only. *)
Definition node_no_pow : NodeView :=
  {| vNodes_empty := false;
     MineBlocksOnDemand := false;
     IsInitialBlockDownload := false;
     GetSecondStageWork := fun _ => None;
     chainActive_Tip := Scenario.tip10;
     mempool_GetTransactionsUpdated := 0;
     GetTime := 1000000;
     GetTimeMillis := 1000000000;
     CreateNewBlock := Some (Scenario.plain_template 1000000 0);
     GetMergeMineWork := fun _ => ∅;
     CheckProofOfWork := fun _ _ _ => false;
     ProcessNewBlock := fun _ => true |}.

(** The first work unit of that node, its job and its template. *)
Definition no_pow_state : State :=
  snd (GetWorkUnit node_no_pow Scenario.authorized_state).

Definition no_pow_job : uint256 := job_id no_pow_state.

Definition no_pow_template : StratumWork :=
  default StratumWork_default (work_templates no_pow_state !! no_pow_job).

(** A node whose merge-mine client offers two commitments at once. *)
Definition node_two_commitments : NodeView :=
  {| vNodes_empty := false;
     MineBlocksOnDemand := false;
     IsInitialBlockDownload := false;
     GetSecondStageWork := fun _ => None;
     chainActive_Tip := Scenario.tip100;
     mempool_GetTransactionsUpdated := 0;
     GetTime := 1000000;
     GetTimeMillis := 1000000000;
     CreateNewBlock := None;
     GetMergeMineWork := fun _ => Scenario.two_commitments;
     CheckProofOfWork := fun _ _ _ => false;
     ProcessNewBlock := fun _ => false |}.

(** A line that is not JSON, and a mining.authorize request. *)
Definition line_garbage : Line :=
  {| valRequest := None; jreq := Ret (EmptyString, VNULL); evbuffer_add_fails := false |}.

Definition line_authorize : Line :=
  {| valRequest :=
       Some (VOBJ [ ("id", VNUM 1); ("method", VSTR "mining.authorize");
                    ("params", Scenario.authorize_params) ]);
     jreq := Ret ("mining.authorize"%string, Scenario.authorize_params);
     evbuffer_add_fails := false |}.

(** Two shares with the same head and the same header fields in their
    witnesses, but different coinbase halves, lock times and commitment
    branches. *)
Definition share_witness (cb1 : bytes) (lock_time : Z) (path : uint256) : ShareWitness :=
  {| sw_commit := []; sw_cb1 := cb1; sw_nLockTime := lock_time; sw_branch := [];
     sw_nVersion := 536870912; sw_hashPrevBlock := repeat x11 32;
     sw_share_chain_path := path; sw_nTime := 1000000; sw_nBits := 545259519;
     sw_nNonce := 7 |}.

Definition share (wit : ShareWitness) : Share unit unit :=
  {| sh_version := 1; sh_bits := 545259519; sh_height := 5; sh_total_work := tt;
     sh_prev_shares := tt;
     sh_miner := {| miner_version := 0; miner_length := 2; miner_program := [x01; x02] |};
     sh_wit := wit |}.

End Cases.

(** * Properties *)

(** ** Reasoning about rationals and outcomes *)

Lemma Qltb_true x y : Qltb x y = true <-> (x < y)%Q.
Proof.
  unfold Qltb. rewrite negb_true_iff. split.
  - intros Hb. apply Qnot_le_lt. intros Hle. apply Qle_bool_iff in Hle. congruence.
  - intros Hlt. destruct (Qle_bool y x) eqn:E; [|done].
    apply Qle_bool_iff in E. exfalso. eapply Qlt_not_le; eauto.
Qed.

Lemma Qltb_false x y : Qltb x y = false <-> (y <= x)%Q.
Proof. unfold Qltb. rewrite negb_false_iff. apply Qle_bool_iff. Qed.

(** ** Difficulty clamping *)

(** C2 (as amended): for every client and every input difficulty the result
    of [ClampDifficulty] is at least 0.001 as soon as the client's [mindiff]
    is above 0 or the input is not NaN, while a NaN input with a [mindiff]
    that is not above 0 comes back as NaN; whenever [mindiff] is at least
    0.001 the result is [mindiff] itself, and for a [mindiff] strictly
    between 0 and 0.001 the result is 0.001. *)
Theorem ClampDifficulty_floor_and_override (client : StratumClient) (diff : double) :
  (double_lt (Finite 0) (m_mindiff client) = true \/ diff <> NaN ->
   double_le (Finite 0.001) (ClampDifficulty client diff) = true)
  /\ (double_lt (Finite 0) (m_mindiff client) = false -> diff = NaN ->
      ClampDifficulty client diff = NaN)
  /\ (double_le (Finite 0.001) (m_mindiff client) = true ->
      ClampDifficulty client diff = m_mindiff client)
  /\ (double_lt (Finite 0) (m_mindiff client) = true ->
      double_lt (m_mindiff client) (Finite 0.001) = true ->
      ClampDifficulty client diff = Finite 0.001).
Proof.
  unfold ClampDifficulty.
  split; [|split; [|split]].
  - intros Hin.
    assert (Hmax : forall d, d <> NaN ->
              double_le (Finite 0.001)
                (if double_lt d (Finite 0.001) then Finite 0.001 else d) = true).
    { intros [q|[|]|] Hd; cbn [double_lt negb]; try done.
      destruct (Qltb q 0.001) eqn:E; cbn [double_le].
      - reflexivity.
      - apply Qle_bool_iff. by apply Qltb_false in E. }
    destruct (double_lt (Finite 0) (m_mindiff client)) eqn:Hpos.
    + apply Hmax. intros Hnan. rewrite Hnan in Hpos. discriminate.
    + apply Hmax. destruct Hin as [Hin|Hin]; [discriminate|exact Hin].
  - intros Hpos Hnan. rewrite Hpos, Hnan. reflexivity.
  - intros Hm.
    destruct (m_mindiff client) as [q|[|]|]; cbn [double_le double_lt negb] in *;
      try done.
    apply Qle_bool_iff in Hm.
    assert (Hpos : Qltb 0 q = true).
    { apply Qltb_true. eapply Qlt_le_trans; [|exact Hm]. reflexivity. }
    rewrite Hpos. cbn [double_lt].
    assert (Hge : Qltb q 0.001 = false) by by apply Qltb_false.
    by rewrite Hge.
  - intros Hpos Hlt. by rewrite Hpos, Hlt.
Qed.

(** With a requested minimum of 2 the delivered difficulty is 2, whatever
    the network difficulty; a session without a requested minimum hands a
    NaN on. *)
Lemma ClampDifficulty_floor_and_override_witness :
  (double_le (Finite 0.001) (m_mindiff Scenario.mindiff2_client) = true
   /\ ClampDifficulty Scenario.mindiff2_client (Finite 1) = Finite 2)
  /\ (double_lt (Finite 0) (m_mindiff (StratumClient_new (repeat x07 32))) = false
      /\ ClampDifficulty (StratumClient_new (repeat x07 32)) NaN = NaN).
Proof.
  split.
  - assert (Hm : double_le (Finite 0.001) (m_mindiff Scenario.mindiff2_client) = true)
      by reflexivity.
    split; [exact Hm|].
    exact (proj1 (proj2 (proj2 (ClampDifficulty_floor_and_override
                                  Scenario.mindiff2_client (Finite 1)))) Hm).
  - assert (Hm : double_lt (Finite 0) (m_mindiff (StratumClient_new (repeat x07 32))) = false)
      by reflexivity.
    split; [exact Hm|].
    exact (proj1 (proj2 (ClampDifficulty_floor_and_override
                           (StratumClient_new (repeat x07 32)) NaN)) Hm eq_refl).
Defined.

(** C2 as stated fails: a client with [mindiff] = 0.0005 > 0 is delivered
    0.001, not its [mindiff]; and for a client without a [mindiff] a NaN is
    not raised to 0.001. *)
Lemma ClampDifficulty_mindiff_counterexample :
  double_lt (Finite 0) (m_mindiff Scenario.low_mindiff_client) = true
  /\ ClampDifficulty Scenario.low_mindiff_client (Finite 1) = Finite 0.001
  /\ double_eq (ClampDifficulty Scenario.low_mindiff_client (Finite 1))
               (m_mindiff Scenario.low_mindiff_client) = false
  /\ double_le (Finite 0.001) (ClampDifficulty (StratumClient_new (repeat x07 32)) NaN)
     = false.
Proof. split; [reflexivity|]. split; [reflexivity|]. split; reflexivity. Qed.

(** ** Extranonce derivation and the single-entry merge-mining root *)

Section Derivations.
Context `{Externals}.

Lemma ExtraNonce1_size (c : StratumClient) (job_id : uint256) :
  length (ExtraNonce1 c job_id) = 8%nat.
Proof. unfold ExtraNonce1. rewrite length_take, SHA256_size. reflexivity. Qed.

(** C5: [ExtraNonce1 J] is the first 8 bytes of SHA256(S ∥ J) when the
    session subscribed to extranonce updates and the first 8 bytes of
    SHA256(S) otherwise; without the subscription it is the same for all
    job identifiers. *)
Theorem ExtraNonce1_derivation (c : StratumClient) (J : uint256) :
  (m_supports_extranonce c = true ->
     ExtraNonce1 c J = take 8 (SHA256 (m_secret c ++ J)))
  /\ (m_supports_extranonce c = false ->
        ExtraNonce1 c J = take 8 (SHA256 (m_secret c)))
  /\ (m_supports_extranonce c = false ->
        forall J' : uint256, ExtraNonce1 c J = ExtraNonce1 c J').
Proof.
  unfold ExtraNonce1. repeat split; intros Hs; rewrite Hs; reflexivity.
Qed.

Lemma std_map_items_singleton {V} (k : uint256) (v : V) :
  std_map_items ({[k := v]} : gmap uint256 V) = [(k, v)].
Proof. unfold std_map_items. rewrite map_to_list_singleton. reflexivity. Qed.

(** C6: [AuxWorkMerkleRoot] throws for every map with more than one
    auxiliary commitment, returns the zero hash for the empty map and
    [ComputeMerkleMapRootFromBranch(auxwork.commit, {}, chainid)] for the
    singleton map. *)
Theorem AuxWorkMerkleRoot_cases :
  (forall mmwork : gmap uint256 AuxWork,
      (1 < size mmwork)%nat ->
      AuxWorkMerkleRoot mmwork = Throw (runtime_error MoreThanOneCommitment))
  /\ AuxWorkMerkleRoot ∅ = Ret uint256_zero
  /\ (forall (chainid : uint256) (auxwork : AuxWork),
        AuxWorkMerkleRoot {[chainid := auxwork]}
        = Ret (ComputeMerkleMapRootFromBranch (commit auxwork) [] chainid)).
Proof.
  unfold AuxWorkMerkleRoot. repeat split.
  - intros mmwork Hsize.
    destruct (size mmwork) as [|[|n]] eqn:E; [lia|lia|reflexivity].
  - intros chainid auxwork.
    rewrite map_size_singleton, std_map_items_singleton. reflexivity.
Qed.

End Derivations.

Section DerivationExamples.
#[local] Existing Instance Reference.externals.

(** A session that did not subscribe to extranonce updates gets the first
    8 bytes of the hash of its secret for every job. *)
Lemma ExtraNonce1_derivation_witness :
  m_supports_extranonce Scenario.mindiff2_client = false
  /\ ExtraNonce1 Scenario.mindiff2_client Scenario.chain_a
     = take 8 (SHA256 (m_secret Scenario.mindiff2_client)).
Proof.
  split; [reflexivity|].
  exact (proj1 (proj2 (ExtraNonce1_derivation Scenario.mindiff2_client Scenario.chain_a))
           eq_refl).
Defined.

(** Two commitments at once are refused. *)
Lemma AuxWorkMerkleRoot_cases_witness :
  (1 < size Scenario.two_commitments)%nat
  /\ AuxWorkMerkleRoot Scenario.two_commitments
     = Throw (runtime_error MoreThanOneCommitment).
Proof.
  assert (Hsize : (1 < size Scenario.two_commitments)%nat) by (vm_compute; lia).
  split; [exact Hsize|].
  exact (proj1 AuxWorkMerkleRoot_cases Scenario.two_commitments Hsize).
Defined.

End DerivationExamples.

(** ** Reasoning about computations *)

Lemma bind_inv {A B} (m : M A) (k : A -> M B) s out s' :
  bind m k s = (out, s') ->
  (exists a s1, m s = (Ret a, s1) /\ k a s1 = (out, s'))
  \/ (exists e, m s = (Throw e, s') /\ out = Throw e)
  \/ (exists f, m s = (Abort f, s') /\ out = Abort f).
Proof.
  unfold bind. destruct (m s) as [[a|e|f] s1]; intros Heq.
  - left. eauto.
  - right. left. inversion Heq. eauto.
  - right. right. inversion Heq. eauto.
Qed.

Lemma bind_Ret_inv {A B} (m : M A) (k : A -> M B) s b s' :
  bind m k s = (Ret b, s') ->
  exists a s1, m s = (Ret a, s1) /\ k a s1 = (Ret b, s').
Proof.
  intros Heq. apply bind_inv in Heq as [Hr|[(e & _ & He)|(f & _ & Hf)]];
    [exact Hr|discriminate|discriminate].
Qed.

Lemma lift_inv {A} (o : outcome A) s out s' :
  lift o s = (out, s') -> out = o /\ s' = s.
Proof. unfold lift. intros Heq. inversion Heq. done. Qed.

Lemma gets_inv {A} (f : State -> A) s out s' :
  gets f s = (out, s') -> out = Ret (f s) /\ s' = s.
Proof. unfold gets. intros Heq. inversion Heq. done. Qed.

Lemma modify_inv (f : State -> State) s out s' :
  modify f s = (out, s') -> out = Ret tt /\ s' = f s.
Proof. unfold modify. intros Heq. inversion Heq. done. Qed.

Lemma ret_inv {A} (a : A) s out s' :
  ret a s = (out, s') -> out = Ret a /\ s' = s.
Proof. unfold ret. intros Heq. inversion Heq. done. Qed.

(** A run is the pair of its outcome and its final state. *)
Lemma run_surjective {A} (r : outcome A * State) (o : outcome A) :
  fst r = o -> r = (o, snd r).
Proof. destruct r. simpl. congruence. Qed.

Lemma tuple6_inv {A B C D E F : Type} (a a' : A) (b b' : B) (c c' : C) (d d' : D)
    (e e' : E) (f f' : F) :
  (a, b, c, d, e, f) = (a', b', c', d', e', f') ->
  a = a' /\ b = b' /\ c = c' /\ d = d' /\ e = e' /\ f = f'.
Proof. intros Heq. inversion Heq. repeat split. Qed.

Lemma lookup_surjective {V W} (o : option (V * W)) (d : V * W) (v : V) :
  fst <$> o = Some v ->
  o = Some (fst (default d o), snd (default d o)).
Proof. destruct o as [[? w]|]; simpl; [done|discriminate]. Qed.

Lemma bind_gets {A B} (f : State -> A) (k : A -> M B) s : bind (gets f) k s = k (f s) s.
Proof. reflexivity. Qed.

Lemma bind_modify {B} (f : State -> State) (k : unit -> M B) s :
  bind (modify f) k s = k tt (f s).
Proof. reflexivity. Qed.

Lemma aux_calls_app tr tr' : aux_calls (tr ++ tr') = aux_calls tr ++ aux_calls tr'.
Proof. unfold aux_calls. apply List.filter_app. Qed.

Lemma without_logs_app tr tr' :
  without_logs (tr ++ tr') = without_logs tr ++ without_logs tr'.
Proof. unfold without_logs. apply List.filter_app. Qed.

Section ThrowsOnly.
Context {P : exn -> Prop}.

Lemma throws_only_ret {A} (a : A) : throws_only P (ret a).
Proof. intros s e s' Heq. discriminate. Qed.

Lemma throws_only_throw {A} (e : exn) : P e -> throws_only P (@throw A e).
Proof. intros HP s e' s' Heq. inversion Heq. by subst. Qed.

Lemma throws_only_undefined {A} : throws_only P (@undefined A).
Proof. intros s e s' Heq. discriminate. Qed.

Lemma throws_only_gets {A} (f : State -> A) : throws_only P (gets f).
Proof. intros s e s' Heq. discriminate. Qed.

Lemma throws_only_modify (f : State -> State) : throws_only P (modify f).
Proof. intros s e s' Heq. discriminate. Qed.

Lemma throws_only_lift {A} (o : outcome A) :
  (forall e, o = Throw e -> P e) -> throws_only P (lift o).
Proof. intros HP s e s' Heq. apply HP. by inversion Heq. Qed.

Lemma throws_only_bind {A B} (m : M A) (k : A -> M B) :
  throws_only P m -> (forall a, throws_only P (k a)) -> throws_only P (bind m k).
Proof.
  intros Hm Hk s e s' Heq.
  apply bind_inv in Heq as [(a & s1 & _ & Hka)|[(e' & Hme & He)|(f & _ & Hf)]].
  - by eapply Hk.
  - inversion He; subst. by eapply Hm.
  - discriminate.
Qed.

End ThrowsOnly.

Section Preserves.
Context {I : State -> Prop}.

Lemma preserves_ret {A} (a : A) : preserves I (ret a).
Proof. intros s out s' Heq HI. by inversion Heq; subst. Qed.

Lemma preserves_throw {A} (e : exn) : preserves I (@throw A e).
Proof. intros s out s' Heq HI. by inversion Heq; subst. Qed.

Lemma preserves_undefined {A} : preserves I (@undefined A).
Proof. intros s out s' Heq HI. by inversion Heq; subst. Qed.

Lemma preserves_gets {A} (f : State -> A) : preserves I (gets f).
Proof. intros s out s' Heq HI. by inversion Heq; subst. Qed.

Lemma preserves_lift {A} (o : outcome A) : preserves I (lift o).
Proof. intros s out s' Heq HI. by inversion Heq; subst. Qed.

Lemma preserves_modify (f : State -> State) :
  (forall s, I s -> I (f s)) -> preserves I (modify f).
Proof. intros Hf s out s' Heq HI. inversion Heq; subst. by apply Hf. Qed.

Lemma preserves_bind {A B} (m : M A) (k : A -> M B) :
  preserves I m -> (forall a, preserves I (k a)) -> preserves I (bind m k).
Proof.
  intros Hm Hk s out s' Heq HI.
  apply bind_inv in Heq as [(a & s1 & Hma & Hka)|[(e' & Hme & He)|(f & Hmf & Hf)]].
  - eapply Hk; [exact Hka|]. by eapply Hm.
  - by eapply Hm.
  - by eapply Hm.
Qed.

End Preserves.

(** One step of a proof that a computation only throws exceptions in a
    given class or preserves a given invariant. *)
Ltac step_throws :=
  match goal with
  | |- throws_only _ (bind _ _) => apply throws_only_bind; [|intros ?]
  | |- throws_only _ (ret _) => apply throws_only_ret
  | |- throws_only _ undefined => apply throws_only_undefined
  | |- throws_only _ (gets _) => apply throws_only_gets
  | |- throws_only _ (modify _) => apply throws_only_modify
  | |- throws_only _ (modify_client _) => apply throws_only_modify
  | |- throws_only _ (emit _) => apply throws_only_modify
  | |- throws_only _ (emit_all _) => apply throws_only_modify
  | |- throws_only _ (log _ _) => apply throws_only_modify
  | |- throws_only _ (logf _) => apply throws_only_modify
  | |- throws_only _ (throw _) => apply throws_only_throw
  | |- throws_only _ (if ?b then _ else _) => destruct b eqn:?
  | |- throws_only _ (match ?x with _ => _ end) => destruct x eqn:?
  | |- throws_only _ (let '(_, _) := ?x in _) => destruct x eqn:?
  end.

Ltac step_preserves :=
  match goal with
  | |- preserves _ (bind _ _) => apply preserves_bind; [|intros ?]
  | |- preserves _ (ret _) => apply preserves_ret
  | |- preserves _ undefined => apply preserves_undefined
  | |- preserves _ (gets _) => apply preserves_gets
  | |- preserves _ (lift _) => apply preserves_lift
  | |- preserves _ (throw _) => apply preserves_throw
  | |- preserves _ (modify _) => apply preserves_modify; intros ? ?
  | |- preserves _ (modify_client _) => apply preserves_modify; intros ? ?
  | |- preserves _ (emit _) => apply preserves_modify; intros ? ?
  | |- preserves _ (emit_all _) => apply preserves_modify; intros ? ?
  | |- preserves _ (log _ _) => apply preserves_modify; intros ? ?
  | |- preserves _ (logf _) => apply preserves_modify; intros ? ?
  | |- preserves _ (if ?b then _ else _) => destruct b eqn:?
  | |- preserves _ (match ?x with _ => _ end) => destruct x eqn:?
  | |- preserves _ (let '(_, _) := ?x in _) => destruct x eqn:?
  end.

Ltac inv_ret :=
  match goal with
  | H : bind _ _ _ = (Ret _, _) |- _ =>
      let a := fresh "a" in let s := fresh "s" in
      let H1 := fresh "Hrun" in let H2 := fresh "Hrun" in
      apply bind_Ret_inv in H as (a & s & H1 & H2)
  | H : lift _ _ = (_, _) |- _ => apply lift_inv in H as [? ?]
  | H : gets _ _ = (_, _) |- _ => apply gets_inv in H as [? ?]
  | H : ret _ _ = (_, _) |- _ => apply ret_inv in H as [? ?]
  | H : modify _ _ = (_, _) |- _ => apply modify_inv in H as [? ?]
  | H : modify_client _ _ = (_, _) |- _ => apply modify_inv in H as [? ?]
  | H : log _ _ _ = (_, _) |- _ => apply modify_inv in H as [? ?]
  | H : logf _ _ = (_, _) |- _ => apply modify_inv in H as [? ?]
  | H : emit _ _ = (_, _) |- _ => apply modify_inv in H as [? ?]
  | H : throw _ _ = (Ret _, _) |- _ => discriminate H
  | H : undefined _ = (Ret _, _) |- _ => discriminate H
  | H : Ret _ = Ret _ |- _ => inversion H; clear H
  | H : Ret _ = Throw _ |- _ => discriminate H
  | H : (if ?b then _ else _) _ = (Ret _, _) |- _ => destruct b eqn:?
  | H : (match ?x with _ => _ end) _ = (Ret _, _) |- _ => destruct x eqn:?
  | H : (let '(_, _) := ?x in _) _ = (Ret _, _) |- _ => destruct x eqn:?
  end; subst.

Ltac not_nonce :=
  let n1 := fresh in let n2 := fresh in let Heq := fresh in
  intros (n1 & n2 & Heq); discriminate Heq.

(** Logging leaves the session and the maps of the server alone. *)
Lemma emit_all_frame es s :
  second_stages (fold_left (fun s e => add_event e s) es s) = second_stages s
  /\ client (fold_left (fun s e => add_event e s) es s) = client s
  /\ work_templates (fold_left (fun s e => add_event e s) es s) = work_templates s.
Proof.
  revert s. induction es as [|e es IH]; intros s; simpl; [done|].
  destruct (IH (add_event e s)) as (-> & -> & ->). done.
Qed.

(** ** The mining.submit handler *)

Section Submit.
Context `{Externals}.

Lemma UpdateSegwitCommitment_no_throw w cb bf e :
  UpdateSegwitCommitment w cb bf <> Throw e.
Proof.
  unfold UpdateSegwitCommitment.
  destruct (vtx (GetBlock w)); [done|].
  assert (Hec : forall fuel b, erase_commitments fuel b <> Throw e).
  { induction fuel as [|fuel IH]; intros b; simpl.
    - destruct (_ =? -1); done.
    - destruct (_ =? -1); [done|]. destruct (vtx b); [done|].
      destruct (_ && _); [apply IH|done]. }
  match goal with
  | |- obind ?o _ <> _ => specialize (Hec (length (vout cb))); destruct o eqn:E
  end; simpl; try done.
  - repeat case_match; done.
  - intros Heq. inversion Heq; subst. by eapply Hec.
Qed.

Lemma BoundParams_throws method params min max e :
  BoundParams method params min max = Throw e -> ~ is_nonce_length_error e.
Proof.
  unfold BoundParams. repeat case_match; intros Heq; inversion Heq; subst; not_nonce.
Qed.

Lemma get_str_throws v e : get_str v = Throw e -> ~ is_nonce_length_error e.
Proof. destruct v; simpl; intros Heq; inversion Heq; subst; not_nonce. Qed.

Lemma ParseHexV_throws v name e :
  ParseHexV v name = Throw e -> ~ is_nonce_length_error e.
Proof. unfold ParseHexV. case_match; intros Heq; inversion Heq; subst; not_nonce. Qed.

Lemma ParseHexInt4_throws v name e :
  ParseHexInt4 v name = Throw e -> ~ is_nonce_length_error e.
Proof.
  unfold ParseHexInt4. destruct (ParseHexV v name) eqn:E; simpl.
  - repeat case_match; intros Heq; inversion Heq; subst; not_nonce.
  - intros Heq; inversion Heq; subst. by eapply ParseHexV_throws.
  - done.
Qed.

Lemma ParseUInt256_throws v name e :
  ParseUInt256 v name = Throw e -> ~ is_nonce_length_error e.
Proof.
  unfold ParseUInt256. repeat case_match; intros Heq; inversion Heq; subst; not_nonce.
Qed.

Lemma SubmitAuxShares_throws env hash auxproof items :
  throws_only (fun e => ~ is_nonce_length_error e)
    (SubmitAuxShares env hash auxproof items).
Proof.
  induction items as [|[chainid auxwork] items IH]; simpl.
  - step_throws.
  - repeat (step_throws || exact IH).
Qed.

(** With the 8 bytes of [ExtraNonce1] and a 4-byte extranonce2 the check of
    the combined length in [SubmitBlock] cannot fail. *)
Lemma SubmitBlock_throws env job_id mmroot work extranonce2 t n v :
  length extranonce2 = 4%nat ->
  throws_only (fun e => ~ is_nonce_length_error e)
    (SubmitBlock env job_id mmroot work extranonce2 t n v).
Proof.
  intros Hlen. unfold SubmitBlock, SubmitAuxProofs.
  repeat (step_throws || apply SubmitAuxShares_throws
          || (apply throws_only_lift; intros ? Hthrow;
              by apply UpdateSegwitCommitment_no_throw in Hthrow));
    try not_nonce.
  all: try (rewrite ExtraNonce1_size, Hlen in *; discriminate).
Qed.

Lemma SubmitSecondStage_throws env chainid work extranonce2 t n v :
  throws_only (fun e => ~ is_nonce_length_error e)
    (SubmitSecondStage env chainid work extranonce2 t n v).
Proof. unfold SubmitSecondStage. repeat step_throws. Qed.

Ltac lift_throws :=
  apply throws_only_lift; intros ? ?;
  first [ by eapply BoundParams_throws | by eapply get_str_throws
        | by eapply ParseHexV_throws | by eapply ParseHexInt4_throws
        | by eapply ParseUInt256_throws ].

Lemma stratum_mining_submit_throws env params :
  throws_only (fun e => ~ is_nonce_length_error e) (stratum_mining_submit env params).
Proof.
  unfold stratum_mining_submit.
  repeat (step_throws || lift_throws || apply SubmitSecondStage_throws
          || (apply SubmitBlock_throws;
              match goal with
              | Hl : negb (_ =? 4)%nat = false |- _ =>
                  apply negb_false_iff, Nat.eqb_eq in Hl; exact Hl
              end));
    try not_nonce.
Qed.

(** The handler turns down an extranonce2 that is not 4 bytes long before
    it looks at the job: nothing is logged, nothing is submitted. *)
Lemma stratum_mining_submit_extranonce2_size env params s id extranonce2 :
  BoundParams "mining.submit" params 5 6 = Ret tt ->
  get_str (UniValue_index params 1) = Ret id ->
  ParseHexV (UniValue_index params 2) "extranonce2" = Ret extranonce2 ->
  length extranonce2 <> 4%nat ->
  exists message,
    stratum_mining_submit env params s
    = (Throw (JSONRPCError RPC_INVALID_PARAMETER message), s).
Proof.
  intros Hb Hid He2 Hlen. unfold stratum_mining_submit, bind, lift.
  rewrite Hb, Hid, He2.
  apply Nat.eqb_neq in Hlen. rewrite Hlen. simpl. eauto.
Qed.

(** C9: the "unexpected combined nonce length" error of [SubmitBlock] cannot
    come out of the mining.submit handler: [ExtraNonce1] is always 8 bytes
    long, the handler refuses any extranonce2 that is not exactly 4 bytes
    long before it reaches [SubmitBlock], and so no run of the handler ends
    in that error. *)
Theorem nonce_length_error_unreachable :
  (forall (c : StratumClient) (job_id : uint256),
      length (ExtraNonce1 c job_id) = 8%nat)
  /\ (forall env params s id extranonce2,
        BoundParams "mining.submit" params 5 6 = Ret tt ->
        get_str (UniValue_index params 1) = Ret id ->
        ParseHexV (UniValue_index params 2) "extranonce2" = Ret extranonce2 ->
        length extranonce2 <> 4%nat ->
        exists message,
          stratum_mining_submit env params s
          = (Throw (JSONRPCError RPC_INVALID_PARAMETER message), s))
  /\ (forall env params s out s',
        stratum_mining_submit env params s = (out, s') ->
        forall n1 n2 : nat, out <> Throw (runtime_error (UnexpectedNonceLength n1 n2))).
Proof.
  split; [exact ExtraNonce1_size|].
  split; [exact stratum_mining_submit_extranonce2_size|].
  intros env params s out s' Hrun n1 n2 ->.
  eapply stratum_mining_submit_throws; [exact Hrun|].
  by exists n1, n2.
Qed.

(** C3: when the mining.submit handler returns, it has returned [false]
    and set [send_work] if the job it was given is unknown (a second-stage
    identifier missing from [second_stages], or a primary job identifier
    missing from [work_templates]), and [true] for every known job. *)
Theorem stratum_mining_submit_result env params s v s' :
  stratum_mining_submit env params s = (Ret v, s') ->
  exists id, get_str (UniValue_index params 1) = Ret id /\
    if bool_decide (String.get 0 id = Some ":"%char) then
      match second_stages s !! string_from 1 id with
      | None => v = VBOOL false /\ m_send_work (client s') = true
      | Some _ => v = VBOOL true
      end
    else
      exists job_id,
        ParseUInt256 (VSTR (match find_char ":" 0 id with
                            | Some pos => substring 0 pos id
                            | None => id
                            end)) "job_id" = Ret job_id /\
        match work_templates s !! job_id with
        | None => v = VBOOL false /\ m_send_work (client s') = true
        | Some _ => v = VBOOL true
        end.
Proof.
  unfold stratum_mining_submit. intros Hrun.
  do 5 inv_ret.
  match goal with
  | Hid : Ret ?id = get_str _ |- _ => exists id; split; [done|]
  end.
  repeat inv_ret; try done.
  all: match goal with
       | Hp : Ret ?j = ParseUInt256 _ "job_id" |- _ => exists j; split; [done|]
       end.
  all: match goal with
       | Hl : work_templates _ !! _ = _ |- _ => rewrite Hl
       end; done.
Qed.

End Submit.

Section SubmitExamples.
#[local] Existing Instance Reference.externals.

(** A share for the job that was sent out is accepted: the handler returns
    [true]. *)
Lemma stratum_mining_submit_result_witness :
  let env := Scenario.node 1000000 0 1000000 in
  let s := Scenario.working_state in
  let s' := snd (stratum_mining_submit env Scenario.submit_known s) in
  stratum_mining_submit env Scenario.submit_known s = (Ret (VBOOL true), s')
  /\ exists id, get_str (UniValue_index Scenario.submit_known 1) = Ret id /\
       if bool_decide (String.get 0 id = Some ":"%char) then
         match second_stages s !! string_from 1 id with
         | None => VBOOL true = VBOOL false /\ m_send_work (client s') = true
         | Some _ => VBOOL true = VBOOL true
         end
       else
         exists job_id,
           ParseUInt256 (VSTR (match find_char ":" 0 id with
                               | Some pos => substring 0 pos id
                               | None => id
                               end)) "job_id" = Ret job_id /\
           match work_templates s !! job_id with
           | None => VBOOL true = VBOOL false /\ m_send_work (client s') = true
           | Some _ => VBOOL true = VBOOL true
           end.
Proof.
  intros env s s'.
  assert (Hfst : fst (stratum_mining_submit env Scenario.submit_known s)
                 = Ret (VBOOL true)) by (vm_compute; reflexivity).
  pose proof (run_surjective _ _ Hfst) as Hrun.
  split; [exact Hrun|].
  exact (stratum_mining_submit_result env Scenario.submit_known s (VBOOL true) s' Hrun).
Defined.

(** A share for a job that was never sent out: the handler returns [false]
    and asks for new work to be sent. *)
Example stratum_mining_submit_unknown_job :
  let env := Scenario.node 1000000 0 1000000 in
  let r := stratum_mining_submit env Scenario.submit_unknown Scenario.working_state in
  fst r = Ret (VBOOL false) /\ m_send_work (client (snd r)) = true.
Proof. vm_compute. done. Qed.

(** The run of the handler on a share with a 4-byte extranonce2 does not end
    in the nonce-length error. *)
Lemma nonce_length_error_unreachable_witness :
  let env := Scenario.node 1000000 0 1000000 in
  let s := Scenario.working_state in
  let r := stratum_mining_submit env Scenario.submit_known s in
  stratum_mining_submit env Scenario.submit_known s = (fst r, snd r)
  /\ fst r <> Throw (runtime_error (UnexpectedNonceLength 8 4)).
Proof.
  intros env s r.
  pose proof (run_surjective r (fst r) eq_refl) as Hrun.
  split; [exact Hrun|].
  exact (proj2 (proj2 nonce_length_error_unreachable) env Scenario.submit_known s
           (fst r) (snd r) Hrun 8%nat 4%nat).
Defined.

End SubmitExamples.

(** ** The mining.authorize handler *)

Section Authorize.
Context `{Externals}.

Lemma UniValue_index_past_end params :
  UniValue_size params = 1%nat -> UniValue_index params 1 = VNULL.
Proof.
  destruct params as [| | | |items|members]; simpl; try done.
  - destruct items as [|x [|y items]]; simpl; done.
  - destruct members as [|x [|y members]]; simpl; done.
Qed.

(** C8: a mining.authorize request with exactly one parameter passes the
    arity bound of the handler, which then reads the missing [params[1]] as
    the password: the handler throws before any state is modified (the
    session is not authorized), and the reply carries the internal-error
    code, not the invalid-parameter code of the arity check. *)
Theorem stratum_mining_authorize_one_parameter env params s :
  UniValue_size params = 1%nat ->
  BoundParams "mining.authorize" params 1 2 = Ret tt
  /\ stratum_mining_authorize params s = (Throw (runtime_error NotAString), s)
  /\ stratum_dispatch env "mining.authorize" params s
     = (Ret (ReplyError RPC_INTERNAL_ERROR (what_message NotAString)), s).
Proof.
  intros Hsize.
  assert (Hbound : BoundParams "mining.authorize" params 1 2 = Ret tt).
  { unfold BoundParams. by rewrite Hsize. }
  assert (Hrun : stratum_mining_authorize params s = (Throw (runtime_error NotAString), s)).
  { unfold stratum_mining_authorize, bind, lift. rewrite Hbound.
    rewrite (UniValue_index_past_end params Hsize).
    destruct (get_str (UniValue_index params 0)) as [username|e|f] eqn:E; simpl.
    - reflexivity.
    - destruct (UniValue_index params 0); simpl in E; congruence.
    - destruct (UniValue_index params 0); simpl in E; congruence. }
  split; [exact Hbound|]. split; [exact Hrun|].
  unfold stratum_dispatch, stratum_method_dispatch. simpl. rewrite Hrun. reflexivity.
Qed.

End Authorize.

Section AuthorizeExamples.
#[local] Existing Instance Reference.externals.

(** mining.authorize with the user name only, on a fresh session. *)
Lemma stratum_mining_authorize_one_parameter_witness :
  let s := State_init (StratumClient_new Scenario.secret) in
  UniValue_size Scenario.authorize_one_param = 1%nat
  /\ stratum_mining_authorize Scenario.authorize_one_param s
     = (Throw (runtime_error NotAString), s)
  /\ m_authorized (client s) = false.
Proof.
  intros s. split; [reflexivity|]. split; [|reflexivity].
  exact (proj1 (proj2 (stratum_mining_authorize_one_parameter
                         (Scenario.node 0 0 0) Scenario.authorize_one_param s eq_refl))).
Defined.

(** With both parameters the same session is authorized. *)
Example stratum_mining_authorize_two_parameters :
  let r := stratum_mining_authorize Scenario.authorize_params
             (State_init (StratumClient_new Scenario.secret)) in
  fst r = Ret (VBOOL true) /\ m_authorized (client (snd r)) = true.
Proof. vm_compute. done. Qed.

End AuthorizeExamples.

(** ** Second-stage work that went away *)

Section SecondStage.
Context `{Externals}.

Ltac frame :=
  match goal with
  | HI : no_second_stage ?s |- no_second_stage _ =>
      destruct HI as [? ?]; split; simpl;
      rewrite ?(proj1 (emit_all_frame _ _)), ?(proj1 (proj2 (emit_all_frame _ _)));
      simpl; done
  end.

Lemma RebuildTemplate_no_second_stage env :
  preserves no_second_stage (RebuildTemplate env).
Proof.
  unfold RebuildTemplate, emit_all.
  repeat (step_preserves; try frame).
Qed.

Lemma AssembleWork_no_second_stage env :
  preserves no_second_stage (AssembleWork env).
Proof.
  unfold AssembleWork, AddMergeMineCommitment, GetExtraNonceRequest, next_id.
  repeat (step_preserves; try frame).
Qed.

(** C10: whenever [GetWorkUnit] gets past its guards and
    [GetSecondStageWork] has no bundle, the whole [second_stages] map is
    empty afterwards and the session's [last_second_stage] is none, whether
    the call then returns or throws; a following mining.submit for any
    second-stage identifier ([":"] followed by anything) with well-formed
    parameters takes the unknown-job path: it returns [false] and sets
    [send_work]. *)
Theorem GetWorkUnit_clears_second_stages env s out s1 :
  GetWorkUnit env s = (out, s1) ->
  vNodes_empty env && negb (MineBlocksOnDemand env) = false ->
  IsInitialBlockDownload env = false ->
  m_authorized (client s) = true ->
  GetSecondStageWork env (fst <$> m_last_second_stage (client s)) = None ->
  second_stages s1 = ∅
  /\ m_last_second_stage (client s1) = None
  /\ forall env' params id extranonce2 t n,
       BoundParams "mining.submit" params 5 6 = Ret tt ->
       get_str (UniValue_index params 1) = Ret (String ":" id) ->
       ParseHexV (UniValue_index params 2) "extranonce2" = Ret extranonce2 ->
       length extranonce2 = 4%nat ->
       ParseHexInt4 (UniValue_index params 3) "nTime" = Ret t ->
       ParseHexInt4 (UniValue_index params 4) "nNonce" = Ret n ->
       exists s2,
         stratum_mining_submit env' params s1 = (Ret (VBOOL false), s2)
         /\ m_send_work (client s2) = true.
Proof.
  intros Hrun Hnodes Hibd Hauth Hss.
  assert (HI : no_second_stage s1).
  { unfold GetWorkUnit in Hrun.
    apply bind_inv in Hrun as [(c & s0 & Hc & Hrun)|[(e & Hc & _)|(f & Hc & _)]];
      [|discriminate|discriminate].
    apply gets_inv in Hc as [Hc ->]. inversion Hc; subst c.
    rewrite Hnodes, Hibd, Hauth, Hss in Hrun. simpl in Hrun.
    apply bind_inv in Hrun as [(? & s2 & Hm & Hrun)|[(e & Hm & _)|(f & Hm & _)]];
      [|discriminate|discriminate].
    apply modify_inv in Hm as [_ ->].
    apply bind_inv in Hrun as [(? & s3 & Hm & Hrun)|[(e & Hm & _)|(f & Hm & _)]];
      [|discriminate|discriminate].
    apply modify_inv in Hm as [_ ->].
    eapply (preserves_bind (I := no_second_stage)); [| |exact Hrun|].
    - apply RebuildTemplate_no_second_stage.
    - intros ?. apply AssembleWork_no_second_stage.
    - split; reflexivity. }
  destruct HI as [Hempty Hlast]. split; [exact Hempty|]. split; [exact Hlast|].
  intros env' params id extranonce2 t n Hb Hid He2 Hlen Ht Hn.
  unfold stratum_mining_submit, bind, lift.
  rewrite Hb, Hid, He2, Hlen, Ht, Hn. simpl.
  rewrite Hempty, lookup_empty. simpl. eauto.
Qed.

End SecondStage.

Section SecondStageExamples.
#[local] Existing Instance Reference.externals.

(** While the second-stage job "abcd" is on offer a share for it is
    accepted. *)
Example second_stage_share_accepted :
  let env := Scenario.node_second_stage 1000000 0 1000000 in
  second_stages Scenario.second_stage_state !! "abcd"%string
  = Some (Scenario.chain_a, Scenario.second_stage_work)
  /\ fst (stratum_mining_submit env Scenario.submit_second_stage
            Scenario.second_stage_state) = Ret (VBOOL true).
Proof. split; vm_compute; reflexivity. Qed.

(** Once the offer is gone, the next work unit forgets the job and the same
    share is turned down as unknown. *)
Lemma GetWorkUnit_clears_second_stages_witness :
  let env := Scenario.node 1000006 0 1000006 in
  let s := Scenario.second_stage_state in
  let s1 := snd (GetWorkUnit env s) in
  (GetWorkUnit env s = (fst (GetWorkUnit env s), s1)
   /\ vNodes_empty env && negb (MineBlocksOnDemand env) = false
   /\ IsInitialBlockDownload env = false
   /\ m_authorized (client s) = true
   /\ GetSecondStageWork env (fst <$> m_last_second_stage (client s)) = None)
  /\ second_stages s1 = ∅
  /\ exists s2,
       stratum_mining_submit env Scenario.submit_second_stage s1
       = (Ret (VBOOL false), s2)
       /\ m_send_work (client s2) = true.
Proof.
  intros env s s1.
  pose proof (run_surjective (GetWorkUnit env s) _ eq_refl) as Hrun.
  assert (Hauth : m_authorized (client s) = true) by (vm_compute; reflexivity).
  assert (Hss : GetSecondStageWork env (fst <$> m_last_second_stage (client s)) = None)
    by (vm_compute; reflexivity).
  split; [exact (conj Hrun (conj eq_refl (conj eq_refl (conj Hauth Hss))))|].
  destruct (GetWorkUnit_clears_second_stages env s _ s1 Hrun eq_refl eq_refl Hauth Hss)
    as (Hempty & _ & Hsubmit).
  split; [exact Hempty|].
  assert (Hb : BoundParams "mining.submit" Scenario.submit_second_stage 5 6 = Ret tt)
    by (vm_compute; reflexivity).
  assert (Hid : get_str (UniValue_index Scenario.submit_second_stage 1)
                = Ret (String ":" "abcd")) by (vm_compute; reflexivity).
  assert (He2 : ParseHexV (UniValue_index Scenario.submit_second_stage 2) "extranonce2"
                = Ret [x00; x00; x00; x01]) by (vm_compute; reflexivity).
  assert (Ht : ParseHexInt4 (UniValue_index Scenario.submit_second_stage 3) "nTime"
               = Ret 1000000) by (vm_compute; reflexivity).
  assert (Hn : ParseHexInt4 (UniValue_index Scenario.submit_second_stage 4) "nNonce"
               = Ret 0) by (vm_compute; reflexivity).
  exact (Hsubmit env Scenario.submit_second_stage "abcd"%string
           [x00; x00; x00; x01] 1000000 0 Hb Hid He2 eq_refl Ht Hn).
Defined.

End SecondStageExamples.

(** ** The split of the coinbase around the extranonce *)

Lemma le_bytes_length len v : length (le_bytes len v) = len.
Proof. revert v. induction len as [|len IH]; intros v; simpl; [done|]. by rewrite IH. Qed.

Lemma Z_of_byte_of_Z z : 0 <= z < 256 -> Z_of_byte (byte_of_Z z) = z.
Proof.
  intros Hz. unfold Z_of_byte, byte_of_Z.
  rewrite Z.mod_small by lia.
  destruct (Byte.of_N (Z.to_N z)) as [b|] eqn:E; simpl.
  - apply Byte.to_of_N in E. rewrite E. lia.
  - apply Byte.of_N_None_iff in E. lia.
Qed.

Lemma abs_bytes_length fuel v : (length (abs_bytes fuel v) <= fuel)%nat.
Proof.
  revert v. induction fuel as [|fuel IH]; intros v; simpl; [done|].
  destruct (v =? 0); simpl; [lia|]. specialize (IH (v / 256)). lia.
Qed.

Lemma CScriptNum_serialize_length v : (length (CScriptNum_serialize v) <= 9)%nat.
Proof.
  unfold CScriptNum_serialize.
  pose proof (abs_bytes_length 8 (Z.abs v)) as Hlen.
  destruct (last _) as [top|] eqn:E; simpl; [|lia].
  assert (Hrl : forall l : bytes, (length (removelast l) <= length l)%nat).
  { intros l. induction l as [|x [|y l] IH]; simpl in *; lia. }
  specialize (Hrl (abs_bytes 8 (Z.abs v))).
  repeat case_match; rewrite ?length_app; simpl; lia.
Qed.

Lemma push_int64_length h : (1 <= length (push_int64 h) <= 10)%nat.
Proof.
  unfold push_int64. repeat case_match; simpl; try lia.
  unfold push_data. pose proof (CScriptNum_serialize_length h).
  repeat case_match; simpl; lia.
Qed.

Lemma split_around (a m r : bytes) (pos : nat) :
  (length a + length m)%nat = pos ->
  take (pos - length m) (a ++ m ++ r) = a /\ drop pos (a ++ m ++ r) = r.
Proof.
  intros <-. split.
  - replace (length a + length m - length m)%nat with (length a) by lia.
    by rewrite take_app_length.
  - rewrite app_assoc. rewrite <- length_app. by rewrite drop_app_length.
Qed.


Lemma SerializeTransaction_first_input ver txin rest outs lock :
  (length rest < 252)%nat ->
  (length (scriptSig txin) < 253)%nat ->
  SerializeTransaction false
    {| tx_nVersion := ver; vin := txin :: rest; vout := outs; nLockTime := lock |}
  = (le_bytes 4 ver ++ [byte_of_Z (Z.of_nat (S (length rest)))]
       ++ prevout_hash (prevout txin) ++ le_bytes 4 (prevout_n (prevout txin))
       ++ [byte_of_Z (Z.of_nat (length (scriptSig txin)))])
    ++ scriptSig txin
    ++ (le_bytes 4 (nSequence txin) ++ concat (map ser_txin rest)
          ++ ser_vector ser_txout outs ++ le_bytes 4 lock).
Proof.
  intros Hrest Hsig.
  unfold SerializeTransaction.
  cbn [andb tx_nVersion vin vout nLockTime].
  unfold ser_vector at 1. cbn [map concat].
  unfold ser_txin at 1, ser_script, WriteCompactSize.
  replace (Z.of_nat (length (txin :: rest)) <? 253) with true
    by (symmetry; apply Z.ltb_lt; simpl length; lia).
  replace (Z.of_nat (length (scriptSig txin)) <? 253) with true
    by (symmetry; apply Z.ltb_lt; lia).
  cbn [length].
  generalize (le_bytes 4 ver) (le_bytes 4 (prevout_n (prevout txin)))
             (le_bytes 4 (nSequence txin)) (le_bytes 4 lock).
  intros b1 b2 b3 b4.
  rewrite <- !app_assoc. cbn [app]. reflexivity.
Qed.

Section Coinbase.
Context `{Externals}.

(** The split of the customized coinbase is lossless around the 12 bytes of
    the nonce: what precedes them, the extranonce1, four zero bytes and what
    follows them make up the serialization again. *)
Lemma CustomizeCoinbase_split c work job_id cb0 txin rest :
  vin cb0 = txin :: rest ->
  (length rest < 252)%nat ->
  length (prevout_hash (prevout txin)) = 32%nat ->
  vout cb0 <> [] ->
  exists cb cb1 cb2,
    CustomizeCoinbase c work job_id cb0 = Ret cb
    /\ SplitCoinbase (SerializeTransaction false cb) = Ret (cb1, cb2)
    /\ cb1 ++ ExtraNonce1 c job_id ++ [x00; x00; x00; x00] ++ cb2
       = SerializeTransaction false cb
    /\ Hash (cb1 ++ ExtraNonce1 c job_id ++ [x00; x00; x00; x00] ++ cb2) = GetHash cb.
Proof.
  intros Hvin Hcount Hhash Hvout.
  pose proof (ExtraNonce1_size c job_id) as Hen1.
  pose proof (push_int64_length (m_height work)) as Hpush.
  set (nonce := ExtraNonce1 c job_id ++ repeat x00 4).
  assert (Hnonce : length nonce = 12%nat).
  { unfold nonce. rewrite length_app, Hen1. reflexivity. }
  assert (Hpd : push_data nonce = x0c :: nonce).
  { unfold push_data. rewrite Hnonce. reflexivity. }
  set (sig := push_int64 (m_height work) ++ push_data nonce).
  assert (Hsig : length sig = (length (push_int64 (m_height work)) + 13)%nat).
  { unfold sig. rewrite length_app, Hpd. cbn [length]. rewrite Hnonce. lia. }
  (* the customized coinbase *)
  assert (Hcb : exists vout',
            CustomizeCoinbase c work job_id cb0
            = Ret {| tx_nVersion := tx_nVersion cb0;
                     vin := set_scriptSig sig txin :: rest;
                     vout := vout'; nLockTime := nLockTime cb0 |}).
  { unfold CustomizeCoinbase. rewrite Hvin. fold nonce. fold sig.
    cbn [set_front set_vin vout].
    destruct (vout cb0) as [|txout outs] eqn:Ev; [done|].
    case_bool_decide; eexists; reflexivity. }
  destruct Hcb as (vout' & Hcb).
  eexists _, _, _. split; [exact Hcb|].
  rewrite SerializeTransaction_first_input by (cbn [scriptSig set_scriptSig]; lia).
  cbn [prevout scriptSig nSequence set_scriptSig].
  match goal with
  | |- SplitCoinbase (?a0 ++ sig ++ ?r0) = _ /\ _ =>
      set (r := r0);
      set (a := a0 ++ push_int64 (m_height work) ++ [x0c]);
      assert (Hds : a0 ++ sig ++ r = a ++ nonce ++ r)
        by (unfold a, sig; rewrite Hpd, <- !app_assoc; reflexivity);
      assert (Ha : length a = (43 + length (push_int64 (m_height work)))%nat)
        by (unfold a; rewrite !length_app, !le_bytes_length, Hhash; cbn [length]; lia);
      assert (H41 : (a ++ nonce ++ r) !! 41%nat = Some (byte_of_Z (Z.of_nat (length sig))))
        by (rewrite lookup_app_l by lia; unfold a;
            rewrite lookup_app_l by (rewrite !length_app, !le_bytes_length, Hhash; cbn [length]; lia);
            rewrite !app_assoc;
            rewrite lookup_app_r
              by (rewrite !length_app, !le_bytes_length, Hhash; cbn [length]; lia);
            rewrite !length_app, !le_bytes_length, Hhash; reflexivity)
  end.
  rewrite Hds.
  destruct (split_around a nonce r (length a + 12)) as [Htake Hdrop]; [lia|].
  assert (Hsplit : SplitCoinbase (a ++ nonce ++ r) = Ret (a, r)).
  { unfold SplitCoinbase.
    replace (length (a ++ nonce ++ r) <? 4 + 1 + 32 + 4 + 1)%nat with false
      by (symmetry; apply Nat.ltb_ge; rewrite !length_app; lia).
    replace (4 + 1 + 32 + 4)%nat with 41%nat by reflexivity.
    rewrite H41. cbn [default from_option]. unfold id.
    unfold signed_char. rewrite Z_of_byte_of_Z by lia.
    replace (Z.of_nat (length sig) <? 128) with true by (symmetry; apply Z.ltb_lt; lia).
    unfold to_uint64, uint64_max. rewrite Z.mod_small by lia.
    replace (Z.of_nat (length (a ++ nonce ++ r)) <? 4 + 1 + 32 + 4 + 1 + Z.of_nat (length sig))
      with false by (symmetry; apply Z.ltb_ge; rewrite !length_app; lia).
    replace (4 + 1 + 32 + 4 + 1 + Z.of_nat (length sig) <? 4 + 8) with false
      by (symmetry; apply Z.ltb_ge; lia).
    replace (Z.to_nat (4 + 1 + 32 + 4 + 1 + Z.of_nat (length sig) - 4 - 8))
      with (length a + 12 - length nonce)%nat by lia.
    replace (Z.to_nat (4 + 1 + 32 + 4 + 1 + Z.of_nat (length sig)))
      with (length a + 12)%nat by lia.
    by rewrite Htake, Hdrop. }
  split; [exact Hsplit|].
  assert (Heq : a ++ ExtraNonce1 c job_id ++ [x00; x00; x00; x00] ++ r = a ++ nonce ++ r).
  { unfold nonce. by rewrite <- app_assoc. }
  split; [exact Heq|].
  unfold GetHash.
  rewrite SerializeTransaction_first_input by (cbn [scriptSig set_scriptSig]; lia).
  cbn [prevout scriptSig nSequence set_scriptSig].
  fold r. rewrite Hds. f_equal. exact Heq.
Qed.

Lemma CustomizeCoinbase_same_identity c c' work job cb0 :
  same_identity c c' ->
  CustomizeCoinbase c work job cb0 = CustomizeCoinbase c' work job cb0.
Proof.
  intros (Hs & He & Ha). unfold CustomizeCoinbase, ExtraNonce1. by rewrite Hs, He, Ha.
Qed.

Lemma ExtraNonce1_same_identity c c' job :
  same_identity c c' -> ExtraNonce1 c job = ExtraNonce1 c' job.
Proof. intros (Hs & He & Ha). unfold ExtraNonce1. by rewrite Hs, He. Qed.

Lemma RebuildTemplate_same_identity env c0 :
  preserves (fun s => same_identity (client s) c0) (RebuildTemplate env).
Proof.
  unfold RebuildTemplate, emit_all.
  repeat (step_preserves;
          try (cbn; rewrite ?(proj1 (proj2 (emit_all_frame _ _))); done)).
Qed.

Lemma RebuildTemplate_mmauth env a :
  preserves (fun s => m_mmauth (client s) = a) (RebuildTemplate env).
Proof.
  unfold RebuildTemplate, emit_all.
  repeat (step_preserves;
          try (cbn; rewrite ?(proj1 (proj2 (emit_all_frame _ _))); done)).
Qed.

(** What [AddMergeMineCommitment] returns depends on the session through
    the chains it is authorized for only. *)
Lemma AddMergeMineCommitment_result env work bf s1 s2 :
  m_mmauth (client s1) = m_mmauth (client s2) ->
  fst (AddMergeMineCommitment env work bf s1) = fst (AddMergeMineCommitment env work bf s2).
Proof.
  intros Hauth. unfold AddMergeMineCommitment.
  rewrite !bind_gets, Hauth.
  unfold bind, lift, modify_client, modify, ret, log, emit, modify.
  destruct (has_block_final_tx _).
  - destruct (_ =? _)%nat; [reflexivity|].
    destruct (AuxWorkMerkleRoot _) as [mmroot|e|f]; [|reflexivity..].
    destruct (UpdateBlockFinalTransaction bf mmroot) as [[|] bf'];
      repeat case_bool_decide; reflexivity.
  - destruct (negb _); reflexivity.
Qed.

Lemma AssembleWork_coinbase env s msgs s' :
  AssembleWork env s = (Ret msgs, s') ->
  exists tx0 bf0 sa bf has_merge_mining mmroot sb cb0 c cb cb1 cb2
         req id_diff diff id params,
    head (vtx (GetBlock (default StratumWork_default (work_templates s !! job_id s))))
    = Some tx0
    /\ last (vtx (GetBlock (default StratumWork_default (work_templates s !! job_id s))))
       = Some bf0
    /\ m_mmauth (client sa) = m_mmauth (client s)
    /\ AddMergeMineCommitment env
         (default StratumWork_default (work_templates s !! job_id s)) bf0 sa
       = (Ret (bf, has_merge_mining, mmroot), sb)
    /\ (if m_is_witness_enabled (default StratumWork_default (work_templates s !! job_id s))
        then exists bf' cb_branch,
               UpdateSegwitCommitment
                 (default StratumWork_default (work_templates s !! job_id s)) tx0 bf
               = Ret (cb0, bf', cb_branch)
        else cb0 = tx0)
    /\ same_identity c (client s)
    /\ job_id s' = job_id s
    /\ work_templates s' !! job_id s
       = Some (default StratumWork_default (work_templates s !! job_id s))
    /\ CustomizeCoinbase c (default StratumWork_default (work_templates s !! job_id s))
         (job_id s) cb0 = Ret cb
    /\ SplitCoinbase (SerializeTransaction false cb) = Ret (cb1, cb2)
    /\ msgs = req ++ [set_difficulty id_diff diff; mining_notify id params]
    /\ np_cb1 params = HexStr cb1 /\ np_cb2 params = HexStr cb2.
Proof.
  unfold AssembleWork. intros Hrun.
  unfold GetExtraNonceRequest, next_id in Hrun.
  repeat inv_ret.
  all: match goal with
       | Hadd : AddMergeMineCommitment _ _ _ _ = _ |- _ =>
           pose proof Hadd as Hadd'; unfold AddMergeMineCommitment in Hadd'
       end.
  all: repeat inv_ret.
  all: match goal with
       | Hh : head _ = Some ?tx0, Hl : last _ = Some ?bf0,
         Hadd : AddMergeMineCommitment _ _ ?bf0 ?sa = (Ret (?bf, ?hmm, ?mmroot), ?sb),
         H2 : Ret ?cb = CustomizeCoinbase ?c _ _ ?cb0,
         H1 : Ret (?cb1, ?cb2) = SplitCoinbase _ |- _ =>
           exists tx0, bf0, sa, bf, hmm, mmroot, sb, cb0, c, cb, cb1, cb2
       end.
  all: eexists _, _, _, _, _.
  all: unfold same_identity;
       cbn [client job_id work_templates set_client set_work_templates add_event
            m_secret m_supports_extranonce m_addr set_m_nextid set_m_mmwork
            set_m_last_tip np_cb1 np_cb2 m_mmauth].
  all: rewrite lookup_insert_eq.
  all: split_and!;
       first [reflexivity | eassumption | symmetry; eassumption
             | eexists _, _; symmetry; eassumption].
Qed.

(** C1: for every [mining.notify] that [GetWorkUnit] assembles on the
    primary path, [cb1] and [cb2] are the hex strings of the two parts of
    the serialization, without witness, of the customized coinbase: the
    first transaction of the template of the job, after the segwit
    commitment has been renewed over the block-final transaction with its
    merge-mining commitment when the template is witness-enabled, and with
    the nonce and the payout script put in.  When the coinbase that goes
    into the customization has between 1 and 252 inputs (a coinbase has
    one) and a 32-byte previous-output hash, cb1 ∥ extranonce1 ∥ 00000000 ∥
    cb2, with the 8-byte extranonce1 of the job, is that serialization, and
    its double SHA-256 is the hash of the customized coinbase. *)
Theorem GetWorkUnit_coinbase_split env s msgs s' :
  GetWorkUnit env s = (Ret msgs, s') ->
  GetSecondStageWork env (fst <$> m_last_second_stage (client s)) = None ->
  exists work tx0 bf0 bf has_merge_mining mmroot cb0 cb cb1 cb2
         req id_diff diff id params,
    (* the template of the job, its coinbase and its block-final transaction *)
    work_templates s' !! job_id s' = Some work
    /\ head (vtx (GetBlock work)) = Some tx0
    /\ last (vtx (GetBlock work)) = Some bf0
    (* the coinbase as it is when the nonce is put in *)
    /\ fst (AddMergeMineCommitment env work bf0 s) = Ret (bf, has_merge_mining, mmroot)
    /\ (if m_is_witness_enabled work
        then exists bf' cb_branch,
               UpdateSegwitCommitment work tx0 bf = Ret (cb0, bf', cb_branch)
        else cb0 = tx0)
    (* the customized coinbase and what the miner is sent of it *)
    /\ CustomizeCoinbase (client s) work (job_id s') cb0 = Ret cb
    /\ SplitCoinbase (SerializeTransaction false cb) = Ret (cb1, cb2)
    /\ msgs = req ++ [set_difficulty id_diff diff; mining_notify id params]
    /\ np_cb1 params = HexStr cb1 /\ np_cb2 params = HexStr cb2
    /\ (coinbase_layout cb0 ->
        cb1 ++ ExtraNonce1 (client s) (job_id s') ++ [x00; x00; x00; x00] ++ cb2
        = SerializeTransaction false cb
        /\ Hash (cb1 ++ ExtraNonce1 (client s) (job_id s') ++ [x00; x00; x00; x00] ++ cb2)
           = GetHash cb).
Proof.
  intros Hrun Hss. unfold GetWorkUnit in Hrun.
  repeat inv_ret; try congruence.
  match goal with
  | Hr : RebuildTemplate env ?s2 = (Ret _, ?s3), Ha : AssembleWork env ?s3 = _ |- _ =>
      assert (Hid : same_identity (client s3) (client s))
        by (eapply (RebuildTemplate_same_identity env (client s)); [exact Hr|];
            repeat split);
      assert (Hauth : m_mmauth (client s3) = m_mmauth (client s))
        by (eapply (RebuildTemplate_mmauth env (m_mmauth (client s))); [exact Hr|];
            reflexivity);
      apply AssembleWork_coinbase in Ha
        as (tx0 & bf0 & sa & bf & has_merge_mining & mmroot & sb & cb0 & c & cb & cb1
            & cb2 & req & id_diff & diff & id & params
            & Htx0 & Hbf0 & Hsa & Hadd & Hseg & Hc & Hjob & Hwork & Hcb & Hsplit
            & Hmsgs & Hcb1 & Hcb2)
  end.
  assert (Hcs : same_identity c (client s)).
  { destruct Hc as (? & ? & ?), Hid as (? & ? & ?). repeat split; congruence. }
  rewrite (CustomizeCoinbase_same_identity _ _ _ _ _ Hcs) in Hcb.
  match type of Htx0 with
  | head (vtx (GetBlock ?w)) = _ => set (work := w) in *
  end.
  rewrite <- Hjob in Hwork, Hcb.
  exists work, tx0, bf0, bf, has_merge_mining, mmroot, cb0, cb, cb1, cb2.
  exists req, id_diff, diff, id, params.
  split; [exact Hwork|]. split; [exact Htx0|]. split; [exact Hbf0|].
  split.
  { rewrite (AddMergeMineCommitment_result env work bf0 s sa) by congruence.
    by rewrite Hadd. }
  split; [exact Hseg|]. split; [exact Hcb|]. split; [exact Hsplit|].
  split; [exact Hmsgs|]. split; [exact Hcb1|]. split; [exact Hcb2|].
  unfold coinbase_layout. intros Hlayout.
  destruct (vin cb0) as [|txin rest] eqn:Hvin; [done|].
  destruct Hlayout as [Hrest Hhash].
  assert (Hvout : vout cb0 <> []).
  { intros Hnil. unfold CustomizeCoinbase in Hcb. rewrite Hvin in Hcb.
    cbn [set_front set_vin vout] in Hcb. rewrite Hnil in Hcb. discriminate. }
  destruct (CustomizeCoinbase_split (client s) work (job_id s') cb0 txin rest
              Hvin Hrest Hhash Hvout)
    as (cb' & cb1' & cb2' & Hcb' & Hsplit' & Hbytes' & Hhash').
  rewrite Hcb in Hcb'. inversion Hcb'; subst cb'.
  rewrite Hsplit in Hsplit'. inversion Hsplit'; subst cb1' cb2'.
  split; [exact Hbytes'|exact Hhash'].
Qed.
End Coinbase.

Lemma Some_default {A} (d : A) (o : option A) (x : A) : o = Some x -> x = default d o.
Proof. by intros ->. Qed.

Lemma Ret_default {A} (d : A) (o : outcome A) (x : A) :
  o = Ret x -> x = match o with Ret y => y | _ => d end.
Proof. by intros ->. Qed.

Section CoinbaseExamples.
#[local] Existing Instance Reference.externals.

(** The first work unit of the authorized session, a witness-enabled
    template with a merge-mining commitment. *)
Lemma GetWorkUnit_coinbase_split_witness :
  let env := Scenario.node 1000000 0 1000000 in
  let s := Scenario.authorized_state in
  let msgs := match fst (GetWorkUnit env s) with Ret msgs => msgs | _ => [] end in
  let s' := snd (GetWorkUnit env s) in
  (GetWorkUnit env s = (Ret msgs, s')
   /\ GetSecondStageWork env (fst <$> m_last_second_stage (client s)) = None)
  /\ exists work tx0 bf0 bf has_merge_mining mmroot cb0 cb cb1 cb2
            req id_diff diff id params,
       work_templates s' !! job_id s' = Some work
       /\ head (vtx (GetBlock work)) = Some tx0
       /\ last (vtx (GetBlock work)) = Some bf0
       /\ fst (AddMergeMineCommitment env work bf0 s) = Ret (bf, has_merge_mining, mmroot)
       /\ (exists bf' cb_branch,
              UpdateSegwitCommitment work tx0 bf = Ret (cb0, bf', cb_branch))
       /\ CustomizeCoinbase (client s) work (job_id s') cb0 = Ret cb
       /\ SplitCoinbase (SerializeTransaction false cb) = Ret (cb1, cb2)
       /\ msgs = req ++ [set_difficulty id_diff diff; mining_notify id params]
       /\ np_cb1 params = HexStr cb1 /\ np_cb2 params = HexStr cb2
       /\ coinbase_layout cb0
       /\ cb1 ++ ExtraNonce1 (client s) (job_id s') ++ [x00; x00; x00; x00] ++ cb2
          = SerializeTransaction false cb
       /\ Hash (cb1 ++ ExtraNonce1 (client s) (job_id s') ++ [x00; x00; x00; x00] ++ cb2)
          = GetHash cb.
Proof.
  intros env s msgs s'.
  assert (Hfst : fst (GetWorkUnit env s) = Ret msgs) by (vm_compute; reflexivity).
  pose proof (run_surjective _ _ Hfst) as Hrun.
  assert (Hss : GetSecondStageWork env (fst <$> m_last_second_stage (client s)) = None)
    by (vm_compute; reflexivity).
  split; [exact (conj Hrun Hss)|].
  destruct (GetWorkUnit_coinbase_split env s msgs s' Hrun Hss)
    as (work & tx0 & bf0 & bf & has_merge_mining & mmroot & cb0 & cb & cb1 & cb2
        & req & id_diff & diff & id & params
        & Hwork & Htx0 & Hbf0 & Hadd & Hseg & Hcb & Hsplit & Hmsgs & Hcb1 & Hcb2 & Himp).
  set (tx := {| tx_nVersion := 0; vin := []; vout := []; nLockTime := 0 |}).
  pose proof (Some_default StratumWork_default _ _ Hwork) as Ework.
  pose proof (Some_default tx _ _ Htx0) as Etx0.
  pose proof (Some_default tx _ _ Hbf0) as Ebf0.
  pose proof (Ret_default (tx, false, []) _ _ Hadd) as Eadd.
  assert (Hwitness : m_is_witness_enabled work = true)
    by (rewrite Ework; vm_compute; reflexivity).
  rewrite Hwitness in Hseg.
  destruct Hseg as (bf' & cb_branch & Hseg).
  pose proof (Ret_default (tx, tx, []) _ _ Hseg) as Eseg.
  assert (Hlayout : coinbase_layout cb0).
  { replace cb0 with (fst (fst (cb0, bf', cb_branch))) by reflexivity.
    rewrite Eseg.
    replace bf with (fst (fst (bf, has_merge_mining, mmroot))) by reflexivity.
    rewrite Eadd, Ebf0, Etx0, Ework.
    vm_compute. split; [lia|reflexivity]. }
  destruct (Himp Hlayout) as [Hbytes Hhash].
  exists work, tx0, bf0, bf, has_merge_mining, mmroot, cb0, cb, cb1, cb2.
  exists req, id_diff, diff, id, params.
  split; [exact Hwork|]. split; [exact Htx0|]. split; [exact Hbf0|].
  split; [exact Hadd|]. split; [exists bf', cb_branch; exact Hseg|].
  split; [exact Hcb|]. split; [exact Hsplit|]. split; [exact Hmsgs|].
  split; [exact Hcb1|]. split; [exact Hcb2|]. split; [exact Hlayout|].
  split; [exact Hbytes|exact Hhash].
Defined.

End CoinbaseExamples.

(** ** Auxiliary shares *)

Section Aux.
Context `{Externals}.

Lemma SubmitAuxShares_trace env hash auxproof items s :
  exists s',
    SubmitAuxShares env hash auxproof items s = (Ret tt, s')
    /\ client s' = client s
    /\ aux_calls (trace s')
       = aux_calls (trace s) ++ authorized_aux_calls (m_mmauth (client s)) auxproof items.
Proof.
  revert s. induction items as [|[chainid auxwork] items IH]; intros s.
  - exists s. simpl. rewrite app_nil_r. done.
  - cbn [SubmitAuxShares authorized_aux_calls omap list_omap fst snd].
    rewrite bind_gets.
    destruct (m_mmauth (client s) !! chainid) as [[username password]|] eqn:Hauth;
      cbv beta iota; unfold log, logf, emit; rewrite bind_modify;
      [destruct (CheckProofOfWork env hash (bits auxwork) (bias auxwork));
       rewrite bind_modify|];
      (match goal with |- context [SubmitAuxShares _ _ _ _ ?s1] =>
         destruct (IH s1) as (s' & Hrun & Hc & Htr) end;
       exists s'; rewrite Hrun; split; [done|]; split; [by rewrite Hc|];
       rewrite Htr; cbn [client trace add_event]; rewrite !aux_calls_app;
       cbn; rewrite <- ?app_assoc, ?app_nil_r; reflexivity).
Qed.

Lemma SubmitAuxProofs_trace env work mmroot cb bf blkhdr hash s out s' ts bundle :
  SubmitAuxProofs env work mmroot cb bf blkhdr hash s = (out, s') ->
  m_is_witness_enabled work = true ->
  has_block_final_tx (m_block_template work) = true ->
  m_mmwork (client s) !! mmroot = Some (ts, bundle) ->
  (out = Throw (runtime_error LengthError) /\ s' = s)
  \/ (out = Ret tt /\ client s' = client s /\
      exists auxproof,
        aux_calls (trace s')
        = aux_calls (trace s)
          ++ authorized_aux_calls (m_mmauth (client s)) auxproof (std_map_items bundle)).
Proof.
  intros Hrun Hw Hbf Hmm. unfold SubmitAuxProofs in Hrun.
  rewrite bind_gets in Hrun.
  rewrite Hmm, Hw, Hbf in Hrun. cbn [andb] in Hrun.
  destruct (length (SerializeTransaction true bf) <? 40)%nat.
  - left. by inversion Hrun.
  - right. destruct (Midstate _) as [[hash' buffer] tmp].
    match type of Hrun with SubmitAuxShares ?e ?h ?ap ?items ?s0 = _ =>
      destruct (SubmitAuxShares_trace e h ap items s0) as (s1 & Hrun1 & Hc & Htr) end.
    rewrite Hrun1 in Hrun. inversion Hrun; subst. eauto.
Qed.


Lemma SubmitBlock_aux_calls env job mmroot work extranonce2 t n v s res s' ts bundle :
  SubmitBlock env job mmroot work extranonce2 t n v s = (Ret res, s') ->
  m_is_witness_enabled work = true ->
  has_block_final_tx (m_block_template work) = true ->
  m_mmwork (client s) !! mmroot = Some (ts, bundle) ->
  exists auxproof,
    aux_calls (trace s')
    = aux_calls (trace s)
      ++ authorized_aux_calls (m_mmauth (client s)) auxproof (std_map_items bundle).
Proof.
  intros Hrun Hw Hbf Hmm. unfold SubmitBlock in Hrun.
  rewrite Hw, Hbf in Hrun.
  repeat inv_ret.
  all: match goal with
       | Haux : SubmitAuxProofs _ _ _ _ _ _ _ ?s0 = (Ret _, ?s1) |- _ =>
           eapply SubmitAuxProofs_trace in Haux
             as [[? _]|(_ & Hc & auxproof & Htr)];
             [discriminate| |exact Hw|exact Hbf|cbn [client set_client add_event]; exact Hmm];
           exists auxproof
       end.
  all: cbn [trace client set_client add_event] in *.
  all: rewrite Htr, ?aux_calls_app; cbn [aux_calls List.filter is_aux_call];
       rewrite ?app_nil_r; reflexivity.
Qed.


Lemma same_but_logs_refl s : same_but_logs s s.
Proof. by repeat split. Qed.

Lemma same_but_logs_event e s1 s2 :
  same_but_logs s1 s2 -> same_but_logs (add_event e s1) (add_event e s2).
Proof.
  intros (? & ? & ? & ? & ? & ? & ? & Htr). repeat split; cbn; try done.
  rewrite !without_logs_app. by rewrite Htr.
Qed.

Lemma same_but_logs_logs e1 e2 s1 s2 :
  is_log e1 = true -> is_log e2 = true ->
  same_but_logs s1 s2 -> same_but_logs (add_event e1 s1) (add_event e2 s2).
Proof.
  intros He1 He2 (? & ? & ? & ? & ? & ? & ? & Htr). repeat split; cbn; try done.
  rewrite !without_logs_app. unfold without_logs at 2 4. cbn.
  rewrite He1, He2. cbn. by rewrite !app_nil_r.
Qed.

(** Under two different nodes, hence two different answers of
    [CheckProofOfWork], the loop makes the same calls and differs in log
    lines only. *)
Lemma SubmitAuxShares_env_independent env env' hash auxproof items s1 s2 :
  same_but_logs s1 s2 ->
  fst (SubmitAuxShares env hash auxproof items s1)
  = fst (SubmitAuxShares env' hash auxproof items s2)
  /\ same_but_logs (snd (SubmitAuxShares env hash auxproof items s1))
                   (snd (SubmitAuxShares env' hash auxproof items s2)).
Proof.
  revert s1 s2. induction items as [|[chainid auxwork] items IH]; intros s1 s2 Hs.
  - done.
  - cbn [SubmitAuxShares]. rewrite !bind_gets.
    destruct Hs as (Hc & Hs). rewrite <- Hc.
    assert (Hs' : same_but_logs s1 s2) by (split; done).
    destruct (m_mmauth (client s1) !! chainid) as [[username password]|];
      cbv beta iota; unfold log, logf, emit; rewrite !bind_modify.
    + destruct (CheckProofOfWork env hash (bits auxwork) (bias auxwork)),
               (CheckProofOfWork env' hash (bits auxwork) (bias auxwork));
        rewrite !bind_modify; apply IH;
        apply same_but_logs_logs; try done; by apply same_but_logs_event.
    + apply IH. by apply same_but_logs_logs.
Qed.

(** C7: when [SubmitBlock] returns for a template with a block-final
    transaction and witness enabled, and the session has a bundle stored
    under [mmroot], it has called [SubmitAuxChainShare] exactly once, with
    one and the same proof, for each entry of the bundle whose chain the
    session is authorized for, in the order of the bundle: whether the hash
    meets the auxiliary target plays no part.  Moreover the auxiliary
    section behaves the same under any two nodes, that is under any two
    answers of [CheckProofOfWork], up to the log lines. *)
Theorem SubmitBlock_submits_every_authorized_aux_share :
  (forall env job mmroot work extranonce2 t n v s res s' ts bundle,
      SubmitBlock env job mmroot work extranonce2 t n v s = (Ret res, s') ->
      m_is_witness_enabled work = true ->
      has_block_final_tx (m_block_template work) = true ->
      m_mmwork (client s) !! mmroot = Some (ts, bundle) ->
      exists auxproof,
        aux_calls (trace s')
        = aux_calls (trace s)
          ++ authorized_aux_calls (m_mmauth (client s)) auxproof (std_map_items bundle))
  /\ (forall env env' work mmroot cb bf blkhdr hash s,
        fst (SubmitAuxProofs env work mmroot cb bf blkhdr hash s)
        = fst (SubmitAuxProofs env' work mmroot cb bf blkhdr hash s)
        /\ same_but_logs (snd (SubmitAuxProofs env work mmroot cb bf blkhdr hash s))
                         (snd (SubmitAuxProofs env' work mmroot cb bf blkhdr hash s))).
Proof.
  split; [exact SubmitBlock_aux_calls|].
  intros env env' work mmroot cb bf blkhdr hash s.
  unfold SubmitAuxProofs. rewrite !bind_gets.
  destruct (m_mmwork (client s) !! mmroot) as [[ts bundle]|];
    [|split; [done|apply same_but_logs_refl]].
  destruct (_ && _); [|split; [done|apply same_but_logs_refl]].
  destruct (_ <? _)%nat; [split; [done|apply same_but_logs_refl]|].
  destruct (Midstate _) as [[hash' buffer] tmp].
  apply SubmitAuxShares_env_independent, same_but_logs_refl.
Qed.

End Aux.

Section AuxExamples.
#[local] Existing Instance Reference.externals.

(** A share that meets the target of the parent chain is passed on to the
    auxiliary chain the session is authorized for. *)
Lemma SubmitBlock_submits_every_authorized_aux_share_witness :
  let env := Scenario.node 1000000 0 1000000 in
  let s := Scenario.working_state in
  let r := SubmitBlock env Scenario.working_job Scenario.working_mmroot
             Scenario.working_template [x00; x00; x00; x01] 1000000 0 536870912 s in
  let entry := default (0, ∅) (m_mmwork (client s) !! Scenario.working_mmroot) in
  (SubmitBlock env Scenario.working_job Scenario.working_mmroot
     Scenario.working_template [x00; x00; x00; x01] 1000000 0 536870912 s
   = (Ret true, snd r)
   /\ m_is_witness_enabled Scenario.working_template = true
   /\ has_block_final_tx (m_block_template Scenario.working_template) = true
   /\ m_mmwork (client s) !! Scenario.working_mmroot = Some (fst entry, snd entry))
  /\ exists auxproof,
       aux_calls (trace (snd r))
       = aux_calls (trace s)
         ++ authorized_aux_calls (m_mmauth (client s)) auxproof
              (std_map_items (snd entry)).
Proof.
  intros env s r entry.
  assert (Hfst : fst r = Ret true) by (vm_compute; reflexivity).
  pose proof (run_surjective r _ Hfst) as Hrun.
  assert (Hw : m_is_witness_enabled Scenario.working_template = true)
    by (vm_compute; reflexivity).
  assert (Hbf : has_block_final_tx (m_block_template Scenario.working_template) = true)
    by (vm_compute; reflexivity).
  assert (Hsome : fst <$> (m_mmwork (client s) !! Scenario.working_mmroot)
                  = Some 1000000000) by (vm_compute; reflexivity).
  pose proof (lookup_surjective (m_mmwork (client s) !! Scenario.working_mmroot)
                (0, ∅) _ Hsome) as Hmm.
  split; [exact (conj Hrun (conj Hw (conj Hbf Hmm)))|].
  exact (proj1 SubmitBlock_submits_every_authorized_aux_share env _ _ _ _ _ _ _ s true
           (snd r) (fst entry) (snd entry) Hrun Hw Hbf Hmm).
Defined.

(** In that run the hash meets the target of the parent chain and misses
    the much harder one of [chain_a]; the share is passed on to [chain_a]
    all the same, under the user name on record, and the log says "share",
    not "block". *)
Example aux_share_below_aux_target :
  let env := Scenario.node 1000000 0 1000000 in
  let s' := snd (SubmitBlock env Scenario.working_job Scenario.working_mmroot
                   Scenario.working_template [x00; x00; x00; x01] 1000000 0 536870912
                   Scenario.working_state) in
  map (fun e => match e with
                | Call_SubmitAuxChainShare chainid username auxwork _ =>
                    Some (chainid, username, auxwork)
                | _ => None
                end) (aux_calls (trace s'))
  = [Some (Scenario.chain_a, "bob"%string, Scenario.auxwork_a)]
  /\ last (trace s') = Some (LogPrintf "NEW AUX CHAIN SHARE!!! 0x%s by %s: %s %s\n").
Proof. intros env s'. split; vm_compute; reflexivity. Qed.

End AuxExamples.

(** ** The eviction of old work templates *)

Lemma elem_of_std_map_items {V} (m : gmap uint256 V) (k : uint256) (v : V) :
  (k, v) ∈ std_map_items m <-> m !! k = Some v.
Proof.
  unfold std_map_items. rewrite merge_sort_Permutation.
  apply elem_of_map_to_list.
Qed.

Lemma lookup_erase_all {V} (ids : list uint256) (m : gmap uint256 V) (k : uint256) (v : V) :
  (erase_all ids m) !! k = Some v <-> (k ∉ ids) /\ m !! k = Some v.
Proof.
  unfold erase_all. revert m. induction ids as [|id ids IH]; intros m; simpl.
  - split; [intros ?; split; [apply not_elem_of_nil|done]|tauto].
  - rewrite IH, lookup_delete_Some, not_elem_of_cons. split.
    + intros (? & ? & ?). split; [split|]; congruence.
    + intros ((? & ?) & ?). split; [|split]; congruence.
Qed.

Lemma scan_template_old_job_ids job lut acc kv :
  fst (fst (scan_template job lut acc kv))
  = fst (fst acc) ++ (if outdated job lut kv then [fst kv] else []).
Proof.
  destruct acc as [[old oldest] t]. unfold scan_template, outdated, template_nTime.
  destruct (decide (fst kv = job)) as [He|He].
  - rewrite (bool_decide_eq_true_2 _ He). simpl. by rewrite app_nil_r.
  - rewrite (bool_decide_eq_false_2 _ He). simpl.
    destruct (_ <? _); destruct (_ <=? _); simpl; by rewrite ?app_nil_r.
Qed.

Lemma scan_templates_old_job_ids job lut items acc :
  fst (fst (fold_left (scan_template job lut) items acc))
  = fst (fst acc) ++ (fst <$> filter (fun kv => outdated job lut kv = true) items).
Proof.
  revert acc. induction items as [|kv items IH]; intros acc; simpl.
  - by rewrite app_nil_r.
  - rewrite IH, scan_template_old_job_ids, filter_cons.
    destruct (outdated job lut kv) eqn:E.
    + rewrite decide_True by done. rewrite fmap_cons. by rewrite <- app_assoc.
    + rewrite decide_False by done. by rewrite app_nil_r.
Qed.

(** Every template the pass retains, the current job apart, is at most 900
    seconds older than the rebuild. *)
Lemma RemoveOldTemplates_age job lut wt k w :
  (RemoveOldTemplates job lut wt) !! k = Some w ->
  k <> job ->
  lut - 900 <= nTime (header (GetBlock w)).
Proof.
  unfold RemoveOldTemplates, scan_templates. intros Hk Hne.
  pose proof (scan_templates_old_job_ids job lut (std_map_items wt)
                ([], None, to_uint32 lut)) as Hold.
  destruct (fold_left _ _ _) as [[old oldest] t]. simpl in Hold. subst old.
  assert (Hin : (erase_all
                   (fst <$> filter (fun kv => outdated job lut kv = true)
                              (std_map_items wt)) wt) !! k = Some w).
  { destruct oldest as [id|]; [|done].
    destruct (_ <? _)%nat; [|done].
    apply lookup_delete_Some in Hk. tauto. }
  apply lookup_erase_all in Hin. destruct Hin as [Hnot Hw].
  destruct (Z.le_gt_cases (lut - 900) (nTime (header (GetBlock w)))) as [?|Hlt]; [done|].
  exfalso. apply Hnot.
  apply list_elem_of_fmap. exists (k, w). split; [done|].
  apply list_elem_of_filter. split.
  - unfold outdated, template_nTime. simpl.
    rewrite bool_decide_eq_false_2 by done. simpl. by apply Z.ltb_lt.
  - by apply elem_of_std_map_items.
Qed.

(** A template whose time stamp is ahead of the clock of the rebuild is
    never taken for the oldest one: when all of them are, the pass removes
    nothing, whatever the size of the cache. *)
Lemma scan_templates_ahead_of_clock job lut items :
  Forall (fun kv => fst kv = job
                    \/ (to_uint32 lut < template_nTime kv
                        /\ lut - 900 <= template_nTime kv)) items ->
  fold_left (scan_template job lut) items ([], None, to_uint32 lut)
  = ([], None, to_uint32 lut).
Proof.
  induction 1 as [|kv items Hkv _ IH]; [done|].
  cbn [fold_left].
  replace (scan_template job lut ([], None, to_uint32 lut) kv)
    with (@nil uint256, @None uint256, to_uint32 lut); [exact IH|].
  unfold scan_template, template_nTime in *.
  destruct (decide (fst kv = job)) as [|Hne]; [done|].
  destruct Hkv as [|[Hahead Hage]]; [done|].
  rewrite (proj2 (Z.ltb_ge _ _)) by lia.
  by rewrite (proj2 (Z.leb_gt _ _)) by lia.
Qed.

(** The pass removes nothing from a cache in which every template other
    than the current job carries a time stamp ahead of the clock of the
    rebuild and within 900 seconds of it, however many templates there
    are. *)
Lemma RemoveOldTemplates_ahead_of_clock job lut wt :
  (forall k w, wt !! k = Some w -> k <> job ->
               to_uint32 lut < nTime (header (GetBlock w))
               /\ lut - 900 <= nTime (header (GetBlock w))) ->
  RemoveOldTemplates job lut wt = wt.
Proof.
  intros Hall. unfold RemoveOldTemplates, scan_templates.
  rewrite scan_templates_ahead_of_clock; [done|].
  apply Forall_forall. intros [k w] Hin. apply elem_of_std_map_items in Hin.
  destruct (decide (k = job)) as [|Hne]; [by left|right].
  exact (Hall k w Hin Hne).
Qed.

Section EvictionExamples.
#[local] Existing Instance Reference.externals.

(** C4 (code bug): after 31 work units whose candidates are stamped
    1000200, ahead of the clock of the node, a rebuild at time 1000186 adds
    a template to a cache of 31 and its eviction pass removes none: every
    cached template is younger than 900 seconds, and none is taken for the
    oldest, since [oldest_job_nTime] starts at the time of the rebuild and
    only a time stamp at or below it is recorded.  The cache holds 32
    templates after the pass, not 30 at most. *)
Theorem GetWorkUnit_retains_more_than_30_templates :
  let s := Scenario.crowded_state in
  let env := Scenario.plain_node 1000186 32 1000200 in
  let r := GetWorkUnit env s in
  let s' := snd r in
  returns r = true
  /\ last_update_time s' = 1000186
  /\ work_templates s !! job_id s' = None
  /\ forallb (fun kv => (to_uint32 1000186 <? template_nTime kv)
                        && (1000186 - 900 <=? template_nTime kv))
             (std_map_items (work_templates s')) = true
  /\ size (work_templates s) = 31%nat
  /\ size (work_templates s') = 32%nat.
Proof.
  intros s env r s'.
  assert (Hall :
    (returns r, last_update_time s', work_templates s !! job_id s',
     forallb (fun kv => (to_uint32 1000186 <? template_nTime kv)
                        && (1000186 - 900 <=? template_nTime kv))
             (std_map_items (work_templates s')),
     size (work_templates s), size (work_templates s'))
    = (true, 1000186, None, true, 31%nat, 32%nat)) by (vm_compute; reflexivity).
  exact (tuple6_inv _ _ _ _ _ _ _ _ _ _ _ _ Hall).
Qed.

(** With candidates stamped with the clock of the node the same 31 work
    units leave 30 templates. *)
Example punctual_templates_within_bound :
  size (work_templates Scenario.punctual_state) = 30%nat.
Proof. vm_compute. reflexivity. Qed.

End EvictionExamples.

(** * Further properties of the server *)

(** ** Hexadecimal words *)

Lemma Z_of_byte_range b : 0 <= Z_of_byte b < 256.
Proof.
  unfold Z_of_byte. pose proof (Byte.to_N_bounded b) as Hb. lia.
Qed.

Lemma lor_mul_small a b k :
  0 <= k -> 0 <= b < 2 ^ k -> Z.lor (a * 2 ^ k) b = a * 2 ^ k + b.
Proof.
  intros Hk Hb.
  rewrite <- Z.lxor_lor, <- Z.add_nocarry_lxor; [done| |].
  all: apply Z.bits_inj'; intros n Hn; rewrite Z.land_spec, Z.bits_0.
  all: destruct (Z.lt_ge_cases n k) as [Hlt|Hge].
  all: try (rewrite Z.mul_pow2_bits_low by done; reflexivity).
  all: replace (Z.testbit b n) with false; [apply andb_false_r|].
  all: symmetry; destruct (Z.eq_dec b 0) as [->|Hb0]; [apply Z.bits_0|].
  all: apply Z.bits_above_log2; [lia|].
  all: apply Z.log2_lt_pow2; [lia|].
  all: apply Z.lt_le_trans with (2 ^ k); [lia|apply Z.pow_le_mono_r; lia].
Qed.

Lemma lor_bytes4 b0 b1 b2 b3 :
  0 <= b0 < 256 -> 0 <= b1 < 256 -> 0 <= b2 < 256 -> 0 <= b3 < 256 ->
  Z.lor (Z.lor (Z.lor (Z.shiftl b0 24) (Z.shiftl b1 16)) (Z.shiftl b2 8)) b3
  = b0 * 2 ^ 24 + b1 * 2 ^ 16 + b2 * 2 ^ 8 + b3.
Proof.
  intros H0 H1 H2 H3. rewrite !Z.shiftl_mul_pow2 by lia.
  rewrite (lor_mul_small b0 (b1 * 2 ^ 16) 24) by lia.
  replace (b0 * 2 ^ 24 + b1 * 2 ^ 16) with ((b0 * 2 ^ 8 + b1) * 2 ^ 16) by lia.
  rewrite (lor_mul_small _ (b2 * 2 ^ 8) 16) by lia.
  replace ((b0 * 2 ^ 8 + b1) * 2 ^ 16 + b2 * 2 ^ 8)
    with ((b0 * 2 ^ 16 + b1 * 2 ^ 8 + b2) * 2 ^ 8) by lia.
  rewrite (lor_mul_small _ b3 8) by lia. lia.
Qed.

Section Words.
Context `{Externals}.

Lemma ParseHexInt4_value hex name vch :
  ParseHexV_bytes hex = Some vch ->
  match vch with
  | [b0; b1; b2; b3] =>
      ParseHexInt4 hex name
      = Ret (Z_of_byte b0 * 2 ^ 24 + Z_of_byte b1 * 2 ^ 16 + Z_of_byte b2 * 2 ^ 8
             + Z_of_byte b3)
  | _ =>
      ParseHexInt4 hex name
      = Throw (JSONRPCError RPC_INVALID_PARAMETER
                 (name +:+ " must be exactly 4 bytes / 8 hex"))
  end.
Proof.
  intros Hvch. unfold ParseHexInt4, ParseHexV. rewrite Hvch. cbn [obind].
  destruct vch as [|b0 [|b1 [|b2 [|b3 [|b4 vch]]]]]; try reflexivity.
  f_equal.
  pose proof (Z_of_byte_range b0). pose proof (Z_of_byte_range b1).
  pose proof (Z_of_byte_range b2). pose proof (Z_of_byte_range b3).
  rewrite lor_bytes4 by done.
  unfold to_uint32, uint32_max. apply Z.mod_small. lia.
Qed.

(** The 32-bit word [ParseHexInt4] reads is the big-endian value of the four
    bytes; any other number of bytes is refused with the JSON-RPC error for
    invalid parameters. *)
Theorem ParseHexInt4_big_endian hex name vch :
  ParseHexV_bytes hex = Some vch ->
  match vch with
  | [b0; b1; b2; b3] =>
      ParseHexInt4 hex name
      = Ret (Z_of_byte b0 * 2 ^ 24 + Z_of_byte b1 * 2 ^ 16 + Z_of_byte b2 * 2 ^ 8
             + Z_of_byte b3)
  | _ =>
      ParseHexInt4 hex name
      = Throw (JSONRPCError RPC_INVALID_PARAMETER
                 (name +:+ " must be exactly 4 bytes / 8 hex"))
  end.
Proof. apply ParseHexInt4_value. Qed.

(** The four bytes [HexInt4] writes, most significant first. *)
Lemma HexInt4_bytes_value val :
  Z_of_byte (byte_of_Z (Z.land (Z.shiftr val 24) 255)) * 2 ^ 24
  + Z_of_byte (byte_of_Z (Z.land (Z.shiftr val 16) 255)) * 2 ^ 16
  + Z_of_byte (byte_of_Z (Z.land (Z.shiftr val 8) 255)) * 2 ^ 8
  + Z_of_byte (byte_of_Z (Z.land val 255))
  = to_uint32 val.
Proof.
  change 255 with (Z.ones 8). rewrite !Z.land_ones, !Z.shiftr_div_pow2 by lia.
  rewrite !Z_of_byte_of_Z by (apply Z.mod_pos_bound; lia).
  unfold to_uint32, uint32_max.
  pose proof (Z.div_mod val (2 ^ 8) ltac:(lia)).
  pose proof (Z.mod_pos_bound val (2 ^ 8) ltac:(lia)).
  pose proof (Z.div_mod (val / 2 ^ 8) (2 ^ 8) ltac:(lia)).
  pose proof (Z.mod_pos_bound (val / 2 ^ 8) (2 ^ 8) ltac:(lia)).
  pose proof (Z.div_mod (val / 2 ^ 8 / 2 ^ 8) (2 ^ 8) ltac:(lia)).
  pose proof (Z.mod_pos_bound (val / 2 ^ 8 / 2 ^ 8) (2 ^ 8) ltac:(lia)).
  pose proof (Z.div_mod (val / 2 ^ 8 / 2 ^ 8 / 2 ^ 8) (2 ^ 8) ltac:(lia)).
  pose proof (Z.mod_pos_bound (val / 2 ^ 8 / 2 ^ 8 / 2 ^ 8) (2 ^ 8) ltac:(lia)).
  replace (val / 2 ^ 16) with (val / 2 ^ 8 / 2 ^ 8)
    by (rewrite Z.div_div by lia; reflexivity).
  replace (val / 2 ^ 24) with (val / 2 ^ 8 / 2 ^ 8 / 2 ^ 8)
    by (rewrite !Z.div_div by lia; reflexivity).
  apply Z.mod_unique_pos with (val / 2 ^ 8 / 2 ^ 8 / 2 ^ 8 / 2 ^ 8); lia.
Qed.

(** What [HexInt4] writes [ParseHexInt4] reads back, up to the width of the
    word, when the hex codec reads back the four bytes it wrote. *)
Theorem ParseHexInt4_HexInt4 val name :
  ParseHexV_bytes (VSTR (HexInt4 val))
  = Some [ byte_of_Z (Z.land (Z.shiftr val 24) 255);
           byte_of_Z (Z.land (Z.shiftr val 16) 255);
           byte_of_Z (Z.land (Z.shiftr val 8) 255);
           byte_of_Z (Z.land val 255) ] ->
  ParseHexInt4 (VSTR (HexInt4 val)) name = Ret (to_uint32 val).
Proof.
  intros Hcodec.
  pose proof (ParseHexInt4_value _ name _ Hcodec) as Hparse. cbv beta iota in Hparse.
  rewrite Hparse, HexInt4_bytes_value. reflexivity.
Qed.

End Words.

(** ** Version rolling *)

(** A mask of 32 bits decides bit by bit where the version of a share comes
    from: the bits of the mask are taken from the word the miner sent, all
    others from the version of the template, and nothing lies beyond bit 31. *)
Theorem roll_version_bits nVersion' bits' mask i :
  0 <= mask < 2 ^ 32 ->
  0 <= i ->
  Z.testbit (roll_version nVersion' bits' mask) i
  = if Z.testbit mask i then Z.testbit bits' i
    else Z.testbit nVersion' i && (i <? 32).
Proof.
  intros Hmask Hi. unfold roll_version, to_uint32, uint32_max.
  rewrite Z.lor_spec, !Z.land_spec, Z.lxor_spec.
  change (2 ^ 32 - 1) with (Z.ones 32). rewrite Z.testbit_ones by lia.
  destruct (i <? 32) eqn:Hlt.
  - apply Z.ltb_lt in Hlt. rewrite Z.mod_pow2_bits_low by lia.
    replace (0 <=? i) with true by (symmetry; apply Z.leb_le; lia).
    destruct (Z.testbit mask i), (Z.testbit bits' i), (Z.testbit nVersion' i); reflexivity.
  - apply Z.ltb_ge in Hlt. rewrite Z.mod_pow2_bits_high by lia.
    assert (Z.testbit mask i = false) as ->.
    { destruct (Z.eq_dec mask 0) as [->|?]; [apply Z.bits_0|].
      apply Z.bits_above_log2; [lia|].
      apply Z.lt_le_trans with 32; [apply Z.log2_lt_pow2; lia|lia]. }
    rewrite !andb_false_r. reflexivity.
Qed.

Lemma roll_version_bits_witness :
  (0 <= 536862720 < 2 ^ 32 /\ 0 <= 13)
  /\ Z.testbit (roll_version 536870912 8192 536862720) 13
     = if Z.testbit 536862720 13 then Z.testbit 8192 13
       else Z.testbit 536870912 13 && (13 <? 32).
Proof.
  split; [lia|]. apply (roll_version_bits 536870912 8192 536862720 13); lia.
Defined.

(** ** The split of a serialized coinbase *)


(** ** More on the eviction of work templates *)

Lemma lookup_erase_all_notin {V} (ids : list uint256) (m : gmap uint256 V) (k : uint256) :
  k ∉ ids -> (erase_all ids m) !! k = m !! k.
Proof.
  unfold erase_all. revert m. induction ids as [|id ids IH]; intros m Hk; simpl; [done|].
  apply not_elem_of_cons in Hk as [Hne Hk]. rewrite IH by done.
  apply lookup_delete_ne. congruence.
Qed.

Lemma erase_all_subseteq {V} (ids : list uint256) (m : gmap uint256 V) :
  erase_all ids m ⊆ m.
Proof.
  apply map_subseteq_spec. intros k v Hk. apply lookup_erase_all in Hk. tauto.
Qed.

(** Erasing a key that is there leaves a smaller map. *)
Lemma erase_all_size_lt {V} (ids : list uint256) (m : gmap uint256 V) (k : uint256) :
  is_Some (m !! k) -> (erase_all ids m) !! k = None ->
  (size (erase_all ids m) < size m)%nat.
Proof.
  intros [v Hv] Hnone.
  assert (Hsub : erase_all ids m ⊆ delete k m).
  { apply map_subseteq_spec. intros i x Hi.
    destruct (decide (i = k)) as [->|Hne]; [congruence|].
    rewrite lookup_delete_ne by congruence. apply lookup_erase_all in Hi. tauto. }
  apply map_subseteq_size in Hsub.
  rewrite map_size_delete_Some in Hsub by eauto.
  assert (size m <> 0)%nat by (apply map_size_ne_0_lookup; eauto). lia.
Qed.

(** The job the loop takes for the oldest is one of the jobs it went
    through, never the current one. *)
Lemma scan_templates_oldest job lut items acc id :
  snd (fst (fold_left (scan_template job lut) items acc)) = Some id ->
  snd (fst acc) = Some id \/ (id ∈ (fst <$> items) /\ id <> job).
Proof.
  revert acc. induction items as [|kv items IH]; intros acc; simpl; [by left|].
  intros Hid. apply IH in Hid as [Hid|[Hin Hne]].
  - destruct acc as [[old oldest] t]. unfold scan_template in Hid.
    destruct (decide (fst kv = job)) as [|Hkv]; [by left|].
    destruct (_ <=? _); simpl in Hid; [|by left].
    right. injection Hid as <-. split; [apply elem_of_cons; by left|done].
  - right. split; [apply elem_of_cons; by right|done].
Qed.

(** Once the loop has seen a job other than the current one whose time
    stamp is not ahead of the rebuild, it has an oldest job. *)
Lemma scan_templates_oldest_found job lut items acc :
  (snd (fst acc) = None -> snd acc = to_uint32 lut) ->
  snd (fst acc) <> None
  \/ Exists (fun kv => fst kv <> job /\ template_nTime kv <= to_uint32 lut) items ->
  snd (fst (fold_left (scan_template job lut) items acc)) <> None.
Proof.
  revert acc. induction items as [|kv items IH]; intros acc Hinv Hex; simpl.
  - destruct Hex as [|Hex]; [done|]. by apply Exists_nil in Hex.
  - apply IH.
    + destruct acc as [[old oldest] t]. unfold scan_template. simpl in *.
      destruct (decide (fst kv = job)); [done|].
      destruct (_ <=? _); simpl; [done|exact Hinv].
    + destruct acc as [[old oldest] t]. unfold scan_template, template_nTime in *.
      simpl in *.
      destruct Hex as [Hsome|Hex].
      * left. destruct (decide (fst kv = job)); [done|].
        destruct (_ <=? _); simpl; done.
      * apply Exists_cons in Hex as [[Hne Ht]|Hex]; [left|by right].
        rewrite decide_False by done.
        destruct oldest as [id|].
        -- destruct (_ <=? _); simpl; done.
        -- rewrite Hinv by done.
           rewrite (proj2 (Z.leb_le _ _)) by done. simpl. done.
Qed.

(** The eviction pass never removes the current job. *)
Theorem RemoveOldTemplates_keeps_current job lut wt :
  (RemoveOldTemplates job lut wt) !! job = wt !! job.
Proof.
  unfold RemoveOldTemplates, scan_templates.
  pose proof (scan_templates_old_job_ids job lut (std_map_items wt)
                ([], None, to_uint32 lut)) as Hold.
  pose proof (scan_templates_oldest job lut (std_map_items wt)
                ([], None, to_uint32 lut)) as Holdest.
  destruct (fold_left _ _ _) as [[old oldest] t]. simpl in Hold, Holdest. subst old.
  assert (Hnot : job ∉ fst <$> filter (fun kv => outdated job lut kv = true)
                                (std_map_items wt)).
  { intros Hin. apply list_elem_of_fmap in Hin as ([k w] & -> & Hin).
    apply list_elem_of_filter in Hin as [Hout _].
    unfold outdated in Hout. simpl in Hout.
    rewrite bool_decide_eq_true_2 in Hout by done. discriminate. }
  destruct oldest as [id|]; [|by apply lookup_erase_all_notin].
  destruct (Holdest id eq_refl) as [?|[_ Hne]]; [done|].
  destruct (_ <? _)%nat; [|by apply lookup_erase_all_notin].
  rewrite lookup_delete_ne by done. by apply lookup_erase_all_notin.
Qed.

(** A cache of at most 31 templates in which some job other than the
    current one carries a time stamp that is not ahead of the rebuild comes
    out of the pass with at most 30. *)
Theorem RemoveOldTemplates_bound job lut wt k w :
  (size wt <= 31)%nat ->
  wt !! k = Some w ->
  k <> job ->
  nTime (header (GetBlock w)) <= to_uint32 lut ->
  (size (RemoveOldTemplates job lut wt) <= 30)%nat.
Proof.
  intros Hsize Hk Hne Ht. unfold RemoveOldTemplates, scan_templates.
  pose proof (scan_templates_oldest job lut (std_map_items wt)
                ([], None, to_uint32 lut)) as Holdest.
  pose proof (scan_templates_oldest_found job lut (std_map_items wt)
                ([], None, to_uint32 lut) (fun _ => eq_refl)) as Hfound.
  destruct (fold_left _ _ _) as [[old oldest] t]. simpl in Holdest, Hfound.
  pose proof (map_subseteq_size _ _ (erase_all_subseteq old wt)) as Hle.
  destruct oldest as [id|].
  - destruct (30 <? _)%nat eqn:Hbig; [|apply Nat.ltb_ge in Hbig; lia].
    apply Nat.ltb_lt in Hbig.
    destruct (Holdest id eq_refl) as [?|[Hin _]]; [done|].
    apply list_elem_of_fmap in Hin as ([k' w'] & -> & Hin).
    apply elem_of_std_map_items in Hin. simpl.
    destruct (erase_all old wt !! k') as [v|] eqn:Hv.
    + rewrite map_size_delete_Some by eauto. lia.
    + pose proof (erase_all_size_lt old wt k' (mk_is_Some _ _ Hin) Hv). lia.
  - exfalso. apply Hfound; [|done]. right.
    apply Exists_exists. exists (k, w). split; [by apply elem_of_std_map_items|].
    split; [done|exact Ht].
Qed.

(** ** The eviction of merge-mining bundles *)

Lemma scan_mmworks_old_mmwork_ids cutoff items acc :
  fst (fst (fold_left (scan_mmwork cutoff) items acc))
  = fst (fst acc)
    ++ (fst <$> filter (fun kv : uint256 * (Z * gmap uint256 AuxWork) =>
                          fst (snd kv) < cutoff) items).
Proof.
  revert acc. induction items as [|kv items IH]; intros acc; simpl.
  - by rewrite app_nil_r.
  - rewrite IH, filter_cons. destruct acc as [[old oldest] t].
    unfold scan_mmwork. simpl.
    destruct (decide (fst (snd kv) < cutoff)) as [Hlt|Hge].
    + rewrite (proj2 (Z.ltb_lt _ _)) by done.
      destruct (_ <=? _); simpl; rewrite <- ?app_assoc; done.
    + rewrite (proj2 (Z.ltb_ge _ _)) by lia.
      destruct (_ <=? _); simpl; done.
Qed.

Lemma scan_mmworks_oldest cutoff items acc id :
  snd (fst (fold_left (scan_mmwork cutoff) items acc)) = Some id ->
  snd (fst acc) = Some id \/ id ∈ (fst <$> items).
Proof.
  revert acc. induction items as [|kv items IH]; intros acc; simpl; [by left|].
  intros Hid. apply IH in Hid as [Hid|Hin].
  - destruct acc as [[old oldest] t]. unfold scan_mmwork in Hid.
    destruct (_ <=? _); simpl in Hid; [|by left].
    right. injection Hid as <-. apply elem_of_cons. by left.
  - right. apply elem_of_cons. by right.
Qed.

Lemma scan_mmworks_oldest_found cutoff t0 items acc :
  (snd (fst acc) = None -> snd acc = t0) ->
  snd (fst acc) <> None
  \/ Exists (fun kv : uint256 * (Z * gmap uint256 AuxWork) => fst (snd kv) <= t0) items ->
  snd (fst (fold_left (scan_mmwork cutoff) items acc)) <> None.
Proof.
  revert acc. induction items as [|kv items IH]; intros acc Hinv Hex; simpl.
  - destruct Hex as [|Hex]; [done|]. by apply Exists_nil in Hex.
  - apply IH.
    + destruct acc as [[old oldest] t]. unfold scan_mmwork. simpl in *.
      destruct (_ <=? _); simpl; [done|exact Hinv].
    + destruct acc as [[old oldest] t]. unfold scan_mmwork. simpl in *.
      destruct Hex as [Hsome|Hex].
      * left. destruct (_ <=? _); simpl; done.
      * apply Exists_cons in Hex as [Ht|Hex]; [left|by right].
        destruct oldest as [id|].
        -- destruct (_ <=? _); simpl; done.
        -- rewrite Hinv by done.
           rewrite (proj2 (Z.leb_le _ _)) by done. simpl. done.
Qed.

(** Every bundle the pass retains was stored at most 900 seconds before the
    rebuild; bundles have no exemption of the kind the current job has. *)
Theorem RemoveOldMergeMineWork_age lut mm k ts bundle :
  900 <= lut ->
  lut * 1000 < 2 ^ 64 ->
  (RemoveOldMergeMineWork lut mm) !! k = Some (ts, bundle) ->
  lut * 1000 - 900 * 1000 <= ts.
Proof.
  intros Hlut Hmax. unfold RemoveOldMergeMineWork, scan_mmworks.
  assert (Hcut : to_uint64 (to_uint64 (to_uint64 lut * 1000) - 900 * 1000)
                 = lut * 1000 - 900 * 1000).
  { unfold to_uint64, uint64_max. rewrite (Z.mod_small lut) by lia.
    rewrite (Z.mod_small (lut * 1000)) by lia. apply Z.mod_small. lia. }
  rewrite Hcut.
  pose proof (scan_mmworks_old_mmwork_ids (lut * 1000 - 900 * 1000) (std_map_items mm)
                ([], None, to_uint64 (to_uint64 lut * 1000))) as Hold.
  destruct (fold_left _ _ _) as [[old oldest] t]. simpl in Hold. subst old.
  intros Hk.
  assert (Hin : (erase_all
                   (fst <$> filter (fun kv : uint256 * (Z * gmap uint256 AuxWork) =>
                                      fst (snd kv) < lut * 1000 - 900 * 1000)
                              (std_map_items mm)) mm) !! k = Some (ts, bundle)).
  { destruct oldest as [id|]; [|done].
    destruct (_ <? _)%nat; [|done].
    apply lookup_delete_Some in Hk. tauto. }
  apply lookup_erase_all in Hin. destruct Hin as [Hnot Hw].
  destruct (Z.le_gt_cases (lut * 1000 - 900 * 1000) ts) as [?|Hlt]; [done|].
  exfalso. apply Hnot.
  apply list_elem_of_fmap. exists (k, (ts, bundle)). split; [done|].
  apply list_elem_of_filter. split; [simpl; lia|by apply elem_of_std_map_items].
Qed.

(** A session with at most 31 bundles, one of them stored no later than the
    rebuild, comes out of the pass with at most 30. *)
Theorem RemoveOldMergeMineWork_bound lut mm k ts bundle :
  (size mm <= 31)%nat ->
  mm !! k = Some (ts, bundle) ->
  ts <= to_uint64 (to_uint64 lut * 1000) ->
  (size (RemoveOldMergeMineWork lut mm) <= 30)%nat.
Proof.
  intros Hsize Hk Ht. unfold RemoveOldMergeMineWork, scan_mmworks.
  set (t0 := to_uint64 (to_uint64 lut * 1000)) in *.
  pose proof (scan_mmworks_oldest (to_uint64 (t0 - 900 * 1000)) (std_map_items mm)
                ([], None, t0)) as Holdest.
  pose proof (scan_mmworks_oldest_found (to_uint64 (t0 - 900 * 1000)) t0
                (std_map_items mm) ([], None, t0) (fun _ => eq_refl)) as Hfound.
  destruct (fold_left _ _ _) as [[old oldest] t]. simpl in Holdest, Hfound.
  pose proof (map_subseteq_size _ _ (erase_all_subseteq old mm)) as Hle.
  destruct oldest as [id|].
  - destruct (30 <? _)%nat eqn:Hbig; [|apply Nat.ltb_ge in Hbig; lia].
    apply Nat.ltb_lt in Hbig.
    destruct (Holdest id eq_refl) as [?|Hin]; [done|].
    apply list_elem_of_fmap in Hin as ([k' w'] & -> & Hin).
    apply elem_of_std_map_items in Hin. simpl.
    destruct (erase_all old mm !! k') as [v|] eqn:Hv.
    + rewrite map_size_delete_Some by eauto. lia.
    + pose proof (erase_all_size_lt old mm k' (mk_is_Some _ _ Hin) Hv). lia.
  - exfalso. apply Hfound; [|done]. right.
    apply Exists_exists. exists (k, (ts, bundle)).
    split; [by apply elem_of_std_map_items|exact Ht].
Qed.

(** ** Failing computations *)

Section PreservesOnFailure.
Context {I : State -> Prop}.

Lemma preserves_on_failure_bind {A B} (m : M A) (k : A -> M B) :
  preserves I m -> (forall a, preserves_on_failure I (k a)) ->
  preserves_on_failure I (bind m k).
Proof.
  intros Hm Hk s out s' Hrun Hs Hfail.
  apply bind_inv in Hrun as [(a & s1 & Hm1 & Hk1)|[(e & Hm1 & ->)|(f & Hm1 & ->)]].
  - eapply Hk; [exact Hk1| |exact Hfail]. eapply Hm; [exact Hm1|exact Hs].
  - eapply Hm; [exact Hm1|exact Hs].
  - eapply Hm; [exact Hm1|exact Hs].
Qed.

Lemma preserves_on_failure_preserves {A} (m : M A) :
  preserves I m -> preserves_on_failure I m.
Proof. intros Hm s out s' Hrun Hs _. eapply Hm; [exact Hrun|exact Hs]. Qed.

Lemma preserves_on_failure_returns {A} (m : M A) :
  (forall s, returns (m s) = true) -> preserves_on_failure I m.
Proof.
  intros Hm s out s' Hrun _ Hfail. specialize (Hm s). rewrite Hrun in Hm. congruence.
Qed.

End PreservesOnFailure.

Lemma same_but_logs_log e s0 s :
  is_log e = true -> same_but_logs s0 s -> same_but_logs s0 (add_event e s).
Proof.
  intros He (? & ? & ? & ? & ? & ? & ? & Htr). repeat split; cbn; try done.
  rewrite without_logs_app. unfold without_logs at 3. cbn. rewrite He. cbn.
  by rewrite app_nil_r.
Qed.

(** One step of a proof that a computation changes the log lines only. *)
Ltac step_logs :=
  first
    [ step_preserves
    | apply same_but_logs_log; [reflexivity|assumption] ].

(** ** The mining.authorize handler, continued *)

Section AuthorizeMore.
Context `{Externals}.

Lemma authorize_option_logs s0 mmauth opt :
  preserves (same_but_logs s0) (authorize_option mmauth opt).
Proof. unfold authorize_option. repeat step_logs. Qed.

Lemma authorize_options_logs s0 opts mmauth :
  preserves (same_but_logs s0) (authorize_options mmauth opts).
Proof.
  revert mmauth. induction opts as [|opt opts IH]; intros mmauth; simpl.
  - apply preserves_ret.
  - apply preserves_bind; [apply authorize_option_logs|intros ?; apply IH].
Qed.

(** A mining.authorize request that does not return [true] leaves the
    session and the server as they were: whatever it throws, and wherever,
    nothing but log lines has been written by then. *)
Theorem stratum_mining_authorize_failure params s out s' :
  stratum_mining_authorize params s = (out, s') ->
  returns (out, s') = false ->
  same_but_logs s s'.
Proof.
  intros Hrun Hfail.
  assert (Hpof : preserves_on_failure (same_but_logs s) (stratum_mining_authorize params)).
  { unfold stratum_mining_authorize.
    repeat first
      [ apply preserves_on_failure_bind;
        [repeat step_logs; try apply authorize_options_logs|intros ?]
      | match goal with
        | |- preserves_on_failure _ (let '(_, _) := ?x in _) => destruct x
        end ].
    destruct (negb _).
    - apply preserves_on_failure_preserves, preserves_throw.
    - apply preserves_on_failure_returns. intros s1. reflexivity. }
  exact (Hpof s out s' Hrun (same_but_logs_refl s) Hfail).
Qed.

Lemma emit_all_trace es s :
  trace (fold_left (fun s e => add_event e s) es s) = trace s ++ es.
Proof.
  revert s. induction es as [|e es IH]; intros s; simpl.
  - by rewrite app_nil_r.
  - rewrite IH. simpl. by rewrite <- app_assoc.
Qed.

Lemma without_logs_register (items : list (uint256 * (string * string))) :
  without_logs (map (fun item => Call_RegisterMergeMineClient (fst item) (fst (snd item))
                                   (snd (snd item))) items)
  = map (fun item => Call_RegisterMergeMineClient (fst item) (fst (snd item))
                       (snd (snd item))) items.
Proof. induction items as [|item items IH]; simpl; [done|]. unfold without_logs in *. simpl. by rewrite IH. Qed.

(** When mining.authorize returns, it returns [true]: the session is
    authorized for a valid address and due for work, one call of
    [RegisterMergeMineClient] has been made for each chain now on record,
    in the order of the map; the secret, the extranonce subscription, the
    stored bundles and the maps of the server are as before. *)
Theorem stratum_mining_authorize_success params s v s' :
  stratum_mining_authorize params s = (Ret v, s') ->
  v = VBOOL true
  /\ m_authorized (client s') = true
  /\ m_send_work (client s') = true
  /\ IsValidAddress (m_addr (client s')) = true
  /\ without_logs (trace s')
     = without_logs (trace s)
       ++ map (fun item => Call_RegisterMergeMineClient (fst item) (fst (snd item))
                             (snd (snd item)))
              (std_map_items (m_mmauth (client s')))
  /\ m_secret (client s') = m_secret (client s)
  /\ m_supports_extranonce (client s') = m_supports_extranonce (client s)
  /\ m_mmwork (client s') = m_mmwork (client s)
  /\ work_templates s' = work_templates s
  /\ second_stages s' = second_stages s.
Proof.
  intros Hrun. unfold stratum_mining_authorize in Hrun.
  repeat inv_ret.
  all: match goal with
       | Ho : authorize_options _ _ ?s1 = (_, ?s2) |- _ =>
           pose proof (authorize_options_logs s1 _ _ _ _ _ Ho (same_but_logs_refl s1))
             as (Hc & Hwt & Hss & _ & _ & _ & _ & Htr)
       end.
  all: unfold emit_all, modify in *.
  all: repeat match goal with
              | Hm : (_, _) = (_, _) |- _ => inversion Hm; clear Hm; subst
              end.
  all: cbn [client work_templates second_stages trace set_client add_event
            m_authorized m_send_work m_addr m_mmauth m_secret m_supports_extranonce
            m_mmwork set_m_addr set_m_mmauth set_m_mindiff set_m_authorized
            set_m_send_work].
  all: rewrite ?(proj1 (proj2 (emit_all_frame _ _))),
         ?(proj1 (emit_all_frame _ _)), ?(proj2 (proj2 (emit_all_frame _ _))).
  all: cbn [client work_templates second_stages trace set_client add_event
            m_authorized m_send_work m_addr m_mmauth m_secret m_supports_extranonce
            m_mmwork set_m_addr set_m_mmauth set_m_mindiff set_m_authorized
            set_m_send_work].
  all: rewrite ?emit_all_trace, ?without_logs_app, ?without_logs_register.
  all: cbn [client work_templates second_stages trace set_client add_event
            m_authorized m_send_work m_addr m_mmauth m_secret m_supports_extranonce
            m_mmwork set_m_addr set_m_mmauth set_m_mindiff set_m_authorized
            set_m_send_work].
  all: split_and!; try done; try congruence.
  all: try (by apply negb_false_iff).
  all: rewrite Htr; cbn; by rewrite app_nil_r.
Qed.

End AuthorizeMore.

Section AuthorizeLoop.
Context `{Externals}.

Lemma split_password_empty_option fuel password start opts pos :
  find_char "," start password = Some pos ->
  trim (substring start pos password) = EmptyString ->
  split_password fuel password start opts = Abort NonTermination.
Proof.
  intros Hpos Hopt. destruct fuel; simpl; rewrite Hpos, Hopt; reflexivity.
Qed.

(** A password whose first option is blank, as when it starts with a comma,
    sends the loop that cuts it into options round and round on that
    option: the handler never answers. *)
Theorem stratum_mining_authorize_blank_first_option username password pos s :
  find_char "," 0 (trim password) = Some pos ->
  trim (substring 0 pos (trim password)) = EmptyString ->
  stratum_mining_authorize (VARR [VSTR username; VSTR password]) s
  = (Abort NonTermination, s).
Proof.
  intros Hpos Hopt. unfold stratum_mining_authorize, bind, lift. cbn.
  rewrite (split_password_empty_option _ _ _ _ _ Hpos Hopt). reflexivity.
Qed.

End AuthorizeLoop.

(** ** What the request handlers do to a session *)

(** One step of a proof that a computation leaves alone a part of the state
    that its writes do not touch. *)
Ltac step_frame :=
  first
    [ step_preserves
    | progress cbn [client set_client add_event set_work_templates set_second_stages
                    set_statics work_templates second_stages
                    set_m_nextid set_m_client set_m_authorized
                    set_m_addr set_m_mmauth set_m_mmwork set_m_mindiff set_m_last_tip
                    set_m_last_second_stage set_m_send_work set_m_supports_extranonce]
    | assumption ].

(** One step of a proof that a computation keeps a property of the session
    that each of its writes keeps. *)
Ltac step_session :=
  first
    [ step_preserves
    | progress cbn [client set_client add_event]
    | assumption
    | match goal with
      | Hset : forall v c, ?P c -> ?P (?set v c) |- ?P (?set _ _) => apply Hset
      | Hset : forall c, ?P c -> ?P (?set ?v c) |- ?P (?set ?v _) => apply Hset
      | Hset : forall mask c, ?P c -> ?P (?set (Z.land mask ?k) c)
        |- ?P (?set (Z.land _ ?k) _) => apply Hset
      end ].

Section Session.
Context `{Externals}.
Variable P : StratumClient -> Prop.
Hypothesis P_client : forall v c, P c -> P (set_m_client v c).
Hypothesis P_addr : forall v c, P c -> P (set_m_addr v c).
Hypothesis P_mmauth : forall v c, P c -> P (set_m_mmauth v c).
Hypothesis P_mindiff : forall v c, P c -> P (set_m_mindiff v c).
Hypothesis P_authorized : forall c, P c -> P (set_m_authorized true c).
Hypothesis P_send_work : forall c, P c -> P (set_m_send_work true c).
Hypothesis P_supports_extranonce : forall c, P c -> P (set_m_supports_extranonce true c).
Hypothesis P_mask :
  forall mask c, P c -> P (set_m_version_rolling_mask (Z.land mask 536862720) c).

Lemma emit_all_session es : preserves (fun s => P (client s)) (emit_all es).
Proof.
  apply preserves_modify. intros s Hs.
  by rewrite (proj1 (proj2 (emit_all_frame es s))).
Qed.

Lemma SubmitAuxShares_session env hash auxproof items :
  preserves (fun s => P (client s)) (SubmitAuxShares env hash auxproof items).
Proof.
  induction items as [|[chainid auxwork] items IH]; simpl.
  - apply preserves_ret.
  - repeat step_session.
Qed.

Lemma SubmitBlock_session env job mmroot work extranonce2 t n v :
  preserves (fun s => P (client s)) (SubmitBlock env job mmroot work extranonce2 t n v).
Proof.
  unfold SubmitBlock, SubmitAuxProofs.
  repeat (first [step_session|apply SubmitAuxShares_session]).
Qed.

Lemma SubmitSecondStage_session env chainid work extranonce2 t n v :
  preserves (fun s => P (client s))
            (SubmitSecondStage env chainid work extranonce2 t n v).
Proof. unfold SubmitSecondStage. repeat step_session. Qed.

Lemma authorize_options_session opts mmauth :
  preserves (fun s => P (client s)) (authorize_options mmauth opts).
Proof.
  revert mmauth. induction opts as [|opt opts IH]; intros mmauth; simpl.
  - apply preserves_ret.
  - apply preserves_bind; [|intros ?; apply IH].
    unfold authorize_option. repeat step_session.
Qed.

Lemma configure_extensions_session config extensions res :
  preserves (fun s => P (client s)) (configure_extensions config extensions res).
Proof.
  revert res. induction extensions as [|extension rest IH]; intros res; simpl.
  - apply preserves_ret.
  - repeat (first [step_session|apply IH]).
Qed.

Lemma stratum_method_session env method handler params :
  stratum_method_dispatch env method = Some handler ->
  preserves (fun s => P (client s)) (handler params).
Proof.
  unfold stratum_method_dispatch. intros Hh.
  repeat match type of Hh with
         | (if ?b then _ else _) = _ => destruct b
         end; inversion Hh; subst handler.
  - unfold stratum_mining_subscribe. repeat step_session.
  - unfold stratum_mining_authorize.
    repeat (first [apply authorize_options_session|apply emit_all_session|step_session]).
  - unfold stratum_mining_configure.
    repeat (first [apply configure_extensions_session|step_session]).
  - unfold stratum_mining_submit.
    repeat (first [step_session|apply SubmitBlock_session|apply SubmitSecondStage_session]).
  - unfold stratum_mining_extranonce_subscribe. repeat step_session.
Qed.

Lemma stratum_dispatch_session env method params :
  preserves (fun s => P (client s)) (stratum_dispatch env method params).
Proof.
  intros s out s' Hrun Hs. unfold stratum_dispatch in Hrun.
  destruct (stratum_method_dispatch env method) as [handler|] eqn:Hh.
  - pose proof (stratum_method_session env method handler params Hh) as Hp.
    destruct (handler params s) as [[v|[code message|w]|f] s1] eqn:Hhandler;
      inversion Hrun; subst; exact (Hp _ _ _ Hhandler Hs).
  - inversion Hrun; subst. exact Hs.
Qed.

End Session.

(** ** The version-rolling mask *)

Section Mask.
Context `{Externals}.

(** Whatever a client sends, in whatever order, the version-rolling mask of
    its session stays within 0x1fffe000: no request handler stores a bit
    outside these sixteen. *)
Theorem stratum_dispatch_mask env method params :
  preserves mask_within_bip320 (stratum_dispatch env method params).
Proof.
  apply (stratum_dispatch_session
           (fun c => Z.land (m_version_rolling_mask c) 536862720
                     = m_version_rolling_mask c)); try (intros; assumption).
  intros mask c _. cbn. rewrite <- Z.land_assoc, Z.land_diag. reflexivity.
Qed.

End Mask.

(** ** Shares and the maps of the server *)

Section SubmitMore.
Context `{Externals}.

Lemma SubmitAuxShares_caches env hash auxproof items wt ss :
  preserves (fun s => work_templates s = wt /\ second_stages s = ss)
            (SubmitAuxShares env hash auxproof items).
Proof.
  induction items as [|[chainid auxwork] items IH]; simpl.
  - apply preserves_ret.
  - repeat step_frame.
Qed.

(** mining.submit reads the work templates and the second-stage jobs and
    never writes them: whatever the share, and whether the handler returns
    or throws, both maps are as they were. *)
Theorem stratum_mining_submit_caches env params wt ss :
  preserves (fun s => work_templates s = wt /\ second_stages s = ss)
            (stratum_mining_submit env params).
Proof.
  unfold stratum_mining_submit, SubmitBlock, SubmitSecondStage, SubmitAuxProofs.
  pose proof (fun hash auxproof items =>
                SubmitAuxShares_caches env hash auxproof items wt ss) as Haux.
  repeat (first [step_frame|apply Haux]).
Qed.

Lemma block_calls_app tr tr' : block_calls (tr ++ tr') = block_calls tr ++ block_calls tr'.
Proof. unfold block_calls. apply List.filter_app. Qed.

Lemma SubmitAuxShares_block_calls env hash auxproof items c tr :
  preserves (fun s => client s = c /\ block_calls (trace s) = tr)
            (SubmitAuxShares env hash auxproof items).
Proof.
  induction items as [|[chainid auxwork] items IH]; simpl.
  - apply preserves_ret.
  - repeat (first [step_frame
                  |progress (cbn [trace add_event]; rewrite block_calls_app; cbn;
                             rewrite app_nil_r)]).
Qed.

Lemma SubmitAuxProofs_block_calls env work mmroot cb bf blkhdr hash c tr :
  preserves (fun s => client s = c /\ block_calls (trace s) = tr)
            (SubmitAuxProofs env work mmroot cb bf blkhdr hash).
Proof.
  unfold SubmitAuxProofs.
  pose proof (fun hash auxproof items =>
                SubmitAuxShares_block_calls env hash auxproof items c tr) as Haux.
  repeat (first [step_frame|apply Haux]).
Qed.

(** What [SubmitBlock] returns is the answer of [ProcessNewBlock] when the
    header meets its own target, and [false] when it does not: the block is
    handed over at most once, with the time, nonce and version of the share
    and the target and parent of the template, and the session is marked
    for new work exactly when the block was accepted. *)
Theorem SubmitBlock_result env job mmroot work extranonce2 t n v s res s' :
  SubmitBlock env job mmroot work extranonce2 t n v s = (Ret res, s') ->
  m_send_work (client s') = res || m_send_work (client s)
  /\ ((res = false /\ block_calls (trace s') = block_calls (trace s))
      \/ exists block,
           block_calls (trace s') = block_calls (trace s) ++ [Call_ProcessNewBlock block]
           /\ res = ProcessNewBlock env block
           /\ nTime (header block) = t /\ nNonce (header block) = n
           /\ nVersion (header block) = v
           /\ nBits (header block) = nBits (header (GetBlock work))
           /\ hashPrevBlock (header block) = hashPrevBlock (header (GetBlock work))).
Proof.
  intros Hrun. unfold SubmitBlock in Hrun.
  repeat inv_ret.
  all: match goal with
       | Haux : SubmitAuxProofs _ _ _ _ _ _ _ ?s0 = (_, ?s1) |- _ =>
           pose proof (SubmitAuxProofs_block_calls _ _ _ _ _ _ _ _ _ _ _ _ Haux
                         (conj eq_refl eq_refl)) as [Hc Htr]
       end.
  all: cbn [client trace set_client add_event m_send_work set_m_send_work] in *.
  all: rewrite ?Hc, ?Htr, ?block_calls_app.
  all: cbn [client trace set_client add_event m_send_work set_m_send_work
            block_calls List.filter is_block_call app].
  all: rewrite ?app_nil_r.
  all: split; [try reflexivity|].
  all: try (left; split; reflexivity).
  all: right; eexists; split; [reflexivity|];
       split; [first [assumption|symmetry; assumption|reflexivity]|].
  all: unfold set_nTime_nNonce_nVersion, set_hashMerkleRoot, set_vtx.
  all: cbn [header nTime nNonce nVersion nBits hashPrevBlock].
  all: split_and!; reflexivity.
Qed.

(** A share whose header misses the target of the parent chain is never
    handed to [ProcessNewBlock]. *)
Theorem SubmitBlock_without_proof_of_work env job mmroot work extranonce2 t n v s res s' :
  (forall hash nBits', CheckProofOfWork env hash nBits' 0 = false) ->
  SubmitBlock env job mmroot work extranonce2 t n v s = (Ret res, s') ->
  res = false
  /\ block_calls (trace s') = block_calls (trace s)
  /\ m_send_work (client s') = m_send_work (client s).
Proof.
  intros Hpow Hrun. unfold SubmitBlock in Hrun.
  repeat inv_ret.
  all: try match goal with
           | Hcheck : CheckProofOfWork _ _ _ 0 = true |- _ =>
               rewrite Hpow in Hcheck; discriminate
           end.
  all: match goal with
       | Haux : SubmitAuxProofs _ _ _ _ _ _ _ ?s0 = (_, ?s1) |- _ =>
           pose proof (SubmitAuxProofs_block_calls _ _ _ _ _ _ _ _ _ _ _ _ Haux
                         (conj eq_refl eq_refl)) as [Hc Htr]
       end.
  all: cbn [client trace set_client add_event m_send_work set_m_send_work] in *.
  all: rewrite ?Hc, ?Htr, ?block_calls_app.
  all: cbn [client trace set_client add_event m_send_work set_m_send_work
            block_calls List.filter is_block_call app].
  all: rewrite ?app_nil_r.
  all: split_and!; reflexivity.
Qed.

End SubmitMore.

(** ** Work for a second stage *)

Section SecondStageMore.
Context `{Externals}.

Lemma NotifySecondStage_run env s item :
  vNodes_empty env && negb (MineBlocksOnDemand env) = false ->
  IsInitialBlockDownload env = false ->
  m_authorized (client s) = true ->
  GetSecondStageWork env (fst <$> m_last_second_stage (client s)) = Some item ->
  exists req id_diff diff id params s',
    GetWorkUnit env s
    = (Ret (req ++ [set_difficulty id_diff diff; mining_notify id params]), s')
    /\ second_stages s' !! ss_job_id (snd item) = Some item
    /\ m_last_second_stage (client s') = Some (fst item, ss_hashPrevBlock (snd item))
    /\ np_job_id params = ":" +:+ ss_job_id (snd item)
    /\ np_clean_jobs params
       = negb (bool_decide (m_last_second_stage (client s)
                            = Some (fst item, ss_hashPrevBlock (snd item))))
    /\ work_templates s' = work_templates s.
Proof.
  intros Hnodes Hibd Hauth Hss.
  unfold GetWorkUnit, bind, gets. rewrite Hnodes, Hibd, Hauth, Hss. cbn [negb].
  unfold NotifySecondStage, GetExtraNonceRequest, next_id, bind, gets, modify_client,
    modify, ret.
  cbn [client set_client set_second_stages m_supports_extranonce set_m_nextid
       set_m_last_second_stage m_nextid].
  destruct (m_supports_extranonce (client s)); do 6 eexists.
  all: split; [reflexivity|].
  all: cbn [client set_client set_second_stages second_stages work_templates
            m_last_second_stage set_m_last_second_stage set_m_nextid
            np_job_id np_clean_jobs].
  all: rewrite lookup_insert_eq; split_and!; reflexivity.
Qed.

(** For an authorized session of a node that is connected and in step with
    the chain, [GetWorkUnit] with second-stage work at hand always returns:
    the job is on record under its own name, the session remembers chain
    and parent block, and the notification asks the miner to drop its jobs
    unless the session was already working on that chain and parent.  The
    work templates are not touched. *)
Theorem GetWorkUnit_second_stage env s item :
  vNodes_empty env && negb (MineBlocksOnDemand env) = false ->
  IsInitialBlockDownload env = false ->
  m_authorized (client s) = true ->
  GetSecondStageWork env (fst <$> m_last_second_stage (client s)) = Some item ->
  exists req id_diff diff id params s',
    GetWorkUnit env s
    = (Ret (req ++ [set_difficulty id_diff diff; mining_notify id params]), s')
    /\ second_stages s' !! ss_job_id (snd item) = Some item
    /\ m_last_second_stage (client s') = Some (fst item, ss_hashPrevBlock (snd item))
    /\ np_job_id params = ":" +:+ ss_job_id (snd item)
    /\ np_clean_jobs params
       = negb (bool_decide (m_last_second_stage (client s)
                            = Some (fst item, ss_hashPrevBlock (snd item))))
    /\ work_templates s' = work_templates s.
Proof. apply NotifySecondStage_run. Qed.

End SecondStageMore.

(** ** The read callback *)

Section ReadCallback.
Context `{Externals}.

Lemma stratum_dispatch_no_throw env method params :
  throws_only (fun _ => False) (stratum_dispatch env method params).
Proof.
  intros s e s' Hrun. unfold stratum_dispatch in Hrun.
  destruct (stratum_method_dispatch env method) as [handler|]; [|discriminate].
  destruct (handler params s) as [[v|[code message|w]|f] s1]; discriminate.
Qed.

Lemma stratum_request_no_throw env line :
  throws_only (fun _ => False) (stratum_request env line).
Proof.
  unfold stratum_request.
  repeat (first [step_throws|apply stratum_dispatch_no_throw]).
  intros s e s' Hrun. discriminate.
Qed.

Lemma stratum_requests_no_throw env lines :
  throws_only (fun _ => False) (stratum_requests env lines).
Proof.
  induction lines as [|line lines IH]; simpl.
  - apply throws_only_ret.
  - repeat (first [step_throws|apply stratum_request_no_throw|apply IH]).
Qed.

Lemma TryGetWorkUnit_no_throw env : throws_only (fun _ => False) (TryGetWorkUnit env).
Proof.
  intros s e s' Hrun. unfold TryGetWorkUnit in Hrun.
  destruct (GetWorkUnit env s) as [[v|[code message|w]|f] s1]; discriminate.
Qed.

Lemma SendWork_no_throw env add_fails :
  throws_only (fun _ => False) (SendWork env add_fails).
Proof.
  unfold SendWork. repeat (first [step_throws|apply TryGetWorkUnit_no_throw]).
Qed.

Lemma SendWork_clears env add_fails s data s' :
  SendWork env add_fails s = (Ret data, s') -> m_send_work (client s') = false.
Proof.
  unfold SendWork. intros Hrun. repeat inv_ret; first [assumption|reflexivity].
Qed.

(** No exception leaves [stratum_read_cb]: whatever the lines received,
    each is answered or skipped; and when the callback returns, the session
    is no longer marked for new work. *)
Theorem stratum_read_cb_contained env lines add_fails s out s' :
  stratum_read_cb env lines add_fails s = (out, s') ->
  (forall e, out <> Throw e)
  /\ (forall v, out = Ret v -> m_send_work (client s') = false).
Proof.
  intros Hrun. split.
  - intros e ->. revert Hrun. unfold stratum_read_cb.
    assert (Hno : throws_only (fun _ => False) (stratum_read_cb env lines add_fails)).
    { unfold stratum_read_cb.
      repeat (first [apply stratum_requests_no_throw|apply SendWork_no_throw|step_throws]). }
    intros Hrun. exact (Hno _ _ _ Hrun).
  - intros v ->. unfold stratum_read_cb in Hrun. repeat inv_ret.
    eapply SendWork_clears; eassumption.
Qed.

Lemma stratum_request_send_work env line :
  preserves (fun s => m_send_work (client s) = true) (stratum_request env line).
Proof.
  unfold stratum_request.
  repeat (first [apply (stratum_dispatch_session (fun c => m_send_work c = true));
                 try (intros; assumption); try (intros; reflexivity)
                |step_frame]).
  intros s out s' Hrun. inversion Hrun; subst. done.
Qed.

Lemma stratum_requests_send_work env lines :
  preserves (fun s => m_send_work (client s) = true) (stratum_requests env lines).
Proof.
  induction lines as [|line lines IH]; simpl.
  - apply preserves_ret.
  - repeat (first [apply stratum_request_send_work|apply IH|step_frame]).
Qed.

(** A mark for new work that a request has set stays until the end of the
    callback, whatever requests follow on later lines; and a callback that
    starts with the mark set ends up sending work, or the error
    [GetWorkUnit] raised, once. *)
Theorem stratum_read_cb_sends_pending_work env lines add_fails :
  preserves (fun s => m_send_work (client s) = true) (stratum_requests env lines)
  /\ forall s replies data s',
       m_send_work (client s) = true ->
       stratum_read_cb env lines add_fails s = (Ret (replies, data), s') ->
       is_Some data.
Proof.
  split; [apply stratum_requests_send_work|].
  intros s replies data s' Hs Hrun. unfold stratum_read_cb in Hrun. repeat inv_ret.
  match goal with
  | Hreq : stratum_requests _ _ _ = (_, ?s1) |- _ =>
      pose proof (stratum_requests_send_work _ _ _ _ _ Hreq Hs) as Hs1
  end.
  match goal with
  | Hsend : SendWork _ _ _ = _ |- _ => unfold SendWork in Hsend
  end.
  repeat inv_ret; first [by eexists|congruence].
Qed.

Ltac not_that :=
  let m := fresh in let Heq := fresh in intros (m & Heq); discriminate Heq.

Lemma AuxWorkMerkleRoot_throws mmwork e :
  AuxWorkMerkleRoot mmwork = Throw e -> ~ is_not_authorized e.
Proof.
  unfold AuxWorkMerkleRoot. repeat case_match; intros Heq; inversion Heq; subst; not_that.
Qed.

Lemma CustomizeCoinbase_throws c work job cb e :
  CustomizeCoinbase c work job cb = Throw e -> ~ is_not_authorized e.
Proof.
  unfold CustomizeCoinbase. repeat case_match; intros Heq; inversion Heq.
Qed.

Lemma SplitCoinbase_throws ds e :
  SplitCoinbase ds = Throw e -> ~ is_not_authorized e.
Proof.
  unfold SplitCoinbase. repeat case_match; intros Heq; inversion Heq; subst; not_that.
Qed.

Ltac lift_not_that :=
  apply throws_only_lift; intros ? Hthrow;
  first [ by eapply AuxWorkMerkleRoot_throws
        | by eapply CustomizeCoinbase_throws
        | by eapply SplitCoinbase_throws
        | by apply UpdateSegwitCommitment_no_throw in Hthrow ].

Lemma GetWorkUnit_authorized env s e s' :
  m_authorized (client s) = true ->
  GetWorkUnit env s = (Throw e, s') ->
  ~ is_not_authorized e.
Proof.
  intros Hauth Hrun. unfold GetWorkUnit in Hrun.
  rewrite bind_gets, Hauth in Hrun. cbn [negb] in Hrun.
  match type of Hrun with
  | ?m s = _ => assert (Hrest : throws_only (fun e => ~ is_not_authorized e) m)
  end.
  { unfold NotifySecondStage, GetExtraNonceRequest, next_id, RebuildTemplate,
      AssembleWork, AddMergeMineCommitment.
    repeat (first [step_throws|lift_not_that
                  |progress unfold next_id, GetExtraNonceRequest]);
      try not_that. }
  exact (Hrest _ _ _ Hrun).
Qed.

Lemma stratum_requests_authorized env lines :
  preserves (fun s => m_authorized (client s) = true) (stratum_requests env lines).
Proof.
  induction lines as [|line lines IH]; simpl.
  - apply preserves_ret.
  - unfold stratum_request.
    repeat (first [apply (stratum_dispatch_session (fun c => m_authorized c = true));
                   try (intros; assumption); try (intros; reflexivity)
                  |apply IH|step_frame]).
    intros s out s' Hrun. inversion Hrun; subst. done.
Qed.

(** A callback that starts with a session just authorized, that is
    authorized and marked for work, sends work at its end whatever the
    lines in between: a work unit, or an error of the node, never the
    refusal for sessions that are not authorized. *)
Theorem stratum_read_cb_after_authorize env lines add_fails s replies data s' :
  m_authorized (client s) = true ->
  m_send_work (client s) = true ->
  stratum_read_cb env lines add_fails s = (Ret (replies, data), s') ->
  exists d,
    data = Some d
    /\ forall message, d <> WorkError RPC_INVALID_REQUEST message.
Proof.
  intros Hauth Hsend Hrun. unfold stratum_read_cb in Hrun. repeat inv_ret.
  match goal with
  | Hreq : stratum_requests _ _ _ = (_, ?s1) |- _ =>
      pose proof (stratum_requests_send_work _ _ _ _ _ Hreq Hsend) as Hsend1;
      pose proof (stratum_requests_authorized _ _ _ _ _ Hreq Hauth) as Hauth1
  end.
  match goal with
  | Hw : SendWork _ _ _ = _ |- _ => unfold SendWork in Hw
  end.
  repeat inv_ret; try congruence.
  all: eexists; split; [reflexivity|].
  all: cbv beta in Hauth1.
  all: unfold TryGetWorkUnit in Hrun.
  all: destruct (GetWorkUnit env s0) as [[?|[? ?|?]|?] ?] eqn:Hg.
  all: inversion Hrun; subst; intros ?; try discriminate.
  all: intros Heq; inversion Heq; subst.
  all: eapply GetWorkUnit_authorized; [exact Hauth1|exact Hg|by eexists].
Qed.

End ReadCallback.

(** ** The block watcher *)

Section Watcher.
Context `{Externals}.

(** [AuxWorkMerkleRoot] is called by the watcher outside its [try] block:
    for a session authorized for chains that have more than one commitment
    to offer, and without second-stage work, its [std::runtime_error]
    leaves [BlockWatcher] uncaught, before any work is sent. *)
Theorem BlockWatcher_client_many_commitments env add_fails s :
  m_authorized (client s) = true ->
  GetSecondStageWork env (fst <$> m_last_second_stage (client s)) = None ->
  (1 < size (GetMergeMineWork env (m_mmauth (client s))))%nat ->
  BlockWatcher_client env add_fails s
  = (Throw (runtime_error MoreThanOneCommitment), s).
Proof.
  intros Hauth Hss Hsize. unfold BlockWatcher_client.
  rewrite bind_gets, Hauth, Hss. cbn [negb].
  unfold bind, lift, AuxWorkMerkleRoot.
  destruct (size _) as [|[|n]]; [lia|lia|]. reflexivity.
Qed.

(** For a session that does no merge mining (no auxiliary work, no bundle
    under the zero root) the watcher has no way to tell that the session
    already works on the tip: an authorized session without second-stage
    work is sent work on every turn. *)
Theorem BlockWatcher_client_without_merge_mining env add_fails s out s' :
  m_authorized (client s) = true ->
  GetSecondStageWork env (fst <$> m_last_second_stage (client s)) = None ->
  GetMergeMineWork env (m_mmauth (client s)) = ∅ ->
  m_mmwork (client s) !! uint256_zero = None ->
  BlockWatcher_client env add_fails s = (out, s') ->
  out <> Ret None
  /\ exists out1 s1,
       GetWorkUnit env s = (out1, s1)
       /\ match out1 with
          | Ret data => out = Ret (Some (WorkUnit data))
          | Throw (JSONRPCError code message) =>
              out = Ret (Some (WorkError code message))
          | Throw (runtime_error w) =>
              out = Ret (Some (WorkError RPC_INTERNAL_ERROR
                                 ("Error generating updated work for stratum client: "
                                  +:+ what_message w)))
          | Abort f => out = Abort f
          end.
Proof.
  intros Hauth Hss Hmm Hzero. unfold BlockWatcher_client.
  rewrite bind_gets, Hauth, Hss, Hmm. cbn [negb].
  unfold AuxWorkMerkleRoot. rewrite map_size_empty. cbn [Nat.eqb].
  unfold bind at 1. unfold bind at 1. unfold lift, ret. rewrite Hzero.
  rewrite (bool_decide_eq_false_2 (is_Some None)) by (intros [? ?]; discriminate).
  rewrite andb_false_r.
  unfold bind, TryGetUpdatedWork, log, emit, modify.
  destruct (GetWorkUnit env s) as [[data|[code message|w]|f] s1] eqn:Hg.
  all: destruct add_fails; intros Hrun; inversion Hrun; subst.
  all: split; [discriminate|]; do 2 eexists; split; reflexivity.
Qed.

End Watcher.

(** ** Bundles on record *)

Section Bundles.
Context `{Externals}.

(** When the job is given a merge-mining root, the bundle of auxiliary work
    is on record under that root: the one stored when the root was first
    seen, time stamp included, or else the fresh one with the time of the
    node. *)
Theorem AddMergeMineCommitment_on_record env work bf s bf' mmroot s' :
  AddMergeMineCommitment env work bf s = (Ret (bf', true, mmroot), s') ->
  AuxWorkMerkleRoot (GetMergeMineWork env (m_mmauth (client s))) = Ret mmroot
  /\ m_mmwork (client s') !! mmroot
     = Some (default (to_uint64 (GetTimeMillis env),
                      GetMergeMineWork env (m_mmauth (client s)))
                     (m_mmwork (client s) !! mmroot)).
Proof.
  intros Hrun. unfold AddMergeMineCommitment in Hrun.
  repeat inv_ret.
  all: cbn [client set_client add_event m_mmwork set_m_mmwork].
  all: split; [done|].
  - rewrite lookup_insert_eq.
    match goal with
    | Hb : bool_decide _ = true |- _ => apply bool_decide_eq_true in Hb; rewrite Hb
    end. reflexivity.
  - match goal with
    | Hb : bool_decide _ = false |- _ => apply bool_decide_eq_false in Hb
    end.
    destruct (m_mmwork (client s) !! _); [reflexivity|done].
Qed.

End Bundles.

(** ** The header of a share *)

Section ShareHeader.
Context `{Externals}.
Context {Work Shares : Type}.
Variable ser_version ser_bits ser_height ser_nLockTime : Z -> bytes.
Variable ser_total_work : Work -> bytes.
Variable ser_varint : Z -> bytes.
Variable Shares_GetHash : Shares -> uint256.
Variable CHashWriter_GetHash : nat -> bytes -> uint256.
Variable ComputeMerkleMapRootFromBranch_invalid :
  uint256 -> list (byte * uint256) -> uint256 -> uint256 * bool.

(** The hash that [Share::GetBlockHeader] takes up the Merkle branch is the
    second [GetHash] of the writer of the share header, not the hash of the
    coinbase it has just put together: the first half of the coinbase, the
    lock time and the commitment branch of the witness have no part in the
    header.  Two shares with the same head whose witnesses agree on the
    branch and on the five header fields have the same header. *)
Theorem Share_GetBlockHeader_ignores_coinbase
    (share share' : Share Work Shares) (mutated mutated' : bool) :
  sh_version share = sh_version share' ->
  sh_bits share = sh_bits share' ->
  sh_height share = sh_height share' ->
  sh_total_work share = sh_total_work share' ->
  sh_prev_shares share = sh_prev_shares share' ->
  sh_miner share = sh_miner share' ->
  sw_branch (sh_wit share) = sw_branch (sh_wit share') ->
  sw_nVersion (sh_wit share) = sw_nVersion (sh_wit share') ->
  sw_hashPrevBlock (sh_wit share) = sw_hashPrevBlock (sh_wit share') ->
  sw_nTime (sh_wit share) = sw_nTime (sh_wit share') ->
  sw_nBits (sh_wit share) = sw_nBits (sh_wit share') ->
  sw_nNonce (sh_wit share) = sw_nNonce (sh_wit share') ->
  fst (Share_GetBlockHeader ser_version ser_bits ser_height ser_nLockTime
         ser_total_work ser_varint Shares_GetHash CHashWriter_GetHash
         ComputeMerkleMapRootFromBranch_invalid share mutated)
  = fst (Share_GetBlockHeader ser_version ser_bits ser_height ser_nLockTime
           ser_total_work ser_varint Shares_GetHash CHashWriter_GetHash
           ComputeMerkleMapRootFromBranch_invalid share' mutated').
Proof.
  intros Hv Hb Hh Hw Hp Hm Hbranch HnV HhP HnT HnB HnN.
  unfold Share_GetBlockHeader.
  do 2 destruct (ComputeMerkleMapRootFromBranch_invalid _ _ _).
  cbn [fst]. rewrite Hv, Hb, Hh, Hw, Hp, Hm, Hbranch, HnV, HhP, HnT, HnB, HnN.
  reflexivity.
Qed.

End ShareHeader.

(** ** Second-stage jobs, from the watcher to the share *)

Lemma substring_all s : substring 0 (String.length s) s = s.
Proof. induction s as [|c s IH]; simpl; [done|]. by rewrite IH. Qed.

Lemma string_from_1 c s : string_from 1 (String c s) = s.
Proof. unfold string_from. simpl. rewrite Nat.sub_0_r. apply substring_all. Qed.

Section SecondStageRoundTrip.
Context `{Externals}.

(** Every second-stage job the watcher pushes to a session asks the miner
    to drop its earlier jobs: the watcher skips the session exactly when
    the notification would say otherwise. *)
Theorem BlockWatcher_client_second_stage_clean env add_fails s item msgs s' :
  GetSecondStageWork env (fst <$> m_last_second_stage (client s)) = Some item ->
  BlockWatcher_client env add_fails s = (Ret (Some (WorkUnit msgs)), s') ->
  exists req id_diff diff id params,
    msgs = req ++ [set_difficulty id_diff diff; mining_notify id params]
    /\ np_job_id params = ":" +:+ ss_job_id (snd item)
    /\ np_clean_jobs params = true.
Proof.
  intros Hss Hrun. unfold BlockWatcher_client in Hrun.
  rewrite bind_gets, Hss in Hrun.
  destruct (negb (m_authorized (client s))) eqn:Hauth; [discriminate|].
  apply negb_false_iff in Hauth.
  destruct (bool_decide _) eqn:Hlast; [discriminate|].
  unfold bind at 1 in Hrun. unfold ret at 1 in Hrun.
  unfold bind at 1 in Hrun. unfold TryGetUpdatedWork in Hrun.
  destruct (vNodes_empty env && negb (MineBlocksOnDemand env)) eqn:Hnodes.
  { unfold GetWorkUnit in Hrun. rewrite bind_gets, Hnodes in Hrun.
    unfold throw in Hrun. destruct add_fails; discriminate. }
  destruct (IsInitialBlockDownload env) eqn:Hibd.
  { unfold GetWorkUnit in Hrun. rewrite bind_gets, Hnodes, Hibd in Hrun.
    unfold throw in Hrun. destruct add_fails; discriminate. }
  destruct (NotifySecondStage_run env s item Hnodes Hibd Hauth Hss)
    as (req & id_diff & diff & id & params & s1 & Hg & _ & _ & Hjob & Hclean & _).
  rewrite Hg in Hrun.
  exists req, id_diff, diff, id, params.
  split; [|split; [exact Hjob|by rewrite Hclean, Hlast]].
  unfold bind, log, emit, modify in Hrun.
  destruct add_fails; inversion Hrun; reflexivity.
Qed.

(** A second-stage job that [GetWorkUnit] has sent out can be submitted:
    mining.submit with the job name after the colon, a four-byte extranonce2
    and well-formed time and nonce finds the job and returns [true],
    whatever the hash of the share. *)
Theorem second_stage_round_trip env env' s item params extranonce2 t n :
  vNodes_empty env && negb (MineBlocksOnDemand env) = false ->
  IsInitialBlockDownload env = false ->
  m_authorized (client s) = true ->
  GetSecondStageWork env (fst <$> m_last_second_stage (client s)) = Some item ->
  UniValue_size params = 5%nat ->
  UniValue_index params 1 = VSTR (":" +:+ ss_job_id (snd item)) ->
  ParseHexV_bytes (UniValue_index params 2) = Some extranonce2 ->
  length extranonce2 = 4%nat ->
  ParseHexInt4 (UniValue_index params 3) "nTime" = Ret t ->
  ParseHexInt4 (UniValue_index params 4) "nNonce" = Ret n ->
  exists msgs s1 res s2,
    GetWorkUnit env s = (Ret msgs, s1)
    /\ SubmitSecondStage env' (fst item) (snd item) extranonce2 t n
         (to_uint32 (ss_nVersion (snd item))) s1 = (Ret res, s2)
    /\ stratum_mining_submit env' params s1 = (Ret (VBOOL true), s2).
Proof.
  intros Hnodes Hibd Hauth Hss Hsize Hid He2 Hlen Ht Hn.
  destruct (NotifySecondStage_run env s item Hnodes Hibd Hauth Hss)
    as (req & id_diff & diff & id & np & s1 & Hg & Hjob & _).
  assert (Hsecond : exists res s2,
             SubmitSecondStage env' (fst item) (snd item) extranonce2 t n
               (to_uint32 (ss_nVersion (snd item))) s1 = (Ret res, s2)).
  { unfold SubmitSecondStage. rewrite bind_gets.
    destruct (m_mmauth (client s1) !! fst item) as [[username password]|].
    - unfold bind, emit, logf, modify, modify_client, ret.
      destruct (CheckProofOfWork _ _ _ _); eauto.
    - unfold bind, log, emit, modify, ret. eauto. }
  destruct Hsecond as (res & s2 & Hsecond).
  exists (req ++ [set_difficulty id_diff diff; mining_notify id np]), s1, res, s2.
  split; [exact Hg|]. split; [exact Hsecond|].
  unfold stratum_mining_submit, BoundParams. rewrite Hsize. cbn [Nat.ltb Nat.leb].
  unfold bind at 1. unfold lift at 1.
  rewrite Hid. unfold bind at 1. unfold lift at 1. cbn [get_str].
  unfold ParseHexV. rewrite He2. unfold bind at 1. unfold lift at 1.
  rewrite Hlen. cbn [Nat.eqb negb].
  rewrite Ht. unfold bind at 1. unfold lift at 1.
  rewrite Hn. unfold bind at 1. unfold lift at 1.
  change (":" +:+ ss_job_id (snd item)) with (String ":" (ss_job_id (snd item))).
  cbn [String.get]. rewrite bool_decide_eq_true_2 by reflexivity.
  rewrite string_from_1, bind_gets, Hjob.
  destruct item as [chainid work]. cbn [fst snd] in *.
  rewrite bind_gets. cbn [Nat.ltb Nat.leb].
  unfold bind at 1. unfold ret at 1.
  unfold bind at 1. rewrite Hsecond. reflexivity.
Qed.

End SecondStageRoundTrip.

(** ** When mining.authorize does not answer *)

Lemma find_char_Some c start s pos :
  find_char c start s = Some pos -> (start <= pos)%nat /\ String.get pos s = Some c.
Proof.
  revert start pos. induction s as [|x rest IH]; intros start pos; simpl; [done|].
  destruct start as [|start'].
  - destruct (bool_decide (x = c)) eqn:Hx.
    + intros [= <-]. apply bool_decide_eq_true in Hx. subst. split; [lia|done].
    + destruct (find_char c 0 rest) as [p|] eqn:Hp; simpl; [|done].
      intros [= <-]. apply IH in Hp as [_ Hp]. split; [lia|done].
  - destruct (find_char c start' rest) as [p|] eqn:Hp; simpl; [|done].
    intros [= <-]. apply IH in Hp as [Hle Hp]. split; [lia|done].
Qed.

Lemma get_Some_length pos s c : String.get pos s = Some c -> (pos < String.length s)%nat.
Proof.
  revert pos. induction s as [|x rest IH]; intros pos; simpl; [done|].
  destruct pos as [|pos]; [lia|]. intros Hget. apply IH in Hget. lia.
Qed.

Lemma trim_left_empty s i c :
  trim_left s = EmptyString -> String.get i s = Some c -> isspace c = true.
Proof.
  revert i. induction s as [|x rest IH]; intros i; simpl; [done|].
  destruct (isspace x) eqn:Hx; [|done].
  intros Hrest. destruct i as [|i]; [by intros [= <-]|]. by apply IH.
Qed.

Lemma trim_right_empty s i c :
  trim_right s = EmptyString -> String.get i s = Some c -> isspace c = true.
Proof.
  revert i. induction s as [|x rest IH]; intros i; simpl; [done|].
  destruct (trim_right rest) eqn:Hrest; [|done].
  destruct (isspace x) eqn:Hx; [|done].
  intros _. destruct i as [|i]; [by intros [= <-]|]. by apply IH.
Qed.

Lemma trim_right_nonspace s :
  trim_right s <> EmptyString ->
  exists i c, String.get i (trim_right s) = Some c /\ isspace c = false.
Proof.
  induction s as [|x rest IH]; simpl; [done|].
  destruct (trim_right rest) as [|y rest'] eqn:Hrest.
  - destruct (isspace x) eqn:Hx; [done|]. intros _. by exists 0%nat, x.
  - intros _. destruct IH as (i & c & Hget & Hc); [done|].
    by exists (S i), c.
Qed.

(** Only blanks are trimmed away. *)
Lemma trim_empty s i c :
  trim s = EmptyString -> String.get i s = Some c -> isspace c = true.
Proof.
  unfold trim. intros Htrim.
  destruct (string_dec (trim_right s) EmptyString) as [Hr|Hr].
  - by apply trim_right_empty.
  - destruct (trim_right_nonspace s Hr) as (j & d & Hget & Hd).
    pose proof (trim_left_empty _ _ _ Htrim Hget). congruence.
Qed.

Section AbortsOnly.
Context {P : fault -> Prop}.

Lemma aborts_only_ret {A} (a : A) : aborts_only P (ret a).
Proof. intros s f s' Heq. discriminate. Qed.

Lemma aborts_only_throw {A} (e : exn) : aborts_only P (@throw A e).
Proof. intros s f s' Heq. discriminate. Qed.

Lemma aborts_only_gets {A} (g : State -> A) : aborts_only P (gets g).
Proof. intros s f s' Heq. discriminate. Qed.

Lemma aborts_only_modify (g : State -> State) : aborts_only P (modify g).
Proof. intros s f s' Heq. discriminate. Qed.

Lemma aborts_only_lift {A} (o : outcome A) :
  (forall f, o <> Abort f) -> aborts_only P (lift o).
Proof. intros Ho s f s' Heq. inversion Heq; subst. by destruct (Ho f). Qed.

Lemma aborts_only_bind {A B} (m : M A) (k : A -> M B) :
  aborts_only P m -> (forall a, aborts_only P (k a)) -> aborts_only P (bind m k).
Proof.
  intros Hm Hk s f s' Heq.
  apply bind_inv in Heq as [(a & s1 & _ & Hka)|[(e & _ & He)|(f' & Hmf & Hf)]].
  - by eapply Hk.
  - discriminate.
  - inversion Hf; subst. by eapply Hm.
Qed.

End AbortsOnly.

Ltac step_aborts :=
  match goal with
  | |- aborts_only _ (bind _ _) => apply aborts_only_bind; [|intros ?]
  | |- aborts_only _ (ret _) => apply aborts_only_ret
  | |- aborts_only _ (gets _) => apply aborts_only_gets
  | |- aborts_only _ (modify _) => apply aborts_only_modify
  | |- aborts_only _ (modify_client _) => apply aborts_only_modify
  | |- aborts_only _ (emit _) => apply aborts_only_modify
  | |- aborts_only _ (emit_all _) => apply aborts_only_modify
  | |- aborts_only _ (log _ _) => apply aborts_only_modify
  | |- aborts_only _ (logf _) => apply aborts_only_modify
  | |- aborts_only _ (throw _) => apply aborts_only_throw
  | |- aborts_only _ (if ?b then _ else _) => destruct b eqn:?
  | |- aborts_only _ (match ?x with _ => _ end) => destruct x eqn:?
  | |- aborts_only _ (let '(_, _) := ?x in _) => destruct x eqn:?
  end.

Section AuthorizeAnswers.
Context `{Externals}.

(** Past the first option the loop that cuts the password always comes to
    its end: an option taken from a later start holds the comma it was cut
    at, hence is not blank, and every turn moves on past one comma. *)
Lemma split_password_returns fuel password start opts :
  (1 <= start)%nat ->
  (String.length password <= fuel + start)%nat ->
  exists res, split_password fuel password start opts = Ret res.
Proof.
  revert start opts. induction fuel as [|fuel IH]; intros start opts Hstart Hfuel.
  all: simpl; destruct (find_char "," start password) as [pos|] eqn:Hpos; [|by eauto].
  all: pose proof (find_char_Some _ _ _ _ Hpos) as [Hle Hget].
  all: pose proof (get_Some_length _ _ _ Hget) as Hlt.
  - lia.
  - rewrite bool_decide_eq_false_2; [apply IH; lia|].
    intros Hblank.
    assert (Hcomma : String.get (pos - start) (substring start pos password)
                     = Some ","%char).
    { rewrite substring_correct1 by lia.
      replace (pos - start + start)%nat with pos by lia. exact Hget. }
    pose proof (trim_empty _ _ _ Hblank Hcomma). discriminate.
Qed.

Lemma split_password_outcome password f :
  split_password (String.length password) password 0 [] = Abort f ->
  f = NonTermination
  /\ exists pos,
       find_char "," 0 password = Some pos
       /\ trim (substring 0 pos password) = EmptyString.
Proof.
  destruct (String.length password) as [|fuel] eqn:Hlen; simpl.
  all: destruct (find_char "," 0 password) as [pos|] eqn:Hpos; [|done].
  all: pose proof (find_char_Some _ _ _ _ Hpos) as [_ Hget].
  all: apply get_Some_length in Hget.
  all: destruct (bool_decide _) eqn:Hblank.
  - intros [= <-]. apply bool_decide_eq_true in Hblank. eauto.
  - lia.
  - intros [= <-]. apply bool_decide_eq_true in Hblank. eauto.
  - destruct (split_password_returns fuel password (pos + 1)
                [trim (substring 0 pos password)]) as [res Hres]; [lia|lia|].
    rewrite Hres. done.
Qed.

Lemma authorize_option_aborts mmauth opt :
  aborts_only (fun _ => False) (authorize_option mmauth opt).
Proof.
  unfold authorize_option.
  repeat (first [step_aborts
                |apply aborts_only_lift; unfold ParseUInt256; repeat case_match; done]).
Qed.

Lemma authorize_options_aborts opts mmauth :
  aborts_only (fun _ => False) (authorize_options mmauth opts).
Proof.
  revert mmauth. induction opts as [|opt opts IH]; intros mmauth; simpl.
  - apply aborts_only_ret.
  - apply aborts_only_bind; [apply authorize_option_aborts|intros ?; apply IH].
Qed.

(** The blank first option is the only way for mining.authorize not to
    answer: whenever the handler neither returns nor throws, it is caught
    in the loop over the options of a password that starts, blanks apart,
    with a comma. *)
Theorem stratum_mining_authorize_answers params s f s' :
  stratum_mining_authorize params s = (Abort f, s') ->
  f = NonTermination
  /\ exists password pos,
       get_str (UniValue_index params 1) = Ret password
       /\ find_char "," 0 (trim password) = Some pos
       /\ trim (substring 0 pos (trim password)) = EmptyString.
Proof.
  intros Hrun. unfold stratum_mining_authorize in Hrun.
  unfold bind at 1 in Hrun. unfold lift at 1 in Hrun.
  destruct (BoundParams _ _ _ _) eqn:Hb;
    [|discriminate|unfold BoundParams in Hb; repeat case_match; discriminate].
  unfold bind at 1 in Hrun. unfold lift at 1 in Hrun.
  destruct (get_str (UniValue_index params 0)) as [username| |] eqn:Hu;
    [|discriminate|destruct (UniValue_index params 0); discriminate].
  unfold bind at 1 in Hrun. unfold lift at 1 in Hrun.
  destruct (get_str (UniValue_index params 1)) as [password| |] eqn:Hp;
    [|discriminate|destruct (UniValue_index params 1); discriminate].
  unfold bind at 1 in Hrun. unfold lift at 1 in Hrun.
  destruct (split_password _ _ _ _) as [[opts start]|e|f'] eqn:Hsplit; [|discriminate|].
  - exfalso.
    match type of Hrun with
    | ?m s = _ => assert (Hrest : aborts_only (fun _ => False) m)
    end.
    { repeat (first [apply authorize_options_aborts|apply aborts_only_modify
                    |step_aborts]). }
    exact (Hrest _ _ _ Hrun).
  - inversion Hrun; subst f' s'.
    destruct (split_password_outcome _ _ Hsplit) as (-> & pos & Hpos & Hblank).
    split; [reflexivity|]. by exists password, pos.
Qed.

End AuthorizeAnswers.

(** ** The identifiers of the messages of the server *)

Section Identifiers.
Context `{Externals}.

Lemma RebuildTemplate_nextid env n :
  preserves (fun s => m_nextid (client s) = n) (RebuildTemplate env).
Proof.
  unfold RebuildTemplate, emit_all.
  repeat (step_preserves;
          try (cbn; rewrite ?(proj1 (proj2 (emit_all_frame _ _))); done)).
Qed.

Lemma AssembleWork_ids env s msgs s' :
  AssembleWork env s = (Ret msgs, s') ->
  exists req diff params,
    msgs = req ++ [set_difficulty (m_nextid (client s)) diff;
                   mining_notify (m_nextid (client s) + 1) params]
    /\ m_nextid (client s') = m_nextid (client s) + Z.of_nat (length msgs)
    /\ (req = []
        \/ exists extranonce1 size,
             req = [set_extranonce (m_nextid (client s) + 2) extranonce1 size]).
Proof.
  unfold AssembleWork. intros Hrun.
  unfold AddMergeMineCommitment, GetExtraNonceRequest, next_id in Hrun.
  repeat inv_ret.
  all: eexists _, _, _.
  all: cbn [client set_client set_work_templates add_event m_nextid
            set_m_nextid set_m_mmwork set_m_last_tip].
  all: split; [reflexivity|].
  all: cbn [length app]; split; [lia|].
  all: first [by left|right; eexists _, _; f_equal; f_equal; lia].
Qed.

(** Each call of [GetWorkUnit] that returns takes as many identifiers as it
    writes messages, in a row from the next one of the session: the first
    for mining.set_difficulty, the second for mining.notify, and the third,
    for a session that subscribed to it, for the mining.set_extranonce that
    is written before the other two. *)
Theorem GetWorkUnit_ids env s msgs s' :
  GetWorkUnit env s = (Ret msgs, s') ->
  exists req diff params,
    msgs = req ++ [set_difficulty (m_nextid (client s)) diff;
                   mining_notify (m_nextid (client s) + 1) params]
    /\ m_nextid (client s') = m_nextid (client s) + Z.of_nat (length msgs)
    /\ (req = []
        \/ exists extranonce1 size,
             req = [set_extranonce (m_nextid (client s) + 2) extranonce1 size]).
Proof.
  intros Hrun. unfold GetWorkUnit in Hrun.
  rewrite bind_gets in Hrun.
  destruct (_ && _); [discriminate|].
  destruct (IsInitialBlockDownload env); [discriminate|].
  destruct (negb _); [discriminate|].
  destruct (GetSecondStageWork env _) as [item|].
  - unfold NotifySecondStage, GetExtraNonceRequest, next_id in Hrun.
    repeat inv_ret.
    all: eexists _, _, _.
    all: cbn [client set_client set_second_stages add_event m_nextid
              set_m_nextid set_m_last_second_stage].
    all: split; [reflexivity|].
    all: cbn [length app]; split; [lia|].
    all: first [by left|right; eexists _, _; f_equal; f_equal; lia].
  - repeat match type of Hrun with
           | bind _ _ _ = (Ret _, _) =>
               let a := fresh "a" in let s1 := fresh "s" in
               let H1 := fresh "Hstep" in
               apply bind_Ret_inv in Hrun as (a & s1 & H1 & Hrun)
           end.
    apply modify_inv in Hstep as [_ ->]. apply modify_inv in Hstep0 as [_ ->].
    pose proof (RebuildTemplate_nextid env (m_nextid (client s)) _ _ _ Hstep1 eq_refl)
      as Hid.
    destruct (AssembleWork_ids env _ _ _ Hrun) as (req & diff & params & Hmsgs & Hn & Hreq).
    rewrite Hid in Hmsgs, Hn, Hreq. by exists req, diff, params.
Qed.

End Identifiers.

(** ** Worked examples *)

Section WordExamples.
#[local] Existing Instance Reference.externals.

(** The compact target 0x1d00ffff. *)
Lemma ParseHexInt4_big_endian_witness :
  ParseHexV_bytes (VSTR "1d00ffff") = Some [x1d; x00; xff; xff]
  /\ ParseHexInt4 (VSTR "1d00ffff") "nBits"
     = Ret (Z_of_byte x1d * 2 ^ 24 + Z_of_byte x00 * 2 ^ 16 + Z_of_byte xff * 2 ^ 8
            + Z_of_byte xff).
Proof.
  assert (Hvch : ParseHexV_bytes (VSTR "1d00ffff") = Some [x1d; x00; xff; xff])
    by (vm_compute; reflexivity).
  split; [exact Hvch|].
  exact (ParseHexInt4_big_endian (VSTR "1d00ffff") "nBits" _ Hvch).
Defined.

Lemma ParseHexInt4_HexInt4_witness :
  ParseHexV_bytes (VSTR (HexInt4 486604799))
  = Some [ byte_of_Z (Z.land (Z.shiftr 486604799 24) 255);
           byte_of_Z (Z.land (Z.shiftr 486604799 16) 255);
           byte_of_Z (Z.land (Z.shiftr 486604799 8) 255);
           byte_of_Z (Z.land 486604799 255) ]
  /\ ParseHexInt4 (VSTR (HexInt4 486604799)) "nBits" = Ret (to_uint32 486604799).
Proof.
  assert (Hcodec : ParseHexV_bytes (VSTR (HexInt4 486604799))
                   = Some [ byte_of_Z (Z.land (Z.shiftr 486604799 24) 255);
                            byte_of_Z (Z.land (Z.shiftr 486604799 16) 255);
                            byte_of_Z (Z.land (Z.shiftr 486604799 8) 255);
                            byte_of_Z (Z.land 486604799 255) ])
    by (vm_compute; reflexivity).
  split; [exact Hcodec|].
  exact (ParseHexInt4_HexInt4 486604799 "nBits" Hcodec).
Defined.


End WordExamples.

Section EvictionMoreExamples.
#[local] Existing Instance Reference.externals.

(** At a rebuild at time 2000 for the job 03.., the template stamped 100
    goes and the one stamped 2000 stays. *)
Lemma RemoveOldTemplates_age_witness :
  ((RemoveOldTemplates (Cases.job x03) 2000 Cases.three_templates) !! Cases.job x02
   = Some (Cases.stamped 2000)
   /\ Cases.job x02 <> Cases.job x03)
  /\ 2000 - 900 <= nTime (header (GetBlock (Cases.stamped 2000))).
Proof.
  assert (Hk : (RemoveOldTemplates (Cases.job x03) 2000 Cases.three_templates)
                 !! Cases.job x02 = Some (Cases.stamped 2000))
    by (vm_compute; reflexivity).
  assert (Hne : Cases.job x02 <> Cases.job x03) by discriminate.
  split; [exact (conj Hk Hne)|].
  exact (RemoveOldTemplates_age _ _ _ _ _ Hk Hne).
Defined.

(** 31 templates at a rebuild at time 1031, the last of them current. *)
Lemma RemoveOldTemplates_bound_witness :
  ((size Cases.many_templates <= 31)%nat
   /\ Cases.many_templates !! Cases.job x00 = Some (Cases.stamped 1000)
   /\ Cases.job x00 <> Cases.job x1e
   /\ nTime (header (GetBlock (Cases.stamped 1000))) <= to_uint32 1031)
  /\ (size (RemoveOldTemplates (Cases.job x1e) 1031 Cases.many_templates) <= 30)%nat.
Proof.
  assert (Hsize : (size Cases.many_templates <= 31)%nat)
    by (apply Nat.leb_le; vm_compute; reflexivity).
  assert (Hk : Cases.many_templates !! Cases.job x00 = Some (Cases.stamped 1000))
    by (vm_compute; reflexivity).
  assert (Hne : Cases.job x00 <> Cases.job x1e) by discriminate.
  assert (Ht : nTime (header (GetBlock (Cases.stamped 1000))) <= to_uint32 1031)
    by (apply Z.leb_le; vm_compute; reflexivity).
  split; [exact (conj Hsize (conj Hk (conj Hne Ht)))|].
  exact (RemoveOldTemplates_bound _ _ _ _ _ Hsize Hk Hne Ht).
Defined.

(** One template stamped 2000 at a rebuild at time 1990. *)
Lemma RemoveOldTemplates_ahead_of_clock_witness :
  RemoveOldTemplates (Cases.job x02) 1990 Cases.early_template = Cases.early_template.
Proof.
  apply RemoveOldTemplates_ahead_of_clock. intros k w Hk _.
  unfold Cases.early_template in Hk. apply lookup_singleton_Some in Hk as [_ <-].
  split; [apply Z.ltb_lt|apply Z.leb_le]; vm_compute; reflexivity.
Defined.

(** Bundles stored at 1000 s and at 1999 s, at a rebuild at 2000 s. *)
Lemma RemoveOldMergeMineWork_age_witness :
  (900 <= 2000 /\ 2000 * 1000 < 2 ^ 64
   /\ (RemoveOldMergeMineWork 2000 Cases.two_bundles) !! Cases.job x02
      = Some (1999000, ∅))
  /\ 2000 * 1000 - 900 * 1000 <= 1999000.
Proof.
  assert (Hk : (RemoveOldMergeMineWork 2000 Cases.two_bundles) !! Cases.job x02
               = Some (1999000, ∅)) by (vm_compute; reflexivity).
  assert (H1 : 900 <= 2000) by lia.
  assert (H2 : 2000 * 1000 < 2 ^ 64) by lia.
  split; [exact (conj H1 (conj H2 Hk))|].
  exact (RemoveOldMergeMineWork_age 2000 _ _ _ _ H1 H2 Hk).
Defined.

Lemma RemoveOldMergeMineWork_bound_witness :
  ((size Cases.two_bundles <= 31)%nat
   /\ Cases.two_bundles !! Cases.job x02 = Some (1999000, ∅)
   /\ 1999000 <= to_uint64 (to_uint64 2000 * 1000))
  /\ (size (RemoveOldMergeMineWork 2000 Cases.two_bundles) <= 30)%nat.
Proof.
  assert (Hsize : (size Cases.two_bundles <= 31)%nat)
    by (apply Nat.leb_le; vm_compute; reflexivity).
  assert (Hk : Cases.two_bundles !! Cases.job x02 = Some (1999000, ∅))
    by (vm_compute; reflexivity).
  assert (Ht : 1999000 <= to_uint64 (to_uint64 2000 * 1000))
    by (apply Z.leb_le; vm_compute; reflexivity).
  split; [exact (conj Hsize (conj Hk Ht))|].
  exact (RemoveOldMergeMineWork_bound 2000 _ _ _ _ Hsize Hk Ht).
Defined.

End EvictionMoreExamples.

Section AuthorizeMoreExamples.
#[local] Existing Instance Reference.externals.

(** A user name that is no address. *)
Lemma stratum_mining_authorize_failure_witness :
  let r := stratum_mining_authorize Cases.authorize_nobody Cases.fresh in
  (stratum_mining_authorize Cases.authorize_nobody Cases.fresh = (fst r, snd r)
   /\ returns (fst r, snd r) = false)
  /\ same_but_logs Cases.fresh (snd r).
Proof.
  intros r.
  pose proof (run_surjective r (fst r) eq_refl) as Hrun.
  assert (Hfail : returns (fst r, snd r) = false) by (vm_compute; reflexivity).
  split; [exact (conj Hrun Hfail)|].
  exact (stratum_mining_authorize_failure _ _ _ _ Hrun Hfail).
Defined.

(** An address and one chain to merge-mine. *)
Lemma stratum_mining_authorize_success_witness :
  let r := stratum_mining_authorize Scenario.authorize_params Cases.fresh in
  stratum_mining_authorize Scenario.authorize_params Cases.fresh
  = (Ret (VBOOL true), snd r)
  /\ m_authorized (client (snd r)) = true
  /\ m_send_work (client (snd r)) = true.
Proof.
  intros r.
  assert (Hfst : fst r = Ret (VBOOL true)) by (vm_compute; reflexivity).
  pose proof (run_surjective r _ Hfst) as Hrun.
  split; [exact Hrun|].
  pose proof (stratum_mining_authorize_success _ _ _ _ Hrun) as (_ & Ha & Hw & _).
  exact (conj Ha Hw).
Defined.

(** The password ",x". *)
Lemma stratum_mining_authorize_blank_first_option_witness :
  (find_char "," 0 (trim ",x") = Some 0%nat
   /\ trim (substring 0 0 (trim ",x")) = EmptyString)
  /\ stratum_mining_authorize (VARR [VSTR Scenario.address; VSTR ",x"]) Cases.fresh
     = (Abort NonTermination, Cases.fresh).
Proof.
  split; [split; reflexivity|].
  exact (stratum_mining_authorize_blank_first_option Scenario.address ",x" 0 Cases.fresh
           eq_refl eq_refl).
Defined.

End AuthorizeMoreExamples.

Section MaskExamples.
#[local] Existing Instance Reference.externals.

(** A miner that asks for all 32 bits gets the sixteen of 0x1fffe000. *)
Lemma stratum_dispatch_mask_witness :
  let r := stratum_dispatch (Scenario.node 0 0 0) "mining.configure"
             Cases.configure_all_bits Cases.fresh in
  (stratum_dispatch (Scenario.node 0 0 0) "mining.configure"
     Cases.configure_all_bits Cases.fresh = (fst r, snd r)
   /\ mask_within_bip320 Cases.fresh)
  /\ mask_within_bip320 (snd r)
  /\ m_version_rolling_mask (client (snd r)) = 536862720.
Proof.
  intros r.
  pose proof (run_surjective r (fst r) eq_refl) as Hrun.
  assert (Hs : mask_within_bip320 Cases.fresh) by reflexivity.
  split; [exact (conj Hrun Hs)|].
  split; [exact (stratum_dispatch_mask _ _ _ _ _ _ Hrun Hs)|].
  vm_compute. reflexivity.
Defined.

End MaskExamples.

Section SubmitMoreExamples.
#[local] Existing Instance Reference.externals.

(** A share for a job nobody was given, on a fresh server. *)
Lemma stratum_mining_submit_caches_witness :
  let r := stratum_mining_submit (Scenario.node 0 0 0) Scenario.submit_unknown Cases.fresh in
  (stratum_mining_submit (Scenario.node 0 0 0) Scenario.submit_unknown Cases.fresh
   = (fst r, snd r)
   /\ work_templates Cases.fresh = ∅ /\ second_stages Cases.fresh = ∅)
  /\ work_templates (snd r) = ∅ /\ second_stages (snd r) = ∅.
Proof.
  intros r.
  pose proof (run_surjective r (fst r) eq_refl) as Hrun.
  assert (Hs : work_templates Cases.fresh = ∅ /\ second_stages Cases.fresh = ∅)
    by (split; reflexivity).
  split; [exact (conj Hrun Hs)|].
  exact (stratum_mining_submit_caches _ _ ∅ ∅ _ _ _ Hrun Hs).
Defined.

End SubmitMoreExamples.

Section BlockExamples.
#[local] Existing Instance Reference.externals.

(** A share that meets the target of the parent chain. *)
Lemma SubmitBlock_result_witness :
  let env := Scenario.node 1000000 0 1000000 in
  let s := Scenario.working_state in
  let r := SubmitBlock env Scenario.working_job Scenario.working_mmroot
             Scenario.working_template [x00; x00; x00; x01] 1000000 0 536870912 s in
  SubmitBlock env Scenario.working_job Scenario.working_mmroot
    Scenario.working_template [x00; x00; x00; x01] 1000000 0 536870912 s
  = (Ret true, snd r)
  /\ m_send_work (client (snd r)) = true || m_send_work (client s).
Proof.
  intros env s r.
  assert (Hfst : fst r = Ret true) by (vm_compute; reflexivity).
  pose proof (run_surjective r _ Hfst) as Hrun.
  split; [exact Hrun|].
  exact (proj1 (SubmitBlock_result env _ _ _ _ _ _ _ s true (snd r) Hrun)).
Defined.

(** The same kind of share on a node where no header meets any target. *)
Lemma SubmitBlock_without_proof_of_work_witness :
  let env := Cases.node_no_pow in
  let s := Cases.no_pow_state in
  let r := SubmitBlock env Cases.no_pow_job uint256_zero Cases.no_pow_template
             [x00; x00; x00; x01] 1000000 0 536870912 s in
  ((forall hash nBits', CheckProofOfWork env hash nBits' 0 = false)
   /\ SubmitBlock env Cases.no_pow_job uint256_zero Cases.no_pow_template
        [x00; x00; x00; x01] 1000000 0 536870912 s
      = (Ret false, snd r))
  /\ block_calls (trace (snd r)) = block_calls (trace s).
Proof.
  intros env s r.
  assert (Hpow : forall hash nBits', CheckProofOfWork env hash nBits' 0 = false)
    by (intros; reflexivity).
  assert (Hfst : fst r = Ret false) by (vm_compute; reflexivity).
  pose proof (run_surjective r _ Hfst) as Hrun.
  split; [exact (conj Hpow Hrun)|].
  exact (proj1 (proj2 (SubmitBlock_without_proof_of_work env _ _ _ _ _ _ _ s false (snd r)
                         Hpow Hrun))).
Defined.

End BlockExamples.

Section SecondStageMoreExamples.
#[local] Existing Instance Reference.externals.

(** The authorized session while [chain_a] offers the job "abcd". *)
Lemma GetWorkUnit_second_stage_witness :
  let env := Scenario.node_second_stage 1000000 0 1000000 in
  let s := Scenario.authorized_state in
  let item := (Scenario.chain_a, Scenario.second_stage_work) in
  (vNodes_empty env && negb (MineBlocksOnDemand env) = false
   /\ IsInitialBlockDownload env = false
   /\ m_authorized (client s) = true
   /\ GetSecondStageWork env (fst <$> m_last_second_stage (client s)) = Some item)
  /\ exists req id_diff diff id params s',
       GetWorkUnit env s
       = (Ret (req ++ [set_difficulty id_diff diff; mining_notify id params]), s')
       /\ second_stages s' !! "abcd"%string = Some item
       /\ np_clean_jobs params = true.
Proof.
  intros env s item.
  assert (Hauth : m_authorized (client s) = true) by (vm_compute; reflexivity).
  assert (Hlast : negb (bool_decide (m_last_second_stage (client s)
                                     = Some (fst item, ss_hashPrevBlock (snd item))))
                  = true) by (vm_compute; reflexivity).
  split; [exact (conj eq_refl (conj eq_refl (conj Hauth eq_refl)))|].
  destruct (GetWorkUnit_second_stage env s item eq_refl eq_refl Hauth eq_refl)
    as (req & id_diff & diff & id & params & s' & Hrun & Hjob & _ & _ & Hclean & _).
  exists req, id_diff, diff, id, params, s'.
  split; [exact Hrun|]. split; [exact Hjob|].
  rewrite Hclean. exact Hlast.
Defined.

End SecondStageMoreExamples.

Section ReadCallbackExamples.
#[local] Existing Instance Reference.externals.

(** A line that is not JSON, on a fresh session. *)
Lemma stratum_read_cb_contained_witness :
  let r := stratum_read_cb (Scenario.node 0 0 0) [Cases.line_garbage] false Cases.fresh in
  stratum_read_cb (Scenario.node 0 0 0) [Cases.line_garbage] false Cases.fresh
  = (Ret ([ReplyError RPC_PARSE_ERROR "Parse error"], None), snd r)
  /\ m_send_work (client (snd r)) = false.
Proof.
  intros r.
  assert (Hfst : fst r = Ret ([ReplyError RPC_PARSE_ERROR "Parse error"], None))
    by (vm_compute; reflexivity).
  pose proof (run_surjective r _ Hfst) as Hrun.
  split; [exact Hrun|].
  exact (proj2 (stratum_read_cb_contained _ _ _ _ _ _ Hrun) _ eq_refl).
Defined.

(** A mining.authorize request on a node that is still downloading blocks:
    the reply is followed by the error of the node. *)
Lemma stratum_read_cb_sends_pending_work_witness :
  let env := Cases.node_downloading in
  let r := stratum_read_cb env [Cases.line_garbage] false Scenario.authorized_state in
  (m_send_work (client Scenario.authorized_state) = true
   /\ stratum_read_cb env [Cases.line_garbage] false Scenario.authorized_state
      = (Ret ([ReplyError RPC_PARSE_ERROR "Parse error"],
              Some (WorkError RPC_CLIENT_IN_INITIAL_DOWNLOAD
                      "Bitcoin is downloading blocks...")), snd r))
  /\ is_Some (Some (WorkError RPC_CLIENT_IN_INITIAL_DOWNLOAD
                      "Bitcoin is downloading blocks...")).
Proof.
  intros env r.
  assert (Hs : m_send_work (client Scenario.authorized_state) = true)
    by (vm_compute; reflexivity).
  assert (Hfst : fst r = Ret ([ReplyError RPC_PARSE_ERROR "Parse error"],
                              Some (WorkError RPC_CLIENT_IN_INITIAL_DOWNLOAD
                                      "Bitcoin is downloading blocks...")))
    by (vm_compute; reflexivity).
  pose proof (run_surjective r _ Hfst) as Hrun.
  split; [exact (conj Hs Hrun)|].
  exact (proj2 (stratum_read_cb_sends_pending_work env [Cases.line_garbage] false)
           _ _ _ _ Hs Hrun).
Defined.

Lemma stratum_read_cb_after_authorize_witness :
  let env := Cases.node_downloading in
  let r := stratum_read_cb env [] false Scenario.authorized_state in
  (m_authorized (client Scenario.authorized_state) = true
   /\ m_send_work (client Scenario.authorized_state) = true
   /\ stratum_read_cb env [] false Scenario.authorized_state
      = (Ret ([], Some (WorkError RPC_CLIENT_IN_INITIAL_DOWNLOAD
                          "Bitcoin is downloading blocks...")), snd r))
  /\ exists d,
       Some (WorkError RPC_CLIENT_IN_INITIAL_DOWNLOAD "Bitcoin is downloading blocks...")
       = Some d
       /\ forall message, d <> WorkError RPC_INVALID_REQUEST message.
Proof.
  intros env r.
  assert (Ha : m_authorized (client Scenario.authorized_state) = true)
    by (vm_compute; reflexivity).
  assert (Hs : m_send_work (client Scenario.authorized_state) = true)
    by (vm_compute; reflexivity).
  assert (Hfst : fst r = Ret ([], Some (WorkError RPC_CLIENT_IN_INITIAL_DOWNLOAD
                                          "Bitcoin is downloading blocks...")))
    by (vm_compute; reflexivity).
  pose proof (run_surjective r _ Hfst) as Hrun.
  split; [exact (conj Ha (conj Hs Hrun))|].
  exact (stratum_read_cb_after_authorize env [] false _ _ _ _ Ha Hs Hrun).
Defined.

End ReadCallbackExamples.

Section WatcherExamples.
#[local] Existing Instance Reference.externals.

Lemma BlockWatcher_client_many_commitments_witness :
  let env := Cases.node_two_commitments in
  let s := Scenario.authorized_state in
  (m_authorized (client s) = true
   /\ GetSecondStageWork env (fst <$> m_last_second_stage (client s)) = None
   /\ (1 < size (GetMergeMineWork env (m_mmauth (client s))))%nat)
  /\ BlockWatcher_client env false s = (Throw (runtime_error MoreThanOneCommitment), s).
Proof.
  intros env s.
  assert (Ha : m_authorized (client s) = true) by (vm_compute; reflexivity).
  assert (Hsize : (1 < size (GetMergeMineWork env (m_mmauth (client s))))%nat)
    by (apply Nat.ltb_lt; vm_compute; reflexivity).
  split; [exact (conj Ha (conj eq_refl Hsize))|].
  exact (BlockWatcher_client_many_commitments env false s Ha eq_refl Hsize).
Defined.

(** The watcher on a node without auxiliary work. *)
Lemma BlockWatcher_client_without_merge_mining_witness :
  let env := Cases.node_downloading in
  let s := Scenario.authorized_state in
  let r := BlockWatcher_client env false s in
  (m_authorized (client s) = true
   /\ GetSecondStageWork env (fst <$> m_last_second_stage (client s)) = None
   /\ GetMergeMineWork env (m_mmauth (client s)) = ∅
   /\ m_mmwork (client s) !! uint256_zero = None
   /\ BlockWatcher_client env false s = (fst r, snd r))
  /\ fst r <> Ret None.
Proof.
  intros env s r.
  assert (Ha : m_authorized (client s) = true) by (vm_compute; reflexivity).
  assert (Hss : GetSecondStageWork env (fst <$> m_last_second_stage (client s)) = None)
    by reflexivity.
  assert (Hmm : GetMergeMineWork env (m_mmauth (client s)) = ∅) by reflexivity.
  assert (Hzero : m_mmwork (client s) !! uint256_zero = None) by (vm_compute; reflexivity).
  pose proof (run_surjective r (fst r) eq_refl) as Hrun.
  split; [exact (conj Ha (conj Hss (conj Hmm (conj Hzero Hrun))))|].
  exact (proj1 (BlockWatcher_client_without_merge_mining env false s (fst r) (snd r)
                  Ha Hss Hmm Hzero Hrun)).
Defined.

End WatcherExamples.

Section BundleExamples.
#[local] Existing Instance Reference.externals.

(** The block-final transaction of the first template of the session that
    merge-mines [chain_a]. *)
Lemma AddMergeMineCommitment_on_record_witness :
  let env := Scenario.node 1000000 0 1000000 in
  let s := Scenario.authorized_state in
  let work := StratumWork_new (Some Scenario.tip100) 101 (Scenario.template 1000000 0) in
  let r := AddMergeMineCommitment env work Scenario.block_final s in
  let mmroot := match fst r with Ret (_, _, mmroot) => mmroot | _ => uint256_zero end in
  let bf := match fst r with Ret (bf, _, _) => bf | _ => Scenario.block_final end in
  AddMergeMineCommitment env work Scenario.block_final s = (Ret (bf, true, mmroot), snd r)
  /\ m_mmwork (client (snd r)) !! mmroot
     = Some (default (to_uint64 (GetTimeMillis env),
                      GetMergeMineWork env (m_mmauth (client s)))
                     (m_mmwork (client s) !! mmroot)).
Proof.
  intros env s work r mmroot bf.
  assert (Hfst : fst r = Ret (bf, true, mmroot)) by (vm_compute; reflexivity).
  pose proof (run_surjective r _ Hfst) as Hrun.
  split; [exact Hrun|].
  exact (proj2 (AddMergeMineCommitment_on_record env work Scenario.block_final s
                  bf mmroot (snd r) Hrun)).
Defined.

End BundleExamples.

Section ShareExamples.
#[local] Existing Instance Reference.externals.

Lemma Share_GetBlockHeader_ignores_coinbase_witness :
  let wit := Cases.share_witness [x01] 5 (repeat x0a 32) in
  let wit' := Cases.share_witness [x02; x03] 9 (repeat x0b 32) in
  let header (share : Share unit unit) :=
    fst (Share_GetBlockHeader (fun v => le_bytes 4 v) (fun v => le_bytes 4 v)
           (fun v => le_bytes 4 v) (fun v => le_bytes 4 v) (fun _ => []) (fun v => le_bytes 1 v)
           (fun _ => uint256_zero) (fun n m => Reference.sha256 (repeat x00 n ++ m))
           (fun h _ path => (Reference.sha256 (h ++ path), false)) share true) in
  header (Cases.share wit) = header (Cases.share wit').
Proof.
  intros wit wit' header.
  exact (Share_GetBlockHeader_ignores_coinbase _ _ _ _ _ _ _ _ _
           (Cases.share wit) (Cases.share wit') true true
           eq_refl eq_refl eq_refl eq_refl eq_refl eq_refl
           eq_refl eq_refl eq_refl eq_refl eq_refl eq_refl).
Defined.

End ShareExamples.

Section RoundTripExamples.
#[local] Existing Instance Reference.externals.

(** The watcher while [chain_a] offers the job "abcd" to a session that has
    not seen it. *)
Lemma BlockWatcher_client_second_stage_clean_witness :
  let env := Scenario.node_second_stage 1000000 0 1000000 in
  let s := Scenario.authorized_state in
  let item := (Scenario.chain_a, Scenario.second_stage_work) in
  let r := BlockWatcher_client env false s in
  let msgs := match fst r with Ret (Some (WorkUnit msgs)) => msgs | _ => [] end in
  (GetSecondStageWork env (fst <$> m_last_second_stage (client s)) = Some item
   /\ BlockWatcher_client env false s = (Ret (Some (WorkUnit msgs)), snd r))
  /\ exists req id_diff diff id params,
       msgs = req ++ [set_difficulty id_diff diff; mining_notify id params]
       /\ np_job_id params = ":" +:+ ss_job_id (snd item)
       /\ np_clean_jobs params = true.
Proof.
  intros env s item r msgs.
  assert (Hss : GetSecondStageWork env (fst <$> m_last_second_stage (client s)) = Some item)
    by reflexivity.
  assert (Hfst : fst r = Ret (Some (WorkUnit msgs))) by (vm_compute; reflexivity).
  pose proof (run_surjective r _ Hfst) as Hrun.
  split; [exact (conj Hss Hrun)|].
  exact (BlockWatcher_client_second_stage_clean env false s item msgs (snd r) Hss Hrun).
Defined.

(** The job "abcd" and a share for it. *)
Lemma second_stage_round_trip_witness :
  let env := Scenario.node_second_stage 1000000 0 1000000 in
  let s := Scenario.authorized_state in
  let item := (Scenario.chain_a, Scenario.second_stage_work) in
  let params := Scenario.submit_second_stage in
  (vNodes_empty env && negb (MineBlocksOnDemand env) = false
   /\ IsInitialBlockDownload env = false
   /\ m_authorized (client s) = true
   /\ GetSecondStageWork env (fst <$> m_last_second_stage (client s)) = Some item
   /\ UniValue_size params = 5%nat
   /\ UniValue_index params 1 = VSTR (":" +:+ ss_job_id (snd item))
   /\ ParseHexV_bytes (UniValue_index params 2) = Some [x00; x00; x00; x01]
   /\ length [x00; x00; x00; x01] = 4%nat
   /\ ParseHexInt4 (UniValue_index params 3) "nTime" = Ret 1000000
   /\ ParseHexInt4 (UniValue_index params 4) "nNonce" = Ret 0)
  /\ exists msgs s1 res s2,
       GetWorkUnit env s = (Ret msgs, s1)
       /\ SubmitSecondStage env (fst item) (snd item) [x00; x00; x00; x01] 1000000 0
            (to_uint32 (ss_nVersion (snd item))) s1 = (Ret res, s2)
       /\ stratum_mining_submit env params s1 = (Ret (VBOOL true), s2).
Proof.
  intros env s item params.
  assert (Ha : m_authorized (client s) = true) by (vm_compute; reflexivity).
  assert (Hss : GetSecondStageWork env (fst <$> m_last_second_stage (client s)) = Some item)
    by reflexivity.
  assert (He2 : ParseHexV_bytes (UniValue_index params 2) = Some [x00; x00; x00; x01])
    by (vm_compute; reflexivity).
  assert (Ht : ParseHexInt4 (UniValue_index params 3) "nTime" = Ret 1000000)
    by (vm_compute; reflexivity).
  assert (Hn : ParseHexInt4 (UniValue_index params 4) "nNonce" = Ret 0)
    by (vm_compute; reflexivity).
  split.
  { exact (conj eq_refl (conj eq_refl (conj Ha (conj Hss (conj eq_refl (conj eq_refl
             (conj He2 (conj eq_refl (conj Ht Hn))))))))). }
  exact (second_stage_round_trip env env s item params [x00; x00; x00; x01] 1000000 0
           eq_refl eq_refl Ha Hss eq_refl eq_refl He2 eq_refl Ht Hn).
Defined.

End RoundTripExamples.

Section AnswersExamples.
#[local] Existing Instance Reference.externals.

(** The password ",x" again. *)
Lemma stratum_mining_authorize_answers_witness :
  stratum_mining_authorize (VARR [VSTR Scenario.address; VSTR ",x"]) Cases.fresh
  = (Abort NonTermination, Cases.fresh)
  /\ NonTermination = NonTermination
  /\ exists password pos,
       get_str (UniValue_index (VARR [VSTR Scenario.address; VSTR ",x"]) 1) = Ret password
       /\ find_char "," 0 (trim password) = Some pos
       /\ trim (substring 0 pos (trim password)) = EmptyString.
Proof.
  assert (Hrun : stratum_mining_authorize (VARR [VSTR Scenario.address; VSTR ",x"])
                   Cases.fresh = (Abort NonTermination, Cases.fresh))
    by (vm_compute; reflexivity).
  split; [exact Hrun|].
  exact (stratum_mining_authorize_answers _ _ _ _ Hrun).
Defined.

End AnswersExamples.

Section IdentifierExamples.
#[local] Existing Instance Reference.externals.

(** The first messages of the authorized session. *)
Lemma GetWorkUnit_ids_witness :
  let env := Scenario.node_second_stage 1000000 0 1000000 in
  let s := Scenario.authorized_state in
  let r := GetWorkUnit env s in
  let msgs := match fst r with Ret msgs => msgs | _ => [] end in
  GetWorkUnit env s = (Ret msgs, snd r)
  /\ exists req diff params,
       msgs = req ++ [set_difficulty (m_nextid (client s)) diff;
                      mining_notify (m_nextid (client s) + 1) params]
       /\ m_nextid (client (snd r)) = m_nextid (client s) + Z.of_nat (length msgs)
       /\ (req = []
           \/ exists extranonce1 size,
                req = [set_extranonce (m_nextid (client s) + 2) extranonce1 size]).
Proof.
  intros env s r msgs.
  assert (Hfst : fst r = Ret msgs) by (vm_compute; reflexivity).
  pose proof (run_surjective r _ Hfst) as Hrun.
  split; [exact Hrun|].
  exact (GetWorkUnit_ids env s msgs (snd r) Hrun).
Defined.

End IdentifierExamples.
